(** * Manufacturing orders and FEFO allocation: a shallow embedding

    The Python sources ([modules/production.py], [modules/inventory.py],
    [modules/bom.py] and the Streamlit pages) keep every piece of state in
    MySQL tables and compute most of their results inside SQL statements.
    The embedding therefore models

    - each table as a list of rows (a record per row, insertion order),
    - each SQL statement as the list function it denotes in MySQL
      (WHERE as [filter], JOIN as nested [flat_map], GROUP BY / ORDER BY
      as a fold and a stable sort, UPDATE as [map], INSERT as append),
    - quantities as rationals [Q]: DECIMAL columns and SQL arithmetic
      exactly, the float64 values of a DataFrame and [float(...)] by
      rounding to the 53-bit significand of binary64 ([to_float]),
    - DATE values as day numbers and NULL as [None],
    - a manual transaction ([conn.begin] / [commit] / [rollback]) as a
      function from the state before the call to the committed state and
      the outcome of the call.

    Columns that no modelled statement reads (created_by, updated_date,
    notes, order_date, scheduled_date, ...) are left out of the rows, and
    so are LEFT JOINs that only add display columns.  Strings are compared
    code point by code point. *)

From Stdlib Require Import ZArith QArith Qminmax Lqa Lia List String Ascii Bool.
From Stdlib Require Import Permutation Sorted.
Import ListNotations.

Open Scope Q_scope.

(** ** Numbers *)

Definition Qltb (x y : Q) : bool := negb (Qle_bool y x).

(** Python's [min(a, b)]: the first argument unless the second is smaller. *)
Definition py_min (a b : Q) : Q := if Qltb b a then b else a.

(** Python's [int(x)] on a number: truncation towards zero. *)
Definition py_int (x : Q) : Z := Z.quot (Qnum x) (Zpos (Qden x)).

Fixpoint Qsum (l : list Q) : Q :=
  match l with
  | [] => 0
  | x :: r => x + Qsum r
  end.

(** ** binary64 *)

(** [n / d / 2^e] as a fraction. *)
Definition scale (n d e : Z) : Z * Z :=
  (if 0 <=? e then (n, d * 2 ^ e) else (n * 2 ^ (- e), d))%Z.

(** The largest [k] with [2^k <= n / d], for positive [n] and [d]. *)
Definition floor_log2 (n d : Z) : Z :=
  (let k := Z.log2 n - Z.log2 d in
   let (a, b) := scale n d k in
   if a <? b then k - 1 else k)%Z.

(** The integer nearest to [a / b], ties to even. *)
Definition round_half_even (a b : Z) : Z :=
  (let q := a / b in
   match 2 * (a mod b) ?= b with
   | Lt => q
   | Gt => q + 1
   | Eq => if Z.even q then q else q + 1
   end)%Z.

(** [float(x)], and what [read_sql] makes of a DECIMAL: the binary64
    number nearest to [x], ties to even.  The 53-bit significand is
    modelled; the exponent range is not (a difference of two floats of
    one sign stays inside it, and so does what a DECIMAL column holds). *)
Definition to_float (x : Q) : Q :=
  let n := Qnum (Qred x) in
  let d := Zpos (Qden (Qred x)) in
  if (n =? 0)%Z then 0
  else
    let e := (floor_log2 (Z.abs n) d - 52)%Z in
    let (a, b) := scale (Z.abs n) d e in
    let m := (Z.sgn n * round_half_even a b)%Z in
    Qred (if (0 <=? e)%Z then inject_Z (m * 2 ^ e)
          else Qmake m (Z.to_pos (2 ^ (- e)))).

(** [x - y] on two floats. *)
Definition float_sub (x y : Q) : Q := to_float (x - y).

(** A whole number of at most 2^53 in magnitude: binary64 holds it, and
    the differences of two such numbers of one sign, exactly. *)
Definition whole (x : Q) : Prop :=
  exists n : Z, x == inject_Z n /\ (Z.abs n <= 2 ^ 53)%Z.

(** Stable insertion sort, the reading of ORDER BY over a row list. *)
Section Sorting.
Context {A : Type} (leb : A -> A -> bool).

Fixpoint insert_sorted (x : A) (l : list A) : list A :=
  match l with
  | [] => [x]
  | y :: r => if leb x y then x :: l else y :: insert_sorted x r
  end.

Fixpoint order_by (l : list A) : list A :=
  match l with
  | [] => []
  | x :: r => insert_sorted x (order_by r)
  end.
End Sorting.

(** AUTO_INCREMENT key of the next inserted row ([result.lastrowid]). *)
Definition fresh_id (ids : list Z) : Z := (1 + fold_right Z.max 0 ids)%Z.

(** ** Dates and timestamps *)

(** A DATE is its proleptic Gregorian day number ([date.toordinal()]). *)
Definition date := Z.

Definition ymd (y m d : Z) : date :=
  (let y' := if m <=? 2 then y - 1 else y in
   let era := y' / 400 in
   let yoe := y' - era * 400 in
   let mp := if m <=? 2 then m + 9 else m - 3 in
   let doy := (153 * mp + 2) / 5 + d - 1 in
   let doe := yoe * 365 + yoe / 4 - yoe / 100 + doy in
   era * 146097 + doe - 305)%Z.

(** [datetime.now()]: the wall clock is an input of every operation. *)
Record datetime := mk_datetime {
  dt_year : nat; dt_month : nat; dt_day : nat;
  dt_hour : nat; dt_minute : nat; dt_second : nat;
  dt_microsecond : nat }.

Definition digit (n : nat) : ascii := ascii_of_nat (48 + n mod 10).

Definition pad2 (n : nat) : string :=
  String (digit (n / 10)) (String (digit n) EmptyString).

Definition pad4 (n : nat) : string :=
  String (digit (n / 1000)) (String (digit (n / 100)) (pad2 n)).

(** [strftime('%Y%m%d%H%M%S')] *)
Definition strftime_YmdHMS (t : datetime) : string :=
  (pad4 (dt_year t) ++ pad2 (dt_month t) ++ pad2 (dt_day t) ++
   pad2 (dt_hour t) ++ pad2 (dt_minute t) ++ pad2 (dt_second t))%string.

(** ** Outcomes *)

(** The exceptions the modelled paths raise: the [TypeError] of
    subscripting the [None] of a missing order, and the rejection of the
    allocation routine. *)
Inductive error : Type :=
| TypeError
| InsufficientStockError.

Inductive result (A : Type) : Type :=
| Ok (a : A)
| Err (e : error).
Arguments Ok {A} a.
Arguments Err {A} e.

Definition bind {A B} (r : result A) (k : A -> result B) : result B :=
  match r with
  | Ok a => k a
  | Err e => Err e
  end.

Notation "x <- c ;; k" := (bind c (fun x => k))
  (at level 61, c at next level, right associativity).

Definition is_ok {A} (r : result A) : bool :=
  match r with Ok _ => true | Err _ => false end.

(** ** Tables *)

Inductive order_status := CONFIRMED | IN_PROGRESS | COMPLETED | CANCELLED.
Inductive material_status := PENDING | ISSUED.
Inductive bom_type := KITTING | CUTTING | REPACKING.
Inductive bom_status := DRAFT | ACTIVE | INACTIVE.
Inductive material_type := RAW_MATERIAL | PACKAGING | CONSUMABLE.
(** inventory_histories.type: the two production movements the code
    names, and [stockIn] for stock received otherwise. *)
Inductive movement := stockIn | stockInProduction | stockOutProduction.
Inductive expiry_class := EXPIRED | CRITICAL | WARNING | OK_.

Definition order_status_eqb (a b : order_status) : bool :=
  match a, b with
  | CONFIRMED, CONFIRMED | IN_PROGRESS, IN_PROGRESS
  | COMPLETED, COMPLETED | CANCELLED, CANCELLED => true
  | _, _ => false
  end.

Definition bom_status_eqb (a b : bom_status) : bool :=
  match a, b with
  | DRAFT, DRAFT | ACTIVE, ACTIVE | INACTIVE, INACTIVE => true
  | _, _ => false
  end.

Definition bom_type_eqb (a b : bom_type) : bool :=
  match a, b with
  | KITTING, KITTING | CUTTING, CUTTING | REPACKING, REPACKING => true
  | _, _ => false
  end.

Record product := mk_product {
  p_id : Z; p_name : string }.

Record warehouse := mk_warehouse {
  w_id : Z; w_name : string; w_company_id : option Z;
  w_delete_flag : bool }.

Record bom_header := mk_bom_header {
  h_id : Z; h_bom_type : bom_type; h_product_id : Z; h_uom : string;
  h_status : bom_status; h_delete_flag : bool }.

Record bom_detail := mk_bom_detail {
  d_bom_header_id : Z; d_material_id : Z; d_material_type : material_type;
  d_quantity : Q; d_uom : string; d_scrap_rate : Q }.

Record manufacturing_order := mk_order {
  o_id : Z; o_entity_id : option Z; o_order_no : string;
  o_bom_header_id : Z; o_product_id : Z;
  o_planned_qty : Q; o_produced_qty : Q; o_uom : string;
  o_warehouse_id : Z; o_target_warehouse_id : Z;
  o_status : order_status; o_priority : string;
  o_completion_date : option datetime; o_delete_flag : bool }.

Record order_material := mk_order_material {
  m_id : Z; m_order_id : Z; m_material_id : Z;
  m_required_qty : Q; m_issued_qty : Q; m_uom : string;
  m_warehouse_id : Z; m_status : material_status }.

Record inventory_history := mk_inventory {
  ih_id : Z; ih_type : movement; ih_product_id : Z; ih_warehouse_id : Z;
  ih_quantity : Q; ih_remain : Q; ih_batch_no : string;
  ih_expired_date : option date; ih_action_detail_id : Z;
  ih_group_id : string; ih_delete_flag : bool }.

Record material_issue := mk_issue {
  mi_id : Z; mi_issue_no : string; mi_order_id : Z; mi_warehouse_id : Z;
  mi_issued_by : Z; mi_group_id : string }.

Record material_issue_detail := mk_issue_detail {
  mid_issue_id : Z; mid_order_id : Z; mid_material_id : Z;
  mid_inventory_history_id : Z; mid_batch_no : string; mid_quantity : Q }.

Record production_receipt := mk_receipt {
  pr_id : Z; pr_receipt_no : string; pr_order_id : Z; pr_product_id : Z;
  pr_quantity : Q; pr_uom : string; pr_batch_no : string;
  pr_warehouse_id : Z; pr_quality_status : string }.

(** The database: one list per table. *)
Record db := mk_db {
  products : list product;
  warehouses : list warehouse;
  bom_headers : list bom_header;
  bom_details : list bom_detail;
  manufacturing_orders : list manufacturing_order;
  manufacturing_order_materials : list order_material;
  inventory_histories : list inventory_history;
  material_issues : list material_issue;
  material_issue_details : list material_issue_detail;
  production_receipts : list production_receipt }.

Definition empty_db : db := mk_db [] [] [] [] [] [] [] [] [] [].

Definition set_orders (l : list manufacturing_order) (s : db) : db :=
  mk_db (products s) (warehouses s) (bom_headers s) (bom_details s) l
        (manufacturing_order_materials s) (inventory_histories s)
        (material_issues s) (material_issue_details s) (production_receipts s).

Definition set_order_materials (l : list order_material) (s : db) : db :=
  mk_db (products s) (warehouses s) (bom_headers s) (bom_details s)
        (manufacturing_orders s) l (inventory_histories s)
        (material_issues s) (material_issue_details s) (production_receipts s).

Definition set_inventory (l : list inventory_history) (s : db) : db :=
  mk_db (products s) (warehouses s) (bom_headers s) (bom_details s)
        (manufacturing_orders s) (manufacturing_order_materials s) l
        (material_issues s) (material_issue_details s) (production_receipts s).

Definition set_issues (l : list material_issue) (s : db) : db :=
  mk_db (products s) (warehouses s) (bom_headers s) (bom_details s)
        (manufacturing_orders s) (manufacturing_order_materials s)
        (inventory_histories s) l (material_issue_details s)
        (production_receipts s).

Definition set_issue_details (l : list material_issue_detail) (s : db) : db :=
  mk_db (products s) (warehouses s) (bom_headers s) (bom_details s)
        (manufacturing_orders s) (manufacturing_order_materials s)
        (inventory_histories s) (material_issues s) l (production_receipts s).

Definition set_receipts (l : list production_receipt) (s : db) : db :=
  mk_db (products s) (warehouses s) (bom_headers s) (bom_details s)
        (manufacturing_orders s) (manufacturing_order_materials s)
        (inventory_histories s) (material_issues s)
        (material_issue_details s) l.

Definition set_bom_headers (l : list bom_header) (s : db) : db :=
  mk_db (products s) (warehouses s) l (bom_details s)
        (manufacturing_orders s) (manufacturing_order_materials s)
        (inventory_histories s) (material_issues s)
        (material_issue_details s) (production_receipts s).

Definition set_bom_details (l : list bom_detail) (s : db) : db :=
  mk_db (products s) (warehouses s) (bom_headers s) l
        (manufacturing_orders s) (manufacturing_order_materials s)
        (inventory_histories s) (material_issues s)
        (material_issue_details s) (production_receipts s).

(** ** modules/inventory.py *)

Module Inventory.

(** Truthiness of an optional id argument ([if warehouse_id:]). *)
Definition truthy_id (x : option Z) : option Z :=
  match x with
  | Some w => if (w =? 0)%Z then None else Some w
  | None => None
  end.

(** [get_stock_balance]: COALESCE(SUM(remain), 0) over the live rows of a
    product, restricted to a warehouse when one is given. *)
Definition get_stock_balance (s : db) (product_id : Z)
           (warehouse_id : option Z) : Q :=
  Qsum (map ih_remain
    (filter (fun r =>
       (ih_product_id r =? product_id)%Z
       && Qltb 0 (ih_remain r)
       && negb (ih_delete_flag r)
       && match truthy_id warehouse_id with
          | Some w => (ih_warehouse_id r =? w)%Z
          | None => true
          end)
     (inventory_histories s))).

Record batch_row := mk_batch {
  b_batch_no : string; b_available_qty : Q;
  b_expired_date : option date; b_expiry_status : expiry_class }.

(** The CASE expression of [get_stock_by_batch]; a comparison with a NULL
    date is not true, so a row without expiry falls through to 'OK'. *)
Definition expiry_status (today : date) (e : option date) : expiry_class :=
  match e with
  | None => OK_
  | Some d =>
      if (d <? today)%Z then EXPIRED
      else if (d <=? today + 7)%Z then CRITICAL
      else if (d <=? today + 30)%Z then WARNING
      else OK_
  end.

(** WHERE clause of [get_stock_by_batch]. *)
Definition stock_rows (s : db) (product_id warehouse_id : Z)
  : list inventory_history :=
  filter (fun r =>
      (ih_product_id r =? product_id)%Z
      && (ih_warehouse_id r =? warehouse_id)%Z
      && Qltb 0 (ih_remain r)
      && negb (ih_delete_flag r))
    (inventory_histories s).

Definition option_date_eqb (a b : option date) : bool :=
  match a, b with
  | None, None => true
  | Some x, Some y => (x =? y)%Z
  | _, _ => false
  end.

(** GROUP BY batch_no, expired_date with SUM(remain). *)
Fixpoint add_to_groups (today : date) (g : list batch_row)
         (r : inventory_history) : list batch_row :=
  match g with
  | [] => [mk_batch (ih_batch_no r) (ih_remain r) (ih_expired_date r)
                    (expiry_status today (ih_expired_date r))]
  | b :: g' =>
      if String.eqb (b_batch_no b) (ih_batch_no r)
         && option_date_eqb (b_expired_date b) (ih_expired_date r)
      then mk_batch (b_batch_no b) (b_available_qty b + ih_remain r)
                    (b_expired_date b) (b_expiry_status b) :: g'
      else b :: add_to_groups today g' r
  end.

Definition group_by_batch (today : date) (rows : list inventory_history)
  : list batch_row :=
  fold_left (add_to_groups today) rows [].

(** ORDER BY expired_date ASC, batch_no ASC.  MySQL orders NULL before
    every non-NULL value in an ascending sort. *)
Definition fefo_order_leb (a b : batch_row) : bool :=
  match b_expired_date a, b_expired_date b with
  | None, None => String.leb (b_batch_no a) (b_batch_no b)
  | None, Some _ => true
  | Some _, None => false
  | Some x, Some y =>
      if (x <? y)%Z then true
      else if (y <? x)%Z then false
      else String.leb (b_batch_no a) (b_batch_no b)
  end.

Definition get_stock_by_batch (today : date) (s : db)
           (product_id warehouse_id : Z) : list batch_row :=
  order_by fefo_order_leb
    (group_by_batch today (stock_rows s product_id warehouse_id)).

Record selected_batch := mk_selected {
  sel_batch_no : string; sel_quantity : Q;
  sel_expired_date : option date; sel_expiry_status : expiry_class }.

(** [batch['available_qty']]: the frame [read_sql] returns holds the
    DECIMAL sum as a float64. *)
Definition frame_qty (batch : batch_row) : Q :=
  to_float (b_available_qty batch).

(** The [for] loop of [preview_fefo_issue], on the floats of the frame:
    [remaining_qty -= take_qty] is a float64 subtraction. *)
Fixpoint preview_loop (batches : list batch_row) (remaining_qty : Q)
  : list selected_batch :=
  match batches with
  | [] => []
  | batch :: rest =>
      if Qle_bool remaining_qty 0 then []
      else
        let take_qty := py_min remaining_qty (frame_qty batch) in
        mk_selected (b_batch_no batch) take_qty (b_expired_date batch)
                    (b_expiry_status batch)
        :: preview_loop rest (float_sub remaining_qty take_qty)
  end.

Definition preview_fefo_issue (today : date) (s : db) (product_id : Z)
           (quantity : Q) (warehouse_id : Z) : list selected_batch :=
  match get_stock_by_batch today s product_id warehouse_id with
  | [] => []
  | batches => preview_loop batches quantity
  end.

(** Total remain of the lots [get_stock_by_batch] reads. *)
Definition total_available (s : db) (product_id warehouse_id : Z) : Q :=
  Qsum (map ih_remain (stock_rows s product_id warehouse_id)).

Definition get_warehouses (s : db) : list warehouse :=
  filter (fun w => negb (w_delete_flag w)) (warehouses s).

End Inventory.

(** ** modules/bom.py *)

Module BOM.

(** [get_boms]: headers joined with their output product. *)
Definition get_boms (s : db) (type : option bom_type)
           (status : option bom_status) : list bom_header :=
  flat_map (fun h =>
      map (fun _ => h)
          (filter (fun p => (h_product_id h =? p_id p)%Z) (products s)))
    (filter (fun h =>
         negb (h_delete_flag h)
         && match type with
            | Some t => bom_type_eqb (h_bom_type h) t
            | None => true
            end
         && match status with
            | Some st => bom_status_eqb (h_status h) st
            | None => true
            end)
       (bom_headers s)).

Definition get_active_boms (s : db) (type : option bom_type)
  : list bom_header :=
  get_boms s type (Some ACTIVE).

Definition get_bom_info (s : db) (bom_id : Z) : option bom_header :=
  hd_error
    (flat_map (fun h =>
         map (fun _ => h)
             (filter (fun p => (h_product_id h =? p_id p)%Z) (products s)))
       (filter (fun h => (h_id h =? bom_id)%Z) (bom_headers s))).

Record material_input := mk_material_input {
  mat_material_id : Z; mat_material_type : material_type;
  mat_quantity : Q; mat_uom : string;
  mat_scrap_rate : option Q (* [material.get('scrap_rate', 0)] *) }.

Record bom_data := mk_bom_data {
  bd_bom_type : bom_type; bd_product_id : Z; bd_uom : string;
  bd_materials : list material_input }.

(** [create_bom]: one header in status DRAFT and one detail row per
    material; returns the new header id with the state (the generated
    bom_code is a column no modelled statement reads). *)
Definition create_bom (data : bom_data) (s : db) : db * Z :=
  let bom_id := fresh_id (map h_id (bom_headers s)) in
  let s1 :=
    set_bom_headers
      (bom_headers s ++
       [mk_bom_header bom_id (bd_bom_type data) (bd_product_id data)
                      (bd_uom data) DRAFT false]) s in
  let rows :=
    map (fun m =>
           mk_bom_detail bom_id (mat_material_id m) (mat_material_type m)
             (mat_quantity m) (mat_uom m)
             (match mat_scrap_rate m with Some r => r | None => 0 end))
        (bd_materials data) in
  (set_bom_details (bom_details s1 ++ rows) s1, bom_id).

Definition update_bom_status (bom_id : Z) (new_status : bom_status)
           (s : db) : db :=
  set_bom_headers
    (map (fun h =>
            if (h_id h =? bom_id)%Z
            then mk_bom_header (h_id h) (h_bom_type h) (h_product_id h)
                               (h_uom h) new_status (h_delete_flag h)
            else h)
         (bom_headers s)) s.

End BOM.

(** ** The stored routine called by [issue_materials] *)

Module Allocation.

(** Modelled from the spec: the sort order of section 4.3, ascending by
    (expiryDate, batchNo) with a lot without expiry last. *)
Definition lot_leb (a b : inventory_history) : bool :=
  match ih_expired_date a, ih_expired_date b with
  | None, None => String.leb (ih_batch_no a) (ih_batch_no b)
  | None, Some _ => false
  | Some _, None => true
  | Some x, Some y =>
      if (x <? y)%Z then true
      else if (y <? x)%Z then false
      else String.leb (ih_batch_no a) (ih_batch_no b)
  end.

(** Modelled from the spec: the walk of section 4.3 over the sorted lots,
    taking min(remainingNeeded, lot.remain) from each until nothing is
    needed; it returns what is taken from each lot and what is still
    needed when the list is exhausted. *)
Fixpoint walk (lots : list inventory_history) (remainingNeeded : Q)
  : list (inventory_history * Q) * Q :=
  match lots with
  | [] => ([], remainingNeeded)
  | lot :: rest =>
      if Qeq_bool remainingNeeded 0 then ([], remainingNeeded)
      else
        let qtyTaken := Qmin remainingNeeded (ih_remain lot) in
        let r := walk rest (remainingNeeded - qtyTaken) in
        ((lot, qtyTaken) :: fst r, snd r)
  end.

(** Modelled from the spec: "decrement lot.remain" of section 4.3, as
    UPDATE inventory_histories SET remain = remain - qty WHERE id = lot. *)
Definition decrement_lot (lot_id : Z) (qty : Q)
           (rows : list inventory_history) : list inventory_history :=
  map (fun r =>
         if (ih_id r =? lot_id)%Z
         then mk_inventory (ih_id r) (ih_type r) (ih_product_id r)
                (ih_warehouse_id r) (ih_quantity r) (ih_remain r - qty)
                (ih_batch_no r) (ih_expired_date r) (ih_action_detail_id r)
                (ih_group_id r) (ih_delete_flag r)
         else r)
      rows.

(** Modelled from the spec: one consumption of section 4.3: decrement
    the lot, append the PRODUCTION_OUT ledger entry referencing the source
    lot and the group id (it carries no stock of its own), and append the
    issue detail that names the lot. *)
Definition consume (material_id warehouse_id issue_id order_id : Z)
           (group_id : string) (s : db)
           (c : inventory_history * Q) : db :=
  let '(lot, qty) := c in
  let rows := decrement_lot (ih_id lot) qty (inventory_histories s) in
  let out :=
    mk_inventory (fresh_id (map ih_id rows)) stockOutProduction
      material_id warehouse_id qty 0 (ih_batch_no lot)
      (ih_expired_date lot) issue_id group_id false in
  set_issue_details
    (material_issue_details s ++
     [mk_issue_detail issue_id order_id material_id (ih_id lot)
                      (ih_batch_no lot) qty])
    (set_inventory (rows ++ [out]) s).

(** Modelled from the spec: the stored routine [sp_issue_material_fefo]
    that [issue_materials] calls is not among the Python sources.  It is
    written here after section 4.3: fetch the lots of the material and
    warehouse with remain > 0 that are not soft-deleted, sort them
    ascending by (expiryDate, batchNo) with a missing expiry last, take
    min(remainingNeeded, lot.remain) from each lot in turn until nothing
    is needed, write one consumption per lot taken from, and reject the
    whole call with InsufficientStockError when the lots are exhausted
    with something still needed. *)
Definition sp_issue_material_fefo
           (material_id : Z) (quantity : Q)
           (warehouse_id issue_id order_id : Z) (group_id : string)
           (user_id : Z) (s : db) : result db :=
  let lots :=
    order_by lot_leb (Inventory.stock_rows s material_id warehouse_id) in
  let r := walk lots quantity in
  if Qltb 0 (snd r) then Err InsufficientStockError
  else Ok (fold_left
             (consume material_id warehouse_id issue_id order_id group_id)
             (fst r) s).

End Allocation.

(** ** modules/production.py *)

Module Production.

(** A manual transaction: the body either commits its state or raises,
    in which case [trans.rollback()] restores the state before the call
    and the exception is re-raised. *)
Definition transaction {A} (body : db -> result (db * A)) (s : db)
  : db * result A :=
  match body s with
  | Ok (s', a) => (s', Ok a)
  | Err e => (s, Err e)
  end.

(** Subscripting the result of a lookup that found nothing. *)
Definition subscript {A} (x : option A) : result A :=
  match x with
  | Some a => Ok a
  | None => Err TypeError
  end.

Definition _generate_order_number (now : datetime) : string :=
  ("MO-" ++ strftime_YmdHMS now)%string.

Definition _generate_issue_number (now : datetime) : string :=
  ("MI-" ++ strftime_YmdHMS now)%string.

Definition _generate_receipt_number (now : datetime) : string :=
  ("PR-" ++ strftime_YmdHMS now)%string.

Record order_view := mk_order_view {
  ov_order : manufacturing_order;
  ov_product_name : string;
  ov_bom_type : bom_type;
  ov_warehouse_name : string;
  ov_target_warehouse_name : string }.

(** The joins shared by [get_orders] and [get_order_details]:
    products, bom_headers and the two warehouses. *)
Definition order_joins (s : db) (o : manufacturing_order)
  : list order_view :=
  flat_map (fun p =>
    flat_map (fun b =>
      flat_map (fun w1 =>
        map (fun w2 =>
               mk_order_view o (p_name p) (h_bom_type b)
                             (w_name w1) (w_name w2))
            (filter (fun w => (o_target_warehouse_id o =? w_id w)%Z)
                    (warehouses s)))
        (filter (fun w => (o_warehouse_id o =? w_id w)%Z) (warehouses s)))
      (filter (fun b => (o_bom_header_id o =? h_id b)%Z) (bom_headers s)))
    (filter (fun p => (o_product_id o =? p_id p)%Z) (products s)).

(** [get_orders(status=...)] as the issue and completion views call it. *)
Definition get_orders (s : db) (status : option order_status)
  : list order_view :=
  flat_map (order_joins s)
    (filter (fun o =>
         negb (o_delete_flag o)
         && match status with
            | Some st => order_status_eqb (o_status o) st
            | None => true
            end)
       (manufacturing_orders s)).

Definition get_order_details (s : db) (order_id : Z) : option order_view :=
  hd_error
    (flat_map (order_joins s)
       (filter (fun o => (o_id o =? order_id)%Z) (manufacturing_orders s))).

Record material_row := mk_material_row {
  mr_id : Z; mr_material_id : Z; mr_required_qty : Q; mr_issued_qty : Q;
  mr_uom : string; mr_status : material_status; mr_material_name : string }.

(** [get_order_materials]: requirement rows joined with products,
    ORDER BY p.name. *)
Definition get_order_materials (s : db) (order_id : Z)
  : list material_row :=
  order_by (fun a b => String.leb (mr_material_name a) (mr_material_name b))
    (flat_map (fun m =>
         map (fun p =>
                mk_material_row (m_id m) (m_material_id m)
                  (m_required_qty m) (m_issued_qty m) (m_uom m)
                  (m_status m) (p_name p))
             (filter (fun p => (m_material_id m =? p_id p)%Z) (products s)))
       (filter (fun m => (m_order_id m =? order_id)%Z)
               (manufacturing_order_materials s))).

Record requirement := mk_requirement {
  rq_material_id : Z; rq_material_name : string; rq_required_qty : Q;
  rq_uom : string; rq_material_type : material_type }.

(** [calculate_material_requirements]:
    d.quantity * %s * (1 + d.scrap_rate/100) per joined BOM line. *)
Definition calculate_material_requirements (s : db) (bom_id : Z)
           (quantity : Q) : list requirement :=
  flat_map (fun d =>
      map (fun p =>
             mk_requirement (d_material_id d) (p_name p)
               (d_quantity d * quantity * (1 + d_scrap_rate d / 100))
               (d_uom d) (d_material_type d))
          (filter (fun p => (d_material_id d =? p_id p)%Z) (products s)))
    (filter (fun d => (d_bom_header_id d =? bom_id)%Z) (bom_details s)).

Record order_data := mk_order_data {
  od_entity_id : option (option Z);   (* [None]: key absent *)
  od_bom_header_id : Z; od_product_id : Z; od_planned_qty : Q;
  od_uom : string; od_warehouse_id : Z; od_target_warehouse_id : Z;
  od_priority : option string }.

(** Modelled from the spec: the column defaults of the rows inserted by
    [create_order] (the schema is not among the sources).  A requirement
    starts PENDING with nothing issued, an order with nothing produced. *)
Definition default_issued_qty : Q := 0.

(** Modelled from the spec: the default of
    manufacturing_order_materials.status. *)
Definition default_material_status : material_status := PENDING.

(** Modelled from the spec: the default of
    manufacturing_orders.produced_qty. *)
Definition default_produced_qty : Q := 0.

(** The INSERT ... SELECT of [create_order]: one requirement row per
    line of the BOM, ids assigned in row order. *)
Fixpoint insert_materials (order_id planned_wh : Z) (planned_qty : Q)
         (lines : list bom_detail) (rows : list order_material)
  : list order_material :=
  match lines with
  | [] => rows
  | d :: rest =>
      insert_materials order_id planned_wh planned_qty rest
        (rows ++
         [mk_order_material (fresh_id (map m_id rows)) order_id
            (d_material_id d)
            (d_quantity d * planned_qty * (1 + d_scrap_rate d / 100))
            default_issued_qty (d_uom d) planned_wh
            default_material_status])
  end.

Definition create_order (now : datetime) (data : order_data)
  : db -> db * result string :=
  transaction (fun s =>
    let order_no := _generate_order_number now in
    let entity_id :=
      match od_entity_id data with
      | None =>
          match filter (fun w => (w_id w =? od_warehouse_id data)%Z)
                       (warehouses s) with
          | w :: _ => w_company_id w
          | [] => None
          end
      | Some e => e
      end in
    let order_id := fresh_id (map o_id (manufacturing_orders s)) in
    let s1 :=
      set_orders
        (manufacturing_orders s ++
         [mk_order order_id entity_id order_no (od_bom_header_id data)
            (od_product_id data) (od_planned_qty data)
            default_produced_qty (od_uom data) (od_warehouse_id data)
            (od_target_warehouse_id data) CONFIRMED
            (match od_priority data with
             | Some p => p
             | None => "NORMAL"%string
             end)
            None false]) s in
    let s2 :=
      set_order_materials
        (insert_materials order_id (od_warehouse_id data)
           (od_planned_qty data)
           (filter (fun d => (d_bom_header_id d =? od_bom_header_id data)%Z)
                   (bom_details s1))
           (manufacturing_order_materials s1)) s1 in
    Ok (s2, order_no)).

Record issue_line := mk_issue_line {
  il_material_name : string; il_quantity : Q; il_uom : string }.

Record issue_result := mk_issue_result {
  ir_issue_no : string; ir_details : list issue_line }.

(** The [for] loop of [issue_materials] over the requirement rows. *)
Fixpoint issue_loop (materials : list material_row)
         (warehouse_id issue_id order_id : Z) (group_id : string)
         (user_id : Z) (s : db) : result (db * list issue_line) :=
  match materials with
  | [] => Ok (s, [])
  | mat :: rest =>
      let remaining := mr_required_qty mat - mr_issued_qty mat in
      if Qltb 0 remaining then
        s' <- Allocation.sp_issue_material_fefo (mr_material_id mat)
                remaining warehouse_id issue_id order_id group_id
                user_id s ;;
        r <- issue_loop rest warehouse_id issue_id order_id group_id
               user_id s' ;;
        Ok (fst r,
            mk_issue_line (mr_material_name mat) remaining (mr_uom mat)
            :: snd r)
      else
        issue_loop rest warehouse_id issue_id order_id group_id user_id s
  end.

(** UPDATE manufacturing_order_materials SET issued_qty = required_qty,
    status = 'ISSUED' WHERE manufacturing_order_id = :order_id *)
Definition mark_issued (order_id : Z) (rows : list order_material)
  : list order_material :=
  map (fun m =>
         if (m_order_id m =? order_id)%Z
         then mk_order_material (m_id m) (m_order_id m) (m_material_id m)
                (m_required_qty m) (m_required_qty m) (m_uom m)
                (m_warehouse_id m) ISSUED
         else m)
      rows.

(** [issue_materials]; [uuid] is the value [uuid.uuid4()] returns.  The
    two lookups ([get_order_details], [get_order_materials]) go through
    the engine, not the transaction's connection, and so read the state
    committed before the call. *)
Definition issue_materials (now : datetime) (uuid : string)
           (order_id user_id : Z) : db -> db * result issue_result :=
  transaction (fun s =>
    let issue_no := _generate_issue_number now in
    let group_id := uuid in
    order <- subscript (get_order_details s order_id) ;;
    let warehouse_id := o_warehouse_id (ov_order order) in
    let issue_id := fresh_id (map mi_id (material_issues s)) in
    let s1 :=
      set_issues
        (material_issues s ++
         [mk_issue issue_id issue_no order_id warehouse_id user_id
                   group_id]) s in
    let materials := get_order_materials s order_id in
    r <- issue_loop materials warehouse_id issue_id order_id group_id
           user_id s1 ;;
    let s2 :=
      set_order_materials
        (mark_issued order_id (manufacturing_order_materials (fst r)))
        (fst r) in
    Ok (s2, mk_issue_result issue_no (snd r))).

(** SELECT MIN(x): NULL over no rows. *)
Fixpoint min_date (l : list date) : option date :=
  match l with
  | [] => None
  | d :: r =>
      match min_date r with
      | None => Some d
      | Some m => Some (Z.min d m)
      end
  end.

(** The expiry dates the MIN of [complete_production] ranges over:
    issue details of the order joined with the ledger rows they name,
    WHERE ih.expired_date IS NOT NULL. *)
Definition consumed_expiries (s : db) (order_id : Z) : list date :=
  flat_map (fun mid =>
      flat_map (fun ih =>
                  match ih_expired_date ih with
                  | Some d => [d]
                  | None => []
                  end)
        (filter (fun ih => (ih_id ih =? mid_inventory_history_id mid)%Z)
                (inventory_histories s)))
    (filter (fun mid => (mid_order_id mid =? order_id)%Z)
            (material_issue_details s)).

Record receipt_result := mk_receipt_result {
  rr_receipt_no : string; rr_batch_no : string; rr_quantity : Q }.

Definition complete_order_row (produced_qty : Q) (now : datetime)
           (o : manufacturing_order) : manufacturing_order :=
  mk_order (o_id o) (o_entity_id o) (o_order_no o) (o_bom_header_id o)
    (o_product_id o) (o_planned_qty o) produced_qty (o_uom o)
    (o_warehouse_id o) (o_target_warehouse_id o) COMPLETED (o_priority o)
    (Some now) (o_delete_flag o).

(** [complete_production]; [uuid] is what [uuid.uuid4()] would return
    when the order has no material issue. *)
Definition complete_production (now : datetime) (uuid : string)
           (order_id : Z) (produced_qty : Q) (batch_no : string)
           (quality_status : string)
  : db -> db * result receipt_result :=
  transaction (fun s =>
    order <- subscript (get_order_details s order_id) ;;
    let o := ov_order order in
    let receipt_no := _generate_receipt_number now in
    let receipt_id := fresh_id (map pr_id (production_receipts s)) in
    let s1 :=
      set_receipts
        (production_receipts s ++
         [mk_receipt receipt_id receipt_no order_id (o_product_id o)
            produced_qty (o_uom o) batch_no (o_target_warehouse_id o)
            quality_status]) s in
    let group_id :=
      match filter (fun mi => (mi_order_id mi =? order_id)%Z)
                   (material_issues s1) with
      | mi :: _ => mi_group_id mi
      | [] => uuid
      end in
    let expiry_date :=
      match ov_bom_type order with
      | KITTING => min_date (consumed_expiries s1 order_id)
      | _ => None
      end in
    let s2 :=
      set_inventory
        (inventory_histories s1 ++
         [mk_inventory (fresh_id (map ih_id (inventory_histories s1)))
            stockInProduction (o_product_id o) (o_target_warehouse_id o)
            produced_qty produced_qty batch_no expiry_date receipt_id
            group_id false]) s1 in
    let s3 :=
      set_orders
        (map (fun x =>
                if (o_id x =? order_id)%Z
                then complete_order_row produced_qty now x
                else x)
             (manufacturing_orders s2)) s2 in
    Ok (s3, mk_receipt_result receipt_no batch_no produced_qty)).

Definition set_status (st : order_status) (o : manufacturing_order)
  : manufacturing_order :=
  mk_order (o_id o) (o_entity_id o) (o_order_no o) (o_bom_header_id o)
    (o_product_id o) (o_planned_qty o) (o_produced_qty o) (o_uom o)
    (o_warehouse_id o) (o_target_warehouse_id o) st (o_priority o)
    (o_completion_date o) (o_delete_flag o).

Definition update_order_status (order_id : Z) (new_status : order_status)
           (s : db) : db :=
  set_orders
    (map (fun o => if (o_id o =? order_id)%Z then set_status new_status o
                   else o)
         (manufacturing_orders s)) s.

(** Status of an order as a later read would see it. *)
Definition status_of (s : db) (order_id : Z) : option order_status :=
  match filter (fun o => (o_id o =? order_id)%Z) (manufacturing_orders s)
  with
  | o :: _ => Some (o_status o)
  | [] => None
  end.

End Production.

(** ** The Streamlit pages

    A page action reads its choices from widgets that are filled from
    queries, so an action is only carried out on what the queries offered
    and within the bounds of the number inputs; an exception raised by a
    manager call is caught and shown, leaving the committed state. *)

Module Pages.

Import Production.

Definition offered (selected : Z) (rows : list order_view) : bool :=
  existsb (fun v => (o_id (ov_order v) =? selected)%Z) rows.

(** pages/2_BOM.py, view 'create': the "Add" control bounds quantity
    (min_value=0.0001) and scrap rate (0.0 .. 100.0) and picks the
    material among the listed products. *)
Definition material_accepted (s : db) (m : BOM.material_input) : bool :=
  existsb (fun p => (p_id p =? BOM.mat_material_id m)%Z) (products s)
  && Qle_bool (1 # 10000) (BOM.mat_quantity m)
  && match BOM.mat_scrap_rate m with
     | Some r => Qle_bool 0 r && Qle_bool r 100
     | None => false
     end.

Definition bom_create_view (data : BOM.bom_data) (s : db) : db :=
  if existsb (fun p => (p_id p =? BOM.bd_product_id data)%Z) (products s)
     && negb (BOM.bd_product_id data =? 0)%Z
     && match BOM.bd_materials data with [] => false | _ => true end
     && forallb (material_accepted s) (BOM.bd_materials data)
  then fst (BOM.create_bom data s)
  else s.

(** pages/2_BOM.py, view 'edit': "Update Status" / "Deactivate BOM". *)
Definition bom_status_view (bom_id : Z) (new_status : bom_status)
           (s : db) : db :=
  BOM.update_bom_status bom_id new_status s.

(** pages/1_Production.py, view 'new': "Create Order". *)
Definition new_order_view (now : datetime) (prod_type : bom_type)
           (bom_id : Z) (qty : Z) (source_warehouse_id : Z)
           (target_warehouse_id : Z) (priority : string) (s : db) : db :=
  if existsb (fun h => (h_id h =? bom_id)%Z)
             (BOM.get_active_boms s (Some prod_type))
     && negb (bom_id =? 0)%Z
     && (1 <=? qty)%Z
     && existsb (fun w => (w_id w =? source_warehouse_id)%Z)
                (Inventory.get_warehouses s)
     && existsb (fun w => (w_id w =? target_warehouse_id)%Z)
                (Inventory.get_warehouses s)
  then
    match BOM.get_bom_info s bom_id with
    | Some bom_info =>
        fst (create_order now
               (mk_order_data None bom_id (h_product_id bom_info)
                  (inject_Z qty) (h_uom bom_info) source_warehouse_id
                  target_warehouse_id (Some priority)) s)
    | None => s
    end
  else s.

(** A requirement the issue view shows as pending. *)
Definition pending (mat : material_row) : bool :=
  negb (Qle_bool (mr_required_qty mat) (mr_issued_qty mat)).

(** pages/1_Production.py, view 'issue': "Issue All Materials", then
    [update_order_status(selected_order_id, 'IN_PROGRESS')]. *)
Definition issue_view (now : datetime) (uuid : string) (selected : Z)
           (user_id : Z) (s : db) : db :=
  if offered selected (get_orders s (Some CONFIRMED)) then
    match get_order_details s selected with
    | Some _ =>
        if existsb pending (get_order_materials s selected) then
          match issue_materials now uuid selected user_id s with
          | (s', Ok _) => update_order_status selected IN_PROGRESS s'
          | (s', Err _) => s'
          end
        else s
    | None => s
    end
  else s.

(** pages/1_Production.py, view 'complete': "Complete Production" with
    the produced quantity bounded by 0 and [int(planned_qty)]. *)
Definition complete_view (now : datetime) (uuid : string) (selected : Z)
           (produced_qty : Z) (batch_no quality_status : string)
           (s : db) : db :=
  if offered selected (get_orders s (Some IN_PROGRESS)) then
    match get_order_details s selected with
    | Some order_info =>
        if (0 <=? produced_qty)%Z
           && (produced_qty <=? py_int (o_planned_qty (ov_order order_info)))%Z
        then
          fst (complete_production now uuid selected
                 (inject_Z produced_qty) batch_no quality_status s)
        else s
    | None => s
    end
  else s.

(** One page action. *)
Inductive step : db -> db -> Prop :=
| step_bom_create data s :
    step s (bom_create_view data s)
| step_bom_status bom_id st s :
    step s (bom_status_view bom_id st s)
| step_new_order now ty bom_id qty src tgt prio s :
    step s (new_order_view now ty bom_id qty src tgt prio s)
| step_issue now uuid sel user s :
    step s (issue_view now uuid sel user s)
| step_complete now uuid sel qty batch quality s :
    step s (complete_view now uuid sel qty batch quality s).

Inductive steps : db -> db -> Prop :=
| steps_refl s : steps s s
| steps_next s1 s2 s3 : steps s1 s2 -> step s2 s3 -> steps s1 s3.

End Pages.

(** ** State predicates *)




Definition batches_positive (g : list Inventory.batch_row) : Prop :=
  Forall (fun b => 0 < Inventory.b_available_qty b) g.

(** manufacturing_orders.id is the primary key. *)
Definition orders_keyed (s : db) : Prop :=
  NoDup (map o_id (manufacturing_orders s)).


(** What a consumption leaves alone: every table but the ledger and the
    issue details. *)
Definition ledger_frame (s s' : db) : Prop :=
  products s' = products s
  /\ warehouses s' = warehouses s
  /\ bom_headers s' = bom_headers s
  /\ bom_details s' = bom_details s
  /\ manufacturing_orders s' = manufacturing_orders s
  /\ manufacturing_order_materials s' = manufacturing_order_materials s
  /\ material_issues s' = material_issues s
  /\ production_receipts s' = production_receipts s.

(** The WHERE clause of the stock queries, on a ledger row. *)
Definition in_stock (product_id warehouse_id : Z) (r : inventory_history)
  : bool :=
  (ih_product_id r =? product_id)%Z
  && (ih_warehouse_id r =? warehouse_id)%Z
  && Qltb 0 (ih_remain r)
  && negb (ih_delete_flag r).

(** An UPDATE of manufacturing_orders by id. *)
Definition update_by_id (order_id : Z)
           (f : manufacturing_order -> manufacturing_order)
           (o : manufacturing_order) : manufacturing_order :=
  if (o_id o =? order_id)%Z then f o else o.

(** An order row rewritten without touching its id or the columns it is
    joined on. *)
Definition keeps_keys (f : manufacturing_order -> manufacturing_order)
  : Prop :=
  forall o,
    o_id (f o) = o_id o
    /\ o_product_id (f o) = o_product_id o
    /\ o_bom_header_id (f o) = o_bom_header_id o
    /\ o_warehouse_id (f o) = o_warehouse_id o
    /\ o_target_warehouse_id (f o) = o_target_warehouse_id o.

Definition view_with (f : manufacturing_order -> manufacturing_order)
           (v : Production.order_view) : Production.order_view :=
  Production.mk_order_view (f (Production.ov_order v))
    (Production.ov_product_name v) (Production.ov_bom_type v)
    (Production.ov_warehouse_name v) (Production.ov_target_warehouse_name v).

(** Statuses an order can pass through by page actions. *)
Definition page_reach (a b : order_status) : Prop :=
  a = b
  \/ (a = CONFIRMED /\ (b = IN_PROGRESS \/ b = COMPLETED))
  \/ (a = IN_PROGRESS /\ b = COMPLETED).

Definition terminal (st : order_status) : Prop :=
  st = COMPLETED \/ st = CANCELLED.

Definition page_transition (a b : order_status) : Prop :=
  a = b \/ (a = CONFIRMED /\ b = IN_PROGRESS)
  \/ (a = IN_PROGRESS /\ b = COMPLETED).

(** ** Sample data *)

Module Samples.

Definition today : date := ymd 2025 1 1.

Definition noon : datetime := mk_datetime 2025 1 10 12 0 0 0.
Definition later : datetime := mk_datetime 2025 1 10 12 30 0 0.

Definition sample_products : list product :=
  [ mk_product 1 "Gift box"; mk_product 2 "Tea tin";
    mk_product 3 "Ribbon" ].

Definition sample_warehouses : list warehouse :=
  [ mk_warehouse 1 "Raw store" (Some 10%Z) false;
    mk_warehouse 2 "Finished goods" (Some 10%Z) false ].

Definition lot (id : Z) (product_id : Z) (batch : string)
           (remain : Q) (expiry : option date) : inventory_history :=
  mk_inventory id stockIn product_id 1 remain remain batch expiry 0
               "G0" false.

(** The two lots of the FEFO example of the specification. *)
Definition lots_AB : list inventory_history :=
  [ lot 1 2 "A" 5 (Some (ymd 2025 1 10));
    lot 2 2 "B" 10 (Some (ymd 2025 2 1)) ].

(** A dated lot next to a lot that never expires. *)
Definition lots_dated_and_open : list inventory_history :=
  [ lot 1 2 "A" 5 (Some (ymd 2025 1 10));
    lot 2 2 "N" 5 None ].

Definition stock_db (lots : list inventory_history) : db :=
  mk_db sample_products sample_warehouses [] [] [] [] lots [] [] [].

Definition kit_bom : bom_header := mk_bom_header 1 KITTING 1 "PCS" ACTIVE false.

Definition kit_lines : list bom_detail :=
  [ mk_bom_detail 1 2 RAW_MATERIAL 2 "PCS" 0;
    mk_bom_detail 1 3 PACKAGING 1 "M" 10 ].

Definition order (status : order_status) : manufacturing_order :=
  mk_order 1 (Some 10%Z) "MO-20250110110000" 1 1 4 0 "PCS" 1 2 status
           "NORMAL" None false.

Definition requirement_rows (issued : bool) : list order_material :=
  [ mk_order_material 1 1 2 8 (if issued then 8 else 0) "PCS" 1
                      (if issued then ISSUED else PENDING) ].

(** One order for four gift boxes needing eight tea tins. *)
Definition order_db (status : order_status) (issued : bool)
           (lots : list inventory_history) : db :=
  mk_db sample_products sample_warehouses [kit_bom] kit_lines
        [order status] (requirement_rows issued) lots [] [] [].

(** Eight tins needed, five in stock. *)
Definition short_db : db :=
  order_db CONFIRMED false [lot 1 2 "A" 5 (Some (ymd 2025 1 10))].

Definition order_row : Production.order_view :=
  Production.mk_order_view (order CONFIRMED) "Gift box" KITTING "Raw store"
    "Finished goods".

Definition tea_row : Production.material_row :=
  Production.mk_material_row 1 2 8 0 "PCS" PENDING "Tea tin".

(** The order already completed, its requirement issued. *)
Definition completed_db : db := order_db COMPLETED true [].

(** The order confirmed, with the two lots of the FEFO example in stock. *)
Definition stocked_db : db := order_db CONFIRMED false lots_AB.

(** The order cancelled before anything was issued. *)
Definition cancelled_db : db := order_db CANCELLED false lots_AB.

(** The stocked order after the issue page, and after the completion
    page. *)
Definition after_issue : db := Pages.issue_view noon "G1" 1 7 stocked_db.

Definition after_completion : db :=
  Pages.complete_view later "U1" 1 4 "KIT-1" "PASSED" after_issue.

(** Three consumed lots with expiries 2025-03-01, none, 2025-02-15. *)
Definition consumed_lots : list inventory_history :=
  [ lot 1 2 "T1" 0 (Some (ymd 2025 3 1));
    lot 2 2 "T2" 0 None;
    lot 3 3 "R1" 0 (Some (ymd 2025 2 15)) ].

Definition consumed_details : list material_issue_detail :=
  [ mk_issue_detail 1 1 2 1 "T1" 4;
    mk_issue_detail 1 1 2 2 "T2" 4;
    mk_issue_detail 1 1 3 3 "R1" 4 ].

Definition issued_kit_db (type : bom_type) : db :=
  mk_db sample_products sample_warehouses
        [mk_bom_header 1 type 1 "PCS" ACTIVE false] kit_lines
        [order IN_PROGRESS] (requirement_rows true) consumed_lots
        [mk_issue 1 "MI-20250110113000" 1 1 7 "G1"] consumed_details [].

End Samples.

(** ** modules/inventory.py: availability and expiry reports *)

Module Reports.

Record availability_row := mk_availability {
  av_material_id : Z; av_material_name : string; av_required : Q;
  av_available : Q; av_sufficient : bool }.

(** [check_stock_availability]: one row per material of the frame, with
    the balance [get_stock_balance] returns, a float, and
    [stock >= required]. *)
Definition check_stock_availability (s : db)
           (materials_df : list Production.requirement)
           (warehouse_id : option Z) : list availability_row :=
  map (fun material =>
         let stock :=
           to_float
             (Inventory.get_stock_balance s
                (Production.rq_material_id material) warehouse_id) in
         mk_availability (Production.rq_material_id material)
           (Production.rq_material_name material)
           (Production.rq_required_qty material) stock
           (Qle_bool (Production.rq_required_qty material) stock))
      materials_df.

Record expiry_row := mk_expiry_row {
  er_product_name : string; er_batch_no : string; er_quantity : Q;
  er_expired_date : option date; er_warehouse : string;
  er_expiry_status : expiry_class; er_days_to_expiry : option Z }.

(** The CASE expression of [get_expiry_status], whose WARNING bound is the
    [days_ahead] argument. *)
Definition report_status (today : date) (days_ahead : Z) (e : option date)
  : expiry_class :=
  match e with
  | None => OK_
  | Some d =>
      if (d <? today)%Z then EXPIRED
      else if (d <=? today + 7)%Z then CRITICAL
      else if (d <=? today + days_ahead)%Z then WARNING
      else OK_
  end.

(** DATEDIFF(ih.expired_date, CURDATE()) *)
Definition days_to_expiry (today : date) (e : option date) : option Z :=
  match e with
  | Some d => Some (d - today)%Z
  | None => None
  end.

(** FROM inventory_histories ih JOIN products p JOIN warehouses w with the
    WHERE clause of [get_expiry_status]; a NULL expiry fails the
    comparison with the horizon. *)
Definition expiring_rows (today : date) (days_ahead : Z) (s : db)
  : list (product * warehouse * inventory_history) :=
  flat_map (fun ih =>
      flat_map (fun p =>
          map (fun w => (p, w, ih))
              (filter (fun w => (ih_warehouse_id ih =? w_id w)%Z)
                      (warehouses s)))
        (filter (fun p => (ih_product_id ih =? p_id p)%Z) (products s)))
    (filter (fun ih =>
         Qltb 0 (ih_remain ih)
         && negb (ih_delete_flag ih)
         && match ih_expired_date ih with
            | Some d => (d <=? today + days_ahead)%Z
            | None => false
            end)
       (inventory_histories s)).

(** GROUP BY p.name, ih.batch_no, ih.expired_date, w.name with
    SUM(ih.remain). *)
Fixpoint add_to_report (today : date) (days_ahead : Z)
         (g : list expiry_row) (r : product * warehouse * inventory_history)
  : list expiry_row :=
  let '(p, w, ih) := r in
  match g with
  | [] =>
      [mk_expiry_row (p_name p) (ih_batch_no ih) (ih_remain ih)
         (ih_expired_date ih) (w_name w)
         (report_status today days_ahead (ih_expired_date ih))
         (days_to_expiry today (ih_expired_date ih))]
  | row :: g' =>
      if String.eqb (er_product_name row) (p_name p)
         && String.eqb (er_batch_no row) (ih_batch_no ih)
         && Inventory.option_date_eqb (er_expired_date row)
                                      (ih_expired_date ih)
         && String.eqb (er_warehouse row) (w_name w)
      then mk_expiry_row (er_product_name row) (er_batch_no row)
             (er_quantity row + ih_remain ih) (er_expired_date row)
             (er_warehouse row) (er_expiry_status row)
             (er_days_to_expiry row) :: g'
      else row :: add_to_report today days_ahead g' r
  end.

(** ORDER BY ih.expired_date ASC (NULL first, as MySQL sorts). *)
Definition expiry_leb (a b : expiry_row) : bool :=
  match er_expired_date a, er_expired_date b with
  | None, _ => true
  | Some _, None => false
  | Some x, Some y => (x <=? y)%Z
  end.

(** [get_expiry_status(days_ahead)] *)
Definition get_expiry_status (today : date) (s : db) (days_ahead : Z)
  : list expiry_row :=
  order_by expiry_leb
    (fold_left (add_to_report today days_ahead)
               (expiring_rows today days_ahead s) []).

End Reports.

(** ** modules/common.py: order numbers and date ranges *)

Module Common.

(** [generate_order_number(prefix)] *)
Definition generate_order_number (prefix : string) (now : datetime)
  : string :=
  (prefix ++ "-" ++ strftime_YmdHMS now)%string.

(** The fields of a [datetime.date]. *)
Record civil := mk_civil { year : Z; month : Z; day : Z }.

Definition is_leap (y : Z) : bool :=
  ((y mod 4 =? 0) && (negb (y mod 100 =? 0) || (y mod 400 =? 0)))%Z.

Definition days_in_month (y m : Z) : Z :=
  (if m =? 2 then (if is_leap y then 29 else 28)
   else if (m =? 4) || (m =? 6) || (m =? 9) || (m =? 11) then 30
   else 31)%Z.

Definition MAXYEAR : Z := 9999.

(** The field check of the [date] constructor. *)
Definition is_date (y m d : Z) : bool :=
  ((1 <=? y) && (y <=? MAXYEAR) && (1 <=? m) && (m <=? 12)
   && (1 <=? d) && (d <=? days_in_month y m))%Z.

(** [date(year, month, day)] as its day number; [None] is the ValueError
    of fields outside the calendar. *)
Definition new_date (y m d : Z) : option date :=
  if is_date y m d then Some (ymd y m d) else None.

Definition toordinal (t : civil) : date := ymd (year t) (month t) (day t).

(** [today.weekday()]: Monday is 0. *)
Definition weekday (t : civil) : Z := ((toordinal t + 6) mod 7)%Z.

(** The day number of 9999-12-31. *)
Definition MAXORDINAL : Z := 3652059.

(** [d + timedelta(days=k)]; [None] is the OverflowError of a result
    outside the calendar. *)
Definition plus_days (d : date) (k : Z) : option date :=
  (if (1 <=? d + k) && (d + k <=? MAXORDINAL) then Some (d + k) else None)%Z.

Definition and_then {A B} (x : option A) (k : A -> option B) : option B :=
  match x with
  | Some a => k a
  | None => None
  end.

(** [calculate_date_range(period)], [today] being [date.today()]. *)
Definition calculate_date_range (today : civil) (period : string)
  : option (date * date) :=
  if String.eqb period "today" then
    Some (toordinal today, toordinal today)
  else if String.eqb period "week" then
    and_then (plus_days (toordinal today) (- weekday today)) (fun start =>
    and_then (plus_days start 6) (fun end_ =>
    Some (start, end_)))
  else if String.eqb period "month" then
    and_then (new_date (year today) (month today) 1) (fun start =>
    and_then (if (month today =? 12)%Z
              then new_date (year today + 1) 1 1
              else new_date (year today) (month today + 1) 1)
             (fun first =>
    and_then (plus_days first (-1)) (fun end_ =>
    Some (start, end_))))
  else if String.eqb period "quarter" then
    let quarter := ((month today - 1) / 3)%Z in
    and_then (new_date (year today) (quarter * 3 + 1) 1) (fun start =>
    and_then (if (quarter =? 3)%Z
              then new_date (year today + 1) 1 1
              else new_date (year today) ((quarter + 1) * 3 + 1) 1)
             (fun first =>
    and_then (plus_days first (-1)) (fun end_ =>
    Some (start, end_))))
  else if String.eqb period "year" then
    and_then (new_date (year today) 1 1) (fun start =>
    and_then (new_date (year today) 12 31) (fun end_ =>
    Some (start, end_)))
  else Some (toordinal today, toordinal today).

(** [validate_date_range(start_date, end_date)] *)
Definition validate_date_range (start_date end_date : date)
  : bool * option string :=
  if (start_date >? end_date)%Z then
    (false, Some "Start date cannot be after end date"%string)
  else if (end_date - start_date >? 365)%Z then
    (false, Some "Date range cannot exceed 1 year"%string)
  else (true, None).

(** The day number as [datetime] computes it: [_days_before_year] and
    [_days_before_month]. *)
Definition days_before_year (y : Z) : Z :=
  (let y' := y - 1 in y' * 365 + y' / 4 - y' / 100 + y' / 400)%Z.

Definition days_before_month (y m : Z) : Z :=
  (match m with
   | 1 => 0 | 2 => 31 | 3 => 59 | 4 => 90 | 5 => 120 | 6 => 151 | 7 => 181
   | 8 => 212 | 9 => 243 | 10 => 273 | 11 => 304 | _ => 334
   end + (if (2 <? m) && is_leap y then 1 else 0))%Z.

(** The second component of [validate_quantity]: the quantity, or one of
    the three messages. *)
Inductive checked_quantity :=
| quantity (qty : Q)
| must_be_at_least (min_value : Q)
| cannot_exceed (max_value : Q)
| invalid_format.

(** What [validate_quantity] is given: an int, a float (a number of
    binary64, neither NaN nor infinite), or something [float()] raises
    ValueError or TypeError on (None, text that is no number). *)
Inductive py_value :=
| an_int (n : Z)
| a_float (x : Q)
| no_number.

(** The outcome of [float(value)]: the float, the ValueError or TypeError,
    or the OverflowError of an int that rounds to 2^1024 or beyond. *)
Inductive float_result :=
| is_float (qty : Q)
| value_error
| overflow_error.

Definition py_float (value : py_value) : float_result :=
  match value with
  | an_int n =>
      if Qle_bool (inject_Z (2 ^ 1024)) (to_float (inject_Z (Z.abs n)))
      then overflow_error
      else is_float (to_float (inject_Z n))
  | a_float x => is_float x
  | no_number => value_error
  end.

(** [validate_quantity(value, min_value, max_value)]: works on
    [float(value)]; a [max_value] of [None] or zero is falsy; [None] is
    the OverflowError, which [except (ValueError, TypeError)] does not
    catch. *)
Definition validate_quantity (value : py_value) (min_value : Q)
           (max_value : option Q) : option (bool * checked_quantity) :=
  match py_float value with
  | overflow_error => None
  | value_error => Some (false, invalid_format)
  | is_float qty =>
      Some
        (if Qltb qty min_value then (false, must_be_at_least min_value)
         else
           match max_value with
           | Some m =>
               if negb (Qeq_bool m 0) && Qltb m qty
               then (false, cannot_exceed m)
               else (true, quantity qty)
           | None => (true, quantity qty)
           end)
  end.

End Common.

(** ** modules/inventory.py: batch genealogy; the batch number the
    completion page proposes *)

Module Batches.

Record source_row := mk_source {
  src_material_name : string; src_quantity : Q; src_source_batch : string;
  src_expired_date : option date }.

(** LEFT JOIN inventory_histories ih_source
    ON ih_source.id = mid.inventory_history_id: the expiry dates of the
    ledger rows the issue detail names, NULL when it names none. *)
Definition source_lots (s : db) (mid : material_issue_detail)
  : list (option date) :=
  match filter (fun ih => (ih_id ih =? mid_inventory_history_id mid)%Z)
               (inventory_histories s) with
  | [] => [None]
  | l => map ih_expired_date l
  end.

(** The issue details of one order, joined with products and the ledger. *)
Definition order_sources (s : db) (order_id : Z) : list source_row :=
  flat_map (fun mid =>
      flat_map (fun p =>
          map (fun e =>
                 mk_source (p_name p) (mid_quantity mid) (mid_batch_no mid) e)
              (source_lots s mid))
        (filter (fun p => (mid_material_id mid =? p_id p)%Z) (products s)))
    (filter (fun mid => (mid_order_id mid =? order_id)%Z)
            (material_issue_details s)).

(** [get_batch_sources(batch_no)]: receipts of the batch joined with the
    issue details of their order, ORDER BY p.name. *)
Definition get_batch_sources (s : db) (batch_no : string)
  : list source_row :=
  order_by (fun a b => String.leb (src_material_name a)
                                  (src_material_name b))
    (flat_map (fun pr => order_sources s (pr_order_id pr))
       (filter (fun pr => String.eqb (pr_batch_no pr) batch_no)
               (production_receipts s))).

(** [strftime('%Y%m%d%H%M')] *)
Definition strftime_YmdHM (t : datetime) : string :=
  (pad4 (dt_year t) ++ pad2 (dt_month t) ++ pad2 (dt_day t) ++
   pad2 (dt_hour t) ++ pad2 (dt_minute t))%string.

(** [order_info['bom_type'][:3]] *)
Definition type_prefix (t : bom_type) : string :=
  match t with
  | KITTING => "KIT"
  | CUTTING => "CUT"
  | REPACKING => "REP"
  end.

(** pages/1_Production.py, view 'complete': the value the "Batch Number"
    input proposes. *)
Definition default_batch_no (t : bom_type) (now : datetime) : string :=
  (type_prefix t ++ "-" ++ strftime_YmdHM now)%string.

End Batches.

(** ** Further sample data *)

Module MoreSamples.

(** The sample order created from a BOM without lines: no requirement
    row, stock on hand. *)
Definition bare_db : db :=
  mk_db Samples.sample_products Samples.sample_warehouses [Samples.kit_bom]
        [] [Samples.order CONFIRMED] [] Samples.lots_AB [] [] [].

Definition bare_after_pages : db :=
  Pages.complete_view Samples.later "U1" 1 4 "KIT-1" "PASSED"
    (Pages.issue_view Samples.noon "G1" 1 7 bare_db).

Definition order_for_bom (bom_id : Z) : Production.order_data :=
  Production.mk_order_data None bom_id 1 4 "PCS" 1 2 None.



(** Two lots of a tenth and seven tenths. *)
Definition lots_of_tenths : list inventory_history :=
  [ Samples.lot 1 2 "A" (1 # 10) (Some (ymd 2025 1 10));
    Samples.lot 2 2 "B" (7 # 10) (Some (ymd 2025 2 1)) ].


Definition in_progress_row : Production.order_view :=
  Production.mk_order_view (Samples.order IN_PROGRESS) "Gift box" KITTING
    "Raw store" "Finished goods".

Definition mid_february : Common.civil := Common.mk_civil 2024 2 14.

End MoreSamples.

(** ** Further state predicates *)

Definition produced_bounded (o : manufacturing_order) : Prop :=
  0 <= o_produced_qty o /\ o_produced_qty o <= o_planned_qty o.

(** The key GROUP BY batch_no, expired_date groups on. *)
Definition batch_key (b : Inventory.batch_row) : string * option date :=
  (Inventory.b_batch_no b, Inventory.b_expired_date b).

(** What holds of every row of the expiry report. *)
Definition report_row_ok (today : date) (days_ahead : Z)
           (row : Reports.expiry_row) : Prop :=
  exists d,
    Reports.er_expired_date row = Some d
    /\ (d <= today + days_ahead)%Z
    /\ 0 < Reports.er_quantity row
    /\ Reports.er_days_to_expiry row = Some (d - today)%Z
    /\ Reports.er_expiry_status row
       = Reports.report_status today days_ahead (Some d).

(** A lot the order consumed: a ledger row that an issue detail of the
    order names. *)
Definition consumed_lot (s : db) (order_id : Z) (lot : inventory_history)
  : Prop :=
  In lot (inventory_histories s)
  /\ exists mid,
       In mid (material_issue_details s)
       /\ mid_order_id mid = order_id
       /\ mid_inventory_history_id mid = ih_id lot.

(** The lots of a product in a warehouse are whole numbers, of at most
    2^53 in total. *)
Definition whole_stock (s : db) (product_id warehouse_id : Z) : Prop :=
  Forall (fun r => whole (ih_remain r))
         (filter (in_stock product_id warehouse_id) (inventory_histories s))
  /\ Qsum (map ih_remain
             (filter (in_stock product_id warehouse_id)
                     (inventory_histories s)))
     <= inject_Z (2 ^ 53).

(** An order row that no requirement row refers to. *)
Definition without_requirements (s : db) (order_id : Z) : Prop :=
  forall m, In m (manufacturing_order_materials s) -> m_order_id m <> order_id.



(** material_issue_details.inventory_history_id refers to a ledger row. *)
Definition issue_details_reference_ledger (s : db) : Prop :=
  forall mid,
    In mid (material_issue_details s) ->
    In (mid_inventory_history_id mid) (map ih_id (inventory_histories s)).

(** The ranges of the clock fields [strftime] prints at fixed width. *)
Definition clock_in_range (t : datetime) : Prop :=
  (1000 <= Z.of_nat (dt_year t) <= 9999
   /\ Z.of_nat (dt_month t) <= 12 /\ Z.of_nat (dt_day t) <= 31
   /\ Z.of_nat (dt_hour t) <= 23 /\ Z.of_nat (dt_minute t) <= 59
   /\ Z.of_nat (dt_second t) <= 59)%Z.

(** Two clock readings within the same minute, and within the same
    second. *)
Definition same_minute (t1 t2 : datetime) : Prop :=
  dt_year t1 = dt_year t2 /\ dt_month t1 = dt_month t2
  /\ dt_day t1 = dt_day t2 /\ dt_hour t1 = dt_hour t2
  /\ dt_minute t1 = dt_minute t2.

Definition same_second (t1 t2 : datetime) : Prop :=
  same_minute t1 t2 /\ dt_second t1 = dt_second t2.

(** The receipts of one order. *)
Definition receipts_of (s : db) (order_id : Z) : list production_receipt :=
  filter (fun pr => (pr_order_id pr =? order_id)%Z) (production_receipts s).

(** Receipts belong to existing orders, and an order has one receipt when
    it is COMPLETED and none otherwise. *)
Definition receipts_follow_status (s : db) : Prop :=
  (forall pr, In pr (production_receipts s) ->
              In (pr_order_id pr) (map o_id (manufacturing_orders s)))
  /\ forall o, In o (manufacturing_orders s) ->
               List.length (receipts_of s (o_id o))
               = match o_status o with COMPLETED => 1%nat | _ => 0%nat end.

(** The columns of an order, of a requirement row and of a BOM header that
    no UPDATE of the pages touches. *)
Definition same_order_core (o o' : manufacturing_order) : Prop :=
  o_id o' = o_id o /\ o_entity_id o' = o_entity_id o
  /\ o_order_no o' = o_order_no o
  /\ o_bom_header_id o' = o_bom_header_id o
  /\ o_product_id o' = o_product_id o
  /\ o_planned_qty o' = o_planned_qty o /\ o_uom o' = o_uom o
  /\ o_warehouse_id o' = o_warehouse_id o
  /\ o_target_warehouse_id o' = o_target_warehouse_id o
  /\ o_priority o' = o_priority o /\ o_delete_flag o' = o_delete_flag o.

Definition same_requirement_core (m m' : order_material) : Prop :=
  m_id m' = m_id m /\ m_order_id m' = m_order_id m
  /\ m_material_id m' = m_material_id m
  /\ m_required_qty m' = m_required_qty m /\ m_uom m' = m_uom m
  /\ m_warehouse_id m' = m_warehouse_id m.

Definition same_header_core (h h' : bom_header) : Prop :=
  h_id h' = h_id h /\ h_bom_type h' = h_bom_type h
  /\ h_product_id h' = h_product_id h /\ h_uom h' = h_uom h
  /\ h_delete_flag h' = h_delete_flag h.

(** A table after inserts and updates: the old rows in their order, each
    related to its former self, followed by new ones. *)
Definition extends {A} (R : A -> A -> Prop) (l l' : list A) : Prop :=
  exists old new, l' = old ++ new /\ Forall2 R l old.

(** What the pages leave of a state: the master data as it is, and the
    other tables extended. *)
Definition pages_keep (s s' : db) : Prop :=
  products s' = products s
  /\ warehouses s' = warehouses s
  /\ extends same_header_core (bom_headers s) (bom_headers s')
  /\ extends eq (bom_details s) (bom_details s')
  /\ extends same_order_core (manufacturing_orders s)
             (manufacturing_orders s')
  /\ extends same_requirement_core (manufacturing_order_materials s)
             (manufacturing_order_materials s')
  /\ extends eq (production_receipts s) (production_receipts s').

(** * Properties *)

(** ** Arithmetic and list facts *)

Example ymd_epoch : ymd 1970 1 1 = 719163%Z /\ ymd 1 1 1 = 1%Z.
Proof. split; reflexivity. Qed.

Lemma Qltb_true (x y : Q) : Qltb x y = true <-> x < y.
Proof.
  unfold Qltb. rewrite negb_true_iff.
  split; intro H.
  - apply Qnot_le_lt. intro L. apply Qle_bool_iff in L. congruence.
  - destruct (Qle_bool y x) eqn:E; trivial.
    apply Qle_bool_iff in E. apply Qle_not_lt in E. contradiction.
Qed.

Lemma Qltb_false (x y : Q) : Qltb x y = false <-> y <= x.
Proof.
  unfold Qltb. rewrite negb_false_iff. apply Qle_bool_iff.
Qed.

Lemma Qle_bool_false (x y : Q) : Qle_bool x y = false <-> y < x.
Proof.
  rewrite <- Qltb_true. unfold Qltb.
  destruct (Qle_bool x y); simpl; intuition congruence.
Qed.

Lemma py_min_Qmin (a b : Q) : py_min a b == Qmin a b.
Proof.
  unfold py_min. destruct (Qltb b a) eqn:E.
  - apply Qltb_true in E. symmetry. apply Q.min_r. lra.
  - apply Qltb_false in E. symmetry. apply Q.min_l. exact E.
Qed.

(** ** Facts about binary64 rounding *)

Section FloatFacts.
Local Open Scope Z_scope.

Lemma scale_spec (n d e : Z) :
  scale n d e = (n * 2 ^ Z.max 0 (- e), d * 2 ^ Z.max 0 e).
Proof.
  unfold scale. destruct (Z.leb_spec 0 e).
  - rewrite (Z.max_l 0 (- e)), (Z.max_r 0 e) by lia.
    now rewrite Z.pow_0_r, Z.mul_1_r.
  - rewrite (Z.max_r 0 (- e)), (Z.max_l 0 e) by lia.
    now rewrite Z.pow_0_r, Z.mul_1_r.
Qed.

(** [2^L <= n / d] in cross-multiplied form. *)
Definition below (n d L : Z) : Prop :=
  d * 2 ^ Z.max 0 L <= n * 2 ^ Z.max 0 (- L).

Lemma pow2_pos (k : Z) : 0 <= k -> 0 < 2 ^ k.
Proof. intro H. apply Z.pow_pos_nonneg; lia. Qed.

Lemma floor_log2_below (n d : Z) :
  0 < n -> 0 < d -> below n d (floor_log2 n d).
Proof.
  intros Hn Hd. unfold floor_log2, below.
  set (k := Z.log2 n - Z.log2 d).
  rewrite scale_spec.
  destruct (Z.ltb_spec (n * 2 ^ Z.max 0 (- k)) (d * 2 ^ Z.max 0 k)) as [L|L];
    [|exact L].
  destruct (Z.log2_spec n Hn) as [N1 _].
  destruct (Z.log2_spec d Hd) as [_ D2].
  pose proof (Z.log2_nonneg n) as Ln. pose proof (Z.log2_nonneg d) as Ld.
  destruct (Z.leb_spec 1 k) as [K|K].
  - rewrite (Z.max_r 0 (k - 1)), (Z.max_l 0 (- (k - 1))) by lia.
    rewrite Z.pow_0_r, Z.mul_1_r.
    assert (E : 2 ^ Z.log2 n = 2 ^ Z.succ (Z.log2 d) * 2 ^ (k - 1)).
    { rewrite <- Z.pow_add_r by lia. f_equal. unfold k. lia. }
    pose proof (pow2_pos (k - 1) ltac:(lia)). nia.
  - rewrite (Z.max_l 0 (k - 1)), (Z.max_r 0 (- (k - 1))) by lia.
    rewrite Z.pow_0_r, Z.mul_1_r.
    assert (E : 2 ^ Z.log2 n * 2 ^ (- (k - 1)) = 2 ^ Z.succ (Z.log2 d)).
    { rewrite <- Z.pow_add_r by lia. f_equal. unfold k. lia. }
    pose proof (pow2_pos (- (k - 1)) ltac:(lia)). nia.
Qed.

Lemma below_shift (n d L : Z) :
  0 < n -> 0 < d -> below n d L ->
  2 ^ 52 * (d * 2 ^ Z.max 0 (L - 52)) <= n * 2 ^ Z.max 0 (- (L - 52)).
Proof.
  unfold below. intros Hn Hd B.
  destruct (Z.leb_spec 52 L) as [K|K].
  - rewrite (Z.max_r 0 (L - 52)), (Z.max_l 0 (- (L - 52))) by lia.
    rewrite (Z.max_r 0 L), (Z.max_l 0 (- L)) in B by lia.
    rewrite Z.pow_0_r, Z.mul_1_r in *.
    replace L with (52 + (L - 52)) in B by lia.
    rewrite Z.pow_add_r in B by lia. lia.
  - rewrite (Z.max_l 0 (L - 52)), (Z.max_r 0 (- (L - 52))) by lia.
    rewrite Z.pow_0_r, Z.mul_1_r.
    destruct (Z.leb_spec 0 L) as [K0|K0].
    + rewrite (Z.max_r 0 L), (Z.max_l 0 (- L)) in B by lia.
      rewrite Z.pow_0_r, Z.mul_1_r in B.
      replace 52 with (L + - (L - 52)) at 1 by lia.
      rewrite Z.pow_add_r by lia.
      pose proof (pow2_pos (- (L - 52)) ltac:(lia)). nia.
    + rewrite (Z.max_l 0 L), (Z.max_r 0 (- L)) in B by lia.
      rewrite Z.pow_0_r, Z.mul_1_r in B.
      replace (- (L - 52)) with (52 + - L) by lia.
      rewrite Z.pow_add_r by lia.
      pose proof (pow2_pos (- L) ltac:(lia)). nia.
Qed.

Lemma round_half_even_lower (a b : Z) : 0 < b -> a / b <= round_half_even a b.
Proof.
  intro Hb. unfold round_half_even.
  destruct (2 * (a mod b) ?= b); [destruct (Z.even (a / b))| |]; lia.
Qed.

Lemma round_half_even_exact (a b : Z) :
  0 < b -> a mod b = 0 -> round_half_even a b = a / b.
Proof.
  intros Hb E. unfold round_half_even. rewrite E.
  destruct (Z.compare_spec (2 * 0) b); lia.
Qed.

End FloatFacts.

Lemma Qred_zero (x : Q) : x == 0 -> Qnum (Qred x) = 0%Z.
Proof.
  intro H. rewrite (Qred_complete x 0 H). reflexivity.
Qed.

Lemma to_float_zero (x : Q) : x == 0 -> to_float x = 0.
Proof.
  intro H. unfold to_float. now rewrite (Qred_zero x H).
Qed.

Lemma to_float_compat (x y : Q) : x == y -> to_float x = to_float y.
Proof.
  intro H. unfold to_float. now rewrite (Qred_complete x y H).
Qed.

Lemma to_float_positive (x : Q) : 0 < x -> 0 < to_float x.
Proof.
  intro H. unfold to_float.
  assert (P : (0 < Qnum (Qred x))%Z).
  { assert (0 < Qred x) by now rewrite Qred_correct.
    unfold Qlt in H0. cbn in H0. lia. }
  set (n := Qnum (Qred x)) in *.
  set (d := Zpos (Qden (Qred x))) in *.
  assert (D : (0 < d)%Z) by (unfold d; lia).
  destruct (Z.eqb_spec n 0) as [E|_]; [lia|].
  rewrite (Z.abs_eq n), (Z.sgn_pos n) by lia.
  set (e := (floor_log2 n d - 52)%Z).
  rewrite scale_spec.
  pose proof (below_shift n d (floor_log2 n d) P D
                (floor_log2_below n d P D)) as B.
  fold e in B.
  set (a := (n * 2 ^ Z.max 0 (- e))%Z) in *.
  set (b := (d * 2 ^ Z.max 0 e)%Z) in *.
  assert (Hb : (0 < b)%Z).
  { unfold b. pose proof (pow2_pos (Z.max 0 e) ltac:(lia)). nia. }
  assert (M : (0 < round_half_even a b)%Z).
  { pose proof (round_half_even_lower a b Hb).
    assert (2 ^ 52 <= a / b)%Z by (apply Z.div_le_lower_bound; lia).
    lia. }
  rewrite Z.mul_1_l. rewrite Qred_correct.
  destruct (Z.leb_spec 0 e) as [He|He].
  - unfold Qlt. cbn [Qnum Qden inject_Z].
    pose proof (pow2_pos e He). nia.
  - unfold Qlt. cbn [Qnum Qden]. lia.
Qed.

Lemma Qred_inject_Z (n : Z) : Qred (inject_Z n) = inject_Z n.
Proof.
  unfold Qred, inject_Z.
  pose proof (Z.ggcd_gcd n 1) as G.
  pose proof (Z.ggcd_correct_divisors n 1) as C.
  destruct (Z.ggcd n 1) as [g [aa bb]]. cbn [fst snd] in *.
  rewrite Z.gcd_1_r in G. subst g. destruct C as [C1 C2].
  rewrite Z.mul_1_l in C1, C2. now subst.
Qed.

Lemma to_float_inject_Z (n : Z) :
  (Z.abs n <= 2 ^ 53)%Z -> to_float (inject_Z n) = inject_Z n.
Proof.
  intro B. unfold to_float.
  pose proof (Qred_inject_Z n) as R.
  rewrite R. cbn [inject_Z Qnum Qden].
  destruct (Z.eqb_spec n 0) as [->|N]; [reflexivity|].
  assert (A : (0 < Z.abs n)%Z) by lia.
  assert (L : floor_log2 (Z.abs n) 1 = Z.log2 (Z.abs n)).
  { unfold floor_log2. change (Z.log2 1) with 0%Z. rewrite Z.sub_0_r.
    rewrite scale_spec.
    pose proof (Z.log2_nonneg (Z.abs n)).
    rewrite (Z.max_l 0 (- Z.log2 (Z.abs n))), (Z.max_r 0 (Z.log2 (Z.abs n)))
      by lia.
    rewrite Z.pow_0_r, !Z.mul_1_r, Z.mul_1_l.
    destruct (Z.log2_spec (Z.abs n) A) as [Lo _].
    destruct (Z.ltb_spec (Z.abs n) (2 ^ Z.log2 (Z.abs n))); [lia|reflexivity]. }
  rewrite L. set (e := (Z.log2 (Z.abs n) - 52)%Z).
  rewrite scale_spec, Z.mul_1_l.
  assert (S : (Z.sgn n * Z.abs n = n)%Z) by lia.
  destruct (Z.leb_spec 0 e) as [He|He].
  - (* 2^52 <= |n| <= 2^53 *)
    assert (E : e = 0%Z \/ (e = 1%Z /\ Z.abs n = (2 ^ 53)%Z)).
    { destruct (Z.log2_spec (Z.abs n) A) as [Lo Hi].
      assert (Z.log2 (Z.abs n) <= 53)%Z.
      { pose proof (Z.log2_le_mono _ _ B) as M.
        now rewrite Z.log2_pow2 in M by lia. }
      destruct (Z.eq_dec e 0); [now left|right].
      assert (Z.log2 (Z.abs n) = 53)%Z by (unfold e in *; lia).
      split; [unfold e; lia|]. rewrite H0 in Lo. lia. }
    destruct E as [->|[-> E]].
    + change (2 ^ Z.max 0 (- 0))%Z with 1%Z.
      change (2 ^ Z.max 0 0)%Z with 1%Z. change (2 ^ 0)%Z with 1%Z.
      rewrite !Z.mul_1_r.
      rewrite round_half_even_exact by (try lia; apply Z.mod_1_r).
      rewrite Z.div_1_r, S. apply R.
    + rewrite E. vm_compute (round_half_even _ _).
      cbn [Z.max Z.opp].
      replace (Z.sgn n * 4503599627370496 * 2 ^ 1)%Z with n.
      * apply R.
      * change (2 ^ 53)%Z with 9007199254740992%Z in E. lia.
  - rewrite (Z.max_r 0 (- e)), (Z.max_l 0 e) by lia.
    rewrite Z.pow_0_r.
    rewrite round_half_even_exact by (try lia; apply Z.mod_1_r).
    rewrite Z.div_1_r.
    pose proof (pow2_pos (- e) ltac:(lia)) as Pp.
    rewrite <- R. apply Qred_complete.
    unfold Qeq. cbn [Qnum Qden inject_Z].
    rewrite Z2Pos.id by exact Pp. lia.
Qed.

Lemma to_float_whole (x : Q) : whole x -> to_float x == x.
Proof.
  intros (n & E & B). rewrite (to_float_compat x _ E), E.
  now rewrite to_float_inject_Z.
Qed.

Example to_float_samples :
  to_float (1 # 10) = 3602879701896397 # 36028797018963968
  /\ to_float (inject_Z (2 ^ 53 + 1)) = inject_Z (2 ^ 53)
  /\ to_float (8 - 5) = 3.
Proof. repeat split; vm_compute; reflexivity. Qed.

Lemma whole_compat (x y : Q) : x == y -> whole x -> whole y.
Proof. intros E (n & H & B). exists n. split; [now rewrite <- E | exact B]. Qed.

Lemma whole_zero : whole 0.
Proof. exists 0%Z. split; [reflexivity | discriminate]. Qed.

(** What is left of a whole quantity after a whole part of it is taken. *)
Lemma whole_minus (x y : Q) :
  whole x -> whole y -> 0 <= y -> y <= x -> whole (x - y).
Proof.
  intros (n & Ex & Bx) (m & Ey & By) Hy Hxy.
  rewrite Ey in Hy. rewrite Ex, Ey in Hxy.
  change 0 with (inject_Z 0) in Hy.
  rewrite <- Zle_Qle in Hy. rewrite <- Zle_Qle in Hxy.
  exists (n - m)%Z. split; [|lia].
  unfold Zminus. rewrite inject_Z_plus, inject_Z_opp, Ex, Ey. reflexivity.
Qed.


Lemma Qsum_app (l1 l2 : list Q) : Qsum (l1 ++ l2) == Qsum l1 + Qsum l2.
Proof.
  induction l1 as [|x l1 IH]; simpl; [lra | rewrite IH; lra].
Qed.

Lemma Qsum_perm (l1 l2 : list Q) : Permutation l1 l2 -> Qsum l1 == Qsum l2.
Proof.
  induction 1; simpl; lra.
Qed.

Lemma Qsum_nonneg (l : list Q) : Forall (fun x => 0 <= x) l -> 0 <= Qsum l.
Proof.
  induction 1; simpl; lra.
Qed.

Section SortingFacts.
Context {A : Type} (leb : A -> A -> bool).

Lemma insert_sorted_perm (x : A) (l : list A) :
  Permutation (insert_sorted leb x l) (x :: l).
Proof.
  induction l as [|y r IH]; simpl; [reflexivity|].
  destruct (leb x y); [reflexivity|].
  rewrite IH. apply perm_swap.
Qed.

Lemma order_by_perm (l : list A) : Permutation (order_by leb l) l.
Proof.
  induction l as [|x r IH]; simpl; [reflexivity|].
  rewrite insert_sorted_perm. now constructor.
Qed.

Lemma insert_sorted_sorted (x : A) (l : list A) :
  (forall a b, leb a b = false -> leb b a = true) ->
  Sorted (fun a b => leb a b = true) l ->
  Sorted (fun a b => leb a b = true) (insert_sorted leb x l).
Proof.
  intros T S. induction S as [|y r S IH H]; cbn [insert_sorted].
  - repeat constructor.
  - destruct (leb x y) eqn:E.
    + constructor; [now constructor | now constructor].
    + constructor; [exact IH|].
      destruct H as [|z r' Hz]; cbn [insert_sorted].
      * constructor. now apply T.
      * destruct (leb x z); constructor; [now apply T | exact Hz].
Qed.

Lemma order_by_sorted (l : list A) :
  (forall a b, leb a b = false -> leb b a = true) ->
  Sorted (fun a b => leb a b = true) (order_by leb l).
Proof.
  intro T. induction l as [|x r IH]; cbn [order_by]; [constructor|].
  now apply insert_sorted_sorted.
Qed.

Lemma order_by_Forall (P : A -> Prop) (l : list A) :
  Forall P l -> Forall P (order_by leb l).
Proof.
  intro H. eapply Permutation_Forall; [symmetry; apply order_by_perm|exact H].
Qed.
End SortingFacts.

Lemma fresh_id_above (ids : list Z) (k : Z) : In k ids -> (k < fresh_id ids)%Z.
Proof.
  unfold fresh_id. induction ids as [|x r IH]; cbn [fold_right In]; [tauto|].
  intros [->|H]; [lia | specialize (IH H); lia].
Qed.

Lemma fresh_id_not_in (ids : list Z) : ~ In (fresh_id ids) ids.
Proof.
  intro H. apply fresh_id_above in H. lia.
Qed.

(** ** Facts about modules/inventory.py *)

Section InventoryFacts.
Import Inventory.

Lemma stock_rows_positive (s : db) (p w : Z) :
  Forall (fun r => 0 < ih_remain r) (stock_rows s p w).
Proof.
  unfold stock_rows. apply Forall_forall. intros r H.
  apply filter_In in H. destruct H as [_ H].
  repeat (apply andb_prop in H; destruct H as [H ?]).
  now apply Qltb_true.
Qed.

Lemma add_to_groups_sum (today : date) (g : list batch_row)
      (r : inventory_history) :
  Qsum (map b_available_qty (add_to_groups today g r))
  == Qsum (map b_available_qty g) + ih_remain r.
Proof.
  induction g as [|b g IH]; simpl; [lra|].
  destruct (_ && _); simpl; [lra | rewrite IH; lra].
Qed.

Lemma add_to_groups_positive (today : date) (g : list batch_row)
      (r : inventory_history) :
  batches_positive g -> 0 < ih_remain r ->
  batches_positive (add_to_groups today g r).
Proof.
  unfold batches_positive.
  induction 1 as [|b g Hb Hg IH]; intro Hr; simpl.
  - repeat constructor. exact Hr.
  - destruct (_ && _); constructor; simpl; auto. lra.
Qed.

Lemma fold_groups_sum (today : date) (rows : list inventory_history) :
  forall g,
    Qsum (map b_available_qty (fold_left (add_to_groups today) rows g))
    == Qsum (map b_available_qty g) + Qsum (map ih_remain rows).
Proof.
  induction rows as [|r rows IH]; intro g; simpl; [lra|].
  rewrite IH, add_to_groups_sum. lra.
Qed.

Lemma fold_groups_positive (today : date) (rows : list inventory_history) :
  forall g,
    batches_positive g -> Forall (fun r => 0 < ih_remain r) rows ->
    batches_positive (fold_left (add_to_groups today) rows g).
Proof.
  induction rows as [|r rows IH]; intros g Hg Hr; simpl; [exact Hg|].
  inversion Hr; subst. apply IH; [|assumption].
  now apply add_to_groups_positive.
Qed.

Lemma get_stock_by_batch_sum (today : date) (s : db) (p w : Z) :
  Qsum (map b_available_qty (get_stock_by_batch today s p w))
  == total_available s p w.
Proof.
  unfold get_stock_by_batch, total_available, group_by_batch.
  rewrite (Qsum_perm _ _
             (Permutation_map b_available_qty (order_by_perm _ _))).
  rewrite fold_groups_sum. simpl. lra.
Qed.

Lemma get_stock_by_batch_positive (today : date) (s : db) (p w : Z) :
  batches_positive (get_stock_by_batch today s p w).
Proof.
  unfold get_stock_by_batch, group_by_batch.
  apply order_by_Forall, fold_groups_positive.
  - constructor.
  - apply stock_rows_positive.
Qed.

Lemma batches_total_nonneg (g : list batch_row) :
  batches_positive g -> 0 <= Qsum (map b_available_qty g).
Proof.
  intro H. apply Qsum_nonneg, Forall_map.
  eapply Forall_impl; [|exact H]. simpl. intros. lra.
Qed.

(** On whole quantities the float arithmetic of the loop is exact, and
    the loop hands out min(requested, offered) in total. *)
Lemma preview_loop_sum (batches : list batch_row) :
  batches_positive batches ->
  Forall (fun b => whole (b_available_qty b)) batches ->
  forall q, 0 <= q -> whole q ->
    Qsum (map sel_quantity (preview_loop batches q))
    == Qmin q (Qsum (map b_available_qty batches)).
Proof.
  induction 1 as [|b rest Hb Hrest IH]; intros W q Hq Wq; simpl.
  - rewrite Q.min_r; [reflexivity | exact Hq].
  - inversion W as [|? ? Wb Wrest]; subst.
    pose proof (batches_total_nonneg rest Hrest) as Hn.
    cbv beta in Hb.
    destruct (Qle_bool q 0) eqn:E.
    + apply Qle_bool_iff in E. simpl.
      rewrite Q.min_l; lra.
    + apply Qle_bool_false in E. simpl.
      pose proof (to_float_whole _ Wb) as Fb. fold (frame_qty b) in Fb.
      pose proof (py_min_Qmin q (frame_qty b)) as Hm.
      set (take := py_min q (frame_qty b)) in *.
      assert (Ht : take == Qmin q (b_available_qty b))
        by (rewrite Hm; apply Q.min_compat; [reflexivity | exact Fb]).
      clear Hm.
      assert (Wt : whole take /\ 0 <= take /\ take <= q).
      { destruct (Q.min_spec q (b_available_qty b)) as [[L X]|[L X]];
          rewrite X in Ht.
        - split; [apply (whole_compat q); [now symmetry | exact Wq] | lra].
        - split; [apply (whole_compat (b_available_qty b));
                  [now symmetry | exact Wb] | lra]. }
      destruct Wt as (Wt & T0 & T1).
      pose proof (whole_minus q take Wq Wt T0 T1) as Wr.
      pose proof (to_float_whole _ Wr) as Er. fold (float_sub q take) in Er.
      assert (Wr' : whole (float_sub q take))
        by (apply (whole_compat (q - take)); [now symmetry | exact Wr]).
      assert (Hr : 0 <= float_sub q take) by (rewrite Er; lra).
      rewrite (IH Wrest _ Hr Wr').
      rewrite (Q.min_compat _ _ Er _ _ (Qeq_refl _)).
      destruct (Q.min_spec q (b_available_qty b)) as [[L X]|[L X]];
        rewrite X in Ht;
        destruct (Q.min_spec (q - take) (Qsum (map b_available_qty rest)))
          as [[L1 X1]|[L1 X1]]; rewrite X1;
        destruct (Q.min_spec q
                    (b_available_qty b + Qsum (map b_available_qty rest)))
          as [[L2 X2]|[L2 X2]]; rewrite X2; lra.
Qed.

Lemma fefo_order_leb_total (a b : batch_row) :
  fefo_order_leb a b = false -> fefo_order_leb b a = true.
Proof.
  unfold fefo_order_leb.
  destruct (b_expired_date a) as [x|], (b_expired_date b) as [y|];
    try discriminate; try reflexivity.
  - destruct (x <? y)%Z eqn:E1; [discriminate|].
    destruct (y <? x)%Z eqn:E2; [reflexivity|].
    intro H. destruct (String.leb_total (b_batch_no a) (b_batch_no b));
      congruence.
  - intro H. destruct (String.leb_total (b_batch_no a) (b_batch_no b));
      congruence.
Qed.

(** The selection walks the batches in their order and stops: its batch
    numbers are a prefix of theirs. *)
Lemma preview_loop_prefix (batches : list batch_row) :
  forall q,
  exists rest,
    map b_batch_no batches
    = map sel_batch_no (preview_loop batches q) ++ rest.
Proof.
  induction batches as [|b bs IH]; intro q; cbn [preview_loop map].
  - now exists [].
  - destruct (Qle_bool q 0); cbn [map app]; [eauto|].
    destruct (IH (float_sub q (py_min q (frame_qty b)))) as [rest E].
    exists rest. now rewrite E.
Qed.

Lemma Qsum_member_le (l : list Q) (x : Q) :
  Forall (fun y => 0 <= y) l -> In x l -> x <= Qsum l.
Proof.
  induction 1 as [|y l Hy Hl IH]; cbn [In Qsum]; [tauto|].
  pose proof (Qsum_nonneg l Hl).
  intros [->|H']; [lra | specialize (IH H'); lra].
Qed.

Lemma add_to_groups_integral (today : date) (g : list batch_row)
      (r : inventory_history) :
  Forall (fun b => exists n, b_available_qty b == inject_Z n) g ->
  (exists n, ih_remain r == inject_Z n) ->
  Forall (fun b => exists n, b_available_qty b == inject_Z n)
         (add_to_groups today g r).
Proof.
  intros F (m & Em).
  induction F as [|b g (n & En) Hg IH]; cbn [add_to_groups].
  - repeat constructor. now exists m.
  - destruct (_ && _); constructor; trivial.
    + exists (n + m)%Z. cbn [b_available_qty].
      rewrite inject_Z_plus, En, Em. reflexivity.
    + now exists n.
Qed.

Lemma fold_groups_integral (today : date) (rows : list inventory_history) :
  Forall (fun r => exists n, ih_remain r == inject_Z n) rows ->
  forall g,
    Forall (fun b => exists n, b_available_qty b == inject_Z n) g ->
    Forall (fun b => exists n, b_available_qty b == inject_Z n)
           (fold_left (add_to_groups today) rows g).
Proof.
  induction 1 as [|r rows Hr Hrows IH]; intros g Hg; cbn [fold_left];
    [exact Hg|].
  apply IH. now apply add_to_groups_integral.
Qed.

(** Whole lots of at most 2^53 in total make whole batches. *)
Lemma get_stock_by_batch_whole (today : date) (s : db) (p w : Z) :
  Forall (fun r => whole (ih_remain r)) (stock_rows s p w) ->
  total_available s p w <= inject_Z (2 ^ 53) ->
  Forall (fun b => whole (b_available_qty b)) (get_stock_by_batch today s p w).
Proof.
  intros W T.
  pose proof (get_stock_by_batch_positive today s p w) as P.
  pose proof (get_stock_by_batch_sum today s p w) as S.
  assert (I : Forall (fun b => exists n, b_available_qty b == inject_Z n)
                (get_stock_by_batch today s p w)).
  { unfold get_stock_by_batch, group_by_batch.
    apply order_by_Forall, fold_groups_integral; [|constructor].
    eapply Forall_impl; [|exact W]. intros r (n & E & _). now exists n. }
  apply Forall_forall. intros b Hb.
  destruct (proj1 (Forall_forall _ _) I b Hb) as (n & En).
  pose proof (proj1 (Forall_forall _ _) P b Hb) as Pb. cbv beta in Pb.
  assert (L : b_available_qty b
              <= Qsum (map b_available_qty (get_stock_by_batch today s p w))).
  { apply Qsum_member_le; [|now apply in_map].
    apply Forall_map. eapply Forall_impl; [|exact P].
    cbv beta. intros. lra. }
  exists n. split; [exact En|].
  rewrite S in L. rewrite En in Pb, L.
  change 0 with (inject_Z 0) in Pb. rewrite <- Zlt_Qlt in Pb.
  assert (inject_Z n <= inject_Z (2 ^ 53)) by lra.
  rewrite <- Zle_Qle in H. lia.
Qed.

Lemma preview_is_loop (today : date) (s : db) (p : Z) (q : Q) (w : Z) :
  preview_fefo_issue today s p q w
  = preview_loop (get_stock_by_batch today s p w) q.
Proof.
  unfold preview_fefo_issue.
  destruct (get_stock_by_batch today s p w); reflexivity.
Qed.

End InventoryFacts.

(** C10: the dry-run FEFO preview is a total, read-only function of the
    ledger, and returns nothing when no row of the product in the
    warehouse has remain > 0 and delete_flag = 0.  Its quantities are
    float64 values: for a positive requested quantity they sum to
    min(requested, total remain of those rows), and to all of the stock
    when it is short, when the requested quantity and the lots are whole
    numbers of at most 2^53 in total. *)
Theorem preview_fefo_issue_total
        (today : date) (s : db) (product_id : Z) (quantity : Q)
        (warehouse_id : Z) :
  0 < quantity ->
  let selection :=
    Inventory.preview_fefo_issue today s product_id quantity warehouse_id in
  let live :=
    filter (fun r =>
        (ih_product_id r =? product_id)%Z
        && (ih_warehouse_id r =? warehouse_id)%Z
        && Qltb 0 (ih_remain r)
        && negb (ih_delete_flag r))
      (inventory_histories s) in
  let available := Qsum (map ih_remain live) in
  (live = [] -> selection = [])
  /\ (whole quantity ->
      Forall (fun r => whole (ih_remain r)) live ->
      available <= inject_Z (2 ^ 53) ->
      Qsum (map Inventory.sel_quantity selection) == Qmin quantity available
      /\ (available <= quantity ->
          Qsum (map Inventory.sel_quantity selection) == available)).
Proof.
  intros Hq selection live available.
  change live with (Inventory.stock_rows s product_id warehouse_id).
  change available
    with (Inventory.total_available s product_id warehouse_id).
  split.
  - intro N. unfold selection, Inventory.preview_fefo_issue,
      Inventory.get_stock_by_batch.
    now rewrite N.
  - intros Wq W T.
    assert (E : Qsum (map Inventory.sel_quantity selection)
                == Qmin quantity
                     (Inventory.total_available s product_id warehouse_id)).
    { unfold selection.
      rewrite preview_is_loop, preview_loop_sum.
      - now rewrite get_stock_by_batch_sum.
      - apply get_stock_by_batch_positive.
      - now apply get_stock_by_batch_whole.
      - lra.
      - exact Wq. }
    split; [exact E|].
    intro L. rewrite E. now apply Q.min_r.
Qed.

Lemma preview_fefo_issue_total_sample :
  0 < 8 /\
  Qsum (map Inventory.sel_quantity
          (Inventory.preview_fefo_issue Samples.today
             (Samples.stock_db Samples.lots_dated_and_open) 2 8 1))
  == Qmin 8 (Qsum (map ih_remain
                     (filter (fun r =>
                          (ih_product_id r =? 2)%Z
                          && (ih_warehouse_id r =? 1)%Z
                          && Qltb 0 (ih_remain r)
                          && negb (ih_delete_flag r))
                        (inventory_histories
                           (Samples.stock_db Samples.lots_dated_and_open))))).
Proof.
  assert (H : 0 < 8) by reflexivity.
  split; [exact H|].
  destruct (preview_fefo_issue_total Samples.today
              (Samples.stock_db Samples.lots_dated_and_open) 2 8 1 H)
    as [_ W].
  apply W.
  - exists 8%Z. split; [reflexivity | discriminate].
  - repeat constructor; exists 5%Z; (split; [reflexivity | discriminate]).
  - discriminate.
Defined.

(** Counterexample to C10 as stated: with lots of 0.1 and 0.7 and a
    request for 0.8 the preview selects both lots entirely, and what it
    selected sums to less than both the request and the stock, also when
    the sum is itself taken in float64 (0.7999999999999999). *)
Lemma preview_total_is_rounded :
  let s := Samples.stock_db MoreSamples.lots_of_tenths in
  let quantity := to_float (8 # 10) in
  let selection := Inventory.preview_fefo_issue Samples.today s 2 quantity 1 in
  Inventory.get_stock_balance s 2 (Some 1%Z) == 8 # 10
  /\ map Inventory.sel_quantity selection
     = [to_float (1 # 10); to_float (7 # 10)]
  /\ (Qsum (map Inventory.sel_quantity selection)
      ?= Qmin quantity (8 # 10)) = Lt
  /\ (to_float (Qsum (map Inventory.sel_quantity selection)) ?= quantity)
     = Lt
  /\ to_float (Qsum (map Inventory.sel_quantity selection))
     = 7205759403792793 # 9007199254740992.
Proof. vm_compute. repeat split. Qed.

(** The FEFO example of the specification, as the preview plans it. *)
Example preview_lots_AB :
  map (fun x => (Inventory.sel_batch_no x, Inventory.sel_quantity x))
      (Inventory.preview_fefo_issue Samples.today
         (Samples.stock_db Samples.lots_AB) 2 8 1)
  = [("A"%string, 5); ("B"%string, 3)].
Proof. vm_compute. reflexivity. Qed.

(** C4: the query behind the FEFO selection returns the batches sorted
    ascending by (expiry date, batch number), but with a batch without
    expiry date before every dated one, and the selection consumes them in
    that order: with lot A (expiry 2025-01-10, remain 5) and lot N (no
    expiry, remain 5), a request for 8 is planned as N:5 then A:3, where
    earliest-expiry-first with missing expiry last gives A:5 then N:3. *)
Theorem fefo_selection_takes_undated_lot_first :
  (forall today s product_id warehouse_id,
     Sorted (fun a b => Inventory.fefo_order_leb a b = true)
       (Inventory.get_stock_by_batch today s product_id warehouse_id))
  /\ (forall a b d,
        Inventory.b_expired_date a = None ->
        Inventory.b_expired_date b = Some d ->
        Inventory.fefo_order_leb a b = true
        /\ Inventory.fefo_order_leb b a = false)
  /\ (forall today s product_id quantity warehouse_id,
        exists rest,
          map Inventory.b_batch_no
              (Inventory.get_stock_by_batch today s product_id warehouse_id)
          = map Inventory.sel_batch_no
                (Inventory.preview_fefo_issue today s product_id quantity
                   warehouse_id) ++ rest)
  /\ map Inventory.b_batch_no
         (Inventory.get_stock_by_batch Samples.today
            (Samples.stock_db Samples.lots_dated_and_open) 2 1)
     = ["N"%string; "A"%string]
  /\ map (fun x => (Inventory.sel_batch_no x, Inventory.sel_quantity x))
         (Inventory.preview_fefo_issue Samples.today
            (Samples.stock_db Samples.lots_dated_and_open) 2 8 1)
     = [("N"%string, 5); ("A"%string, 3)].
Proof.
  split; [|split; [|split; [|split]]].
  - intros. apply order_by_sorted, fefo_order_leb_total.
  - intros a b d Ha Hb. unfold Inventory.fefo_order_leb.
    now rewrite Ha, Hb.
  - intros. rewrite preview_is_loop. apply preview_loop_prefix.
  - vm_compute. reflexivity.
  - vm_compute. reflexivity.
Qed.

(** C9: the generated order, issue and receipt numbers depend on the
    clock only down to the second, and nothing retries: two generation
    calls within one second return the same number. *)
Theorem generated_numbers_repeat_within_a_second
        (y mo d h mi sec us1 us2 : nat) :
  let t1 := mk_datetime y mo d h mi sec us1 in
  let t2 := mk_datetime y mo d h mi sec us2 in
  Production._generate_order_number t1 = Production._generate_order_number t2
  /\ Production._generate_issue_number t1
     = Production._generate_issue_number t2
  /\ Production._generate_receipt_number t1
     = Production._generate_receipt_number t2.
Proof. repeat split. Qed.

Example order_number_sample :
  Production._generate_order_number (mk_datetime 2025 1 10 12 0 0 250)
  = "MO-20250110120000"%string
  /\ Production._generate_order_number (mk_datetime 2025 1 10 12 0 0 750)
     = "MO-20250110120000"%string.
Proof. split; vm_compute; reflexivity. Qed.

(** ** Facts about modules/production.py *)

Section ProductionFacts.
Import Production.

Lemma min_date_nil (l : list date) : min_date l = None <-> l = [].
Proof.
  destruct l as [|d r]; simpl; [tauto|].
  destruct (min_date r); split; discriminate.
Qed.

Lemma min_date_least (l : list date) (d : date) :
  min_date l = Some d ->
  In d l /\ forall d', In d' l -> (d <= d')%Z.
Proof.
  revert d. induction l as [|x r IH]; intros d; simpl; [discriminate|].
  destruct (min_date r) as [m|] eqn:E.
  - intros [= <-]. destruct (IH m eq_refl) as [Hin Hle].
    split.
    + destruct (Z.min_spec x m) as [[_ ->]|[_ ->]]; auto.
    + intros d' [<-|H]; [lia | specialize (Hle d' H); lia].
  - intros [= <-]. apply min_date_nil in E. subst r.
    split; [now left | intros d' [<-|[]]; lia].
Qed.

Lemma consumed_expiries_set_receipts
      (l : list production_receipt) (s : db) (order_id : Z) :
  consumed_expiries (set_receipts l s) order_id
  = consumed_expiries s order_id.
Proof. reflexivity. Qed.

End ProductionFacts.

(** The dates [complete_production] takes the minimum of are the expiry
    dates of the consumed lots that have one. *)
Lemma consumed_expiries_lots (s : db) (order_id : Z) (d : date) :
  In d (Production.consumed_expiries s order_id)
  <-> exists lot,
        consumed_lot s order_id lot /\ ih_expired_date lot = Some d.
Proof.
  unfold Production.consumed_expiries, consumed_lot. split.
  - intro H. apply in_flat_map in H. destruct H as (mid & Hmid & H).
    apply in_flat_map in H. destruct H as (lot & Hlot & H).
    apply filter_In in Hmid. destruct Hmid as [Hmid Eo].
    apply filter_In in Hlot. destruct Hlot as [Hlot Ei].
    apply Z.eqb_eq in Eo, Ei.
    exists lot. split.
    + split; [exact Hlot|]. exists mid. repeat split; congruence.
    + destruct (ih_expired_date lot) as [d'|]; [|destruct H].
      destruct H as [<-|[]]. reflexivity.
  - intros (lot & (Hlot & mid & Hmid & Eo & Ei) & E).
    apply in_flat_map. exists mid. split.
    + apply filter_In. split; [exact Hmid | now apply Z.eqb_eq].
    + apply in_flat_map. exists lot. split.
      * apply filter_In. split; [exact Hlot | apply Z.eqb_eq; congruence].
      * rewrite E. now left.
Qed.

(** C5: completing an order always adds one ledger row for the output;
    for a KITTING order its expiry is the least expiry among the consumed
    lots that have one (the ledger rows that the order's issue details
    name), and it has none when no consumed lot has an expiry; for CUTTING
    and REPACKING orders the row carries no expiry, whatever was
    consumed. *)
Theorem kitting_output_expiry
        (now : datetime) (uuid : string) (order_id : Z) (produced_qty : Q)
        (batch_no quality_status : string) (s : db)
        (order : Production.order_view) :
  Production.get_order_details s order_id = Some order ->
  exists s' r lot,
    Production.complete_production now uuid order_id produced_qty batch_no
      quality_status s = (s', Ok r)
    /\ inventory_histories s' = inventory_histories s ++ [lot]
    /\ ih_batch_no lot = batch_no
    /\ match Production.ov_bom_type order with
       | KITTING =>
           match ih_expired_date lot with
           | None =>
               forall consumed,
                 consumed_lot s order_id consumed ->
                 ih_expired_date consumed = None
           | Some d =>
               (exists consumed,
                  consumed_lot s order_id consumed
                  /\ ih_expired_date consumed = Some d)
               /\ forall consumed d',
                   consumed_lot s order_id consumed ->
                   ih_expired_date consumed = Some d' ->
                   (d <= d')%Z
           end
       | CUTTING | REPACKING => ih_expired_date lot = None
       end.
Proof.
  intro H.
  unfold Production.complete_production, Production.transaction.
  rewrite H. cbn [Production.subscript bind].
  do 3 eexists. split; [reflexivity|].
  cbn [inventory_histories set_orders set_inventory set_receipts].
  split; [reflexivity|]. cbn [ih_batch_no ih_expired_date].
  split; [reflexivity|].
  destruct (Production.ov_bom_type order); try reflexivity.
  rewrite consumed_expiries_set_receipts.
  destruct (Production.min_date (Production.consumed_expiries s order_id))
    as [d|] eqn:E.
  - apply min_date_least in E. destruct E as [Hin Least]. split.
    + now apply consumed_expiries_lots.
    + intros consumed d' C Ed. apply Least.
      apply consumed_expiries_lots. now exists consumed.
  - apply min_date_nil in E. intros consumed C.
    destruct (ih_expired_date consumed) as [d|] eqn:Ed; [|reflexivity].
    exfalso.
    assert (X : In d (Production.consumed_expiries s order_id))
      by (apply consumed_expiries_lots; now exists consumed).
    rewrite E in X. destruct X.
Qed.

Lemma kitting_output_expiry_sample :
  Production.get_order_details (Samples.issued_kit_db KITTING) 1
  = Some MoreSamples.in_progress_row
  /\ exists s' r lot,
      Production.complete_production Samples.noon "U1" 1 4 "KIT-1" "PASSED"
        (Samples.issued_kit_db KITTING) = (s', Ok r)
      /\ inventory_histories s'
         = inventory_histories (Samples.issued_kit_db KITTING) ++ [lot]
      /\ ih_batch_no lot = "KIT-1"%string
      /\ match ih_expired_date lot with
         | None =>
             forall consumed,
               consumed_lot (Samples.issued_kit_db KITTING) 1 consumed ->
               ih_expired_date consumed = None
         | Some d =>
             (exists consumed,
                consumed_lot (Samples.issued_kit_db KITTING) 1 consumed
                /\ ih_expired_date consumed = Some d)
             /\ forall consumed d',
                 consumed_lot (Samples.issued_kit_db KITTING) 1 consumed ->
                 ih_expired_date consumed = Some d' ->
                 (d <= d')%Z
         end.
Proof.
  assert (H : Production.get_order_details (Samples.issued_kit_db KITTING) 1
              = Some MoreSamples.in_progress_row) by reflexivity.
  split; [exact H|].
  exact (kitting_output_expiry Samples.noon "U1" 1 4 "KIT-1" "PASSED"
           (Samples.issued_kit_db KITTING) MoreSamples.in_progress_row H).
Defined.

(** The expiry example of the specification: consumed expiries
    2025-03-01, none, 2025-02-15 give the output lot 2025-02-15; the same
    consumption under a CUTTING or REPACKING recipe gives none. *)
Example kit_expiry_sample :
  map ih_expired_date
      (skipn 3 (inventory_histories
         (fst (Production.complete_production Samples.noon "U1" 1 4 "KIT-1"
                 "PASSED" (Samples.issued_kit_db KITTING)))))
  = [Some (ymd 2025 2 15)]
  /\ map ih_expired_date
      (skipn 3 (inventory_histories
         (fst (Production.complete_production Samples.noon "U1" 1 4 "CUT-1"
                 "PASSED" (Samples.issued_kit_db CUTTING)))))
     = [None]
  /\ map ih_expired_date
      (skipn 3 (inventory_histories
         (fst (Production.complete_production Samples.noon "U1" 1 4 "REP-1"
                 "PASSED" (Samples.issued_kit_db REPACKING)))))
     = [None].
Proof. repeat split; vm_compute; reflexivity. Qed.

Section RequirementFacts.
Import Production.

Lemma insert_materials_rows (order_id wh : Z) (q : Q)
      (lines : list bom_detail) :
  forall rows,
  exists new,
    insert_materials order_id wh q lines rows = rows ++ new
    /\ map (fun m => (m_material_id m, m_required_qty m, m_uom m)) new
       = map (fun d => (d_material_id d,
                        d_quantity d * q * (1 + d_scrap_rate d / 100),
                        d_uom d)) lines
    /\ Forall (fun m => m_order_id m = order_id
                        /\ m_issued_qty m = default_issued_qty
                        /\ m_status m = default_material_status) new.
Proof.
  induction lines as [|d rest IH]; intro rows; cbn [insert_materials].
  - exists []. rewrite app_nil_r. repeat split. constructor.
  - destruct (IH (rows ++
      [mk_order_material (fresh_id (map m_id rows)) order_id
         (d_material_id d) (d_quantity d * q * (1 + d_scrap_rate d / 100))
         default_issued_qty (d_uom d) wh default_material_status]))
      as (new & E & M & F).
    eexists (_ :: new). rewrite E, <- app_assoc. split; [reflexivity|].
    split.
    + cbn [map m_material_id m_required_qty m_uom]. now rewrite M.
    + constructor; [now cbn | exact F].
Qed.


End RequirementFacts.



(** The sample BOM exploded for four gift boxes: 2 tins each, and 1 m of
    ribbon each with 10% scrap. *)
Example requirements_sample :
  map (fun r => (Production.rq_material_id r,
                 Qred (Production.rq_required_qty r)))
      (Production.calculate_material_requirements
         (Samples.order_db CONFIRMED false []) 1 4)
  = [(2%Z, 8); (3%Z, 22 # 5)].
Proof. vm_compute. reflexivity. Qed.

(** ** Facts about the allocation routine *)

Section AllocationFacts.
Import Allocation.

Lemma ledger_frame_refl (s : db) : ledger_frame s s.
Proof. repeat split. Qed.

Lemma ledger_frame_trans (s1 s2 s3 : db) :
  ledger_frame s1 s2 -> ledger_frame s2 s3 -> ledger_frame s1 s3.
Proof.
  unfold ledger_frame. intros H1 H2.
  decompose [and] H1. decompose [and] H2. repeat split; congruence.
Qed.

Lemma total_available_in_stock (s : db) (p w : Z) :
  Inventory.total_available s p w
  = Qsum (map ih_remain (filter (in_stock p w) (inventory_histories s))).
Proof. reflexivity. Qed.

(** The walk leaves needed - min(needed, stock) unserved and never takes
    a negative quantity. *)
Lemma walk_spec (lots : list inventory_history) :
  Forall (fun r => 0 < ih_remain r) lots ->
  forall q, 0 <= q ->
    snd (walk lots q) == q - Qmin q (Qsum (map ih_remain lots))
    /\ Forall (fun c => 0 <= snd c) (fst (walk lots q)).
Proof.
  induction 1 as [|lot rest Hl Hrest IH]; intros q Hq; cbn [walk map Qsum].
  - split; [|constructor]. cbn [snd]. rewrite Q.min_r; lra.
  - assert (Hn : 0 <= Qsum (map ih_remain rest)).
    { apply Qsum_nonneg, Forall_map.
      eapply Forall_impl; [|exact Hrest]. cbv beta. intros; lra. }
    cbv beta in Hl.
    destruct (Qeq_bool q 0) eqn:E.
    + apply Qeq_bool_iff in E. cbn [fst snd].
      split; [|constructor]. rewrite Q.min_l; lra.
    + cbn [fst snd].
      set (take := Qmin q (ih_remain lot)).
      assert (Ht : 0 <= take /\ take <= q).
      { unfold take.
        destruct (Q.min_spec q (ih_remain lot)) as [[L X]|[L X]];
          rewrite X; lra. }
      destruct (IH (q - take)) as [S F]; [lra|].
      split; [|constructor; [cbn [snd]; lra | exact F]].
      destruct (Q.min_spec q (ih_remain lot)) as [[L X]|[L X]];
        fold take in X;
        destruct (Q.min_spec (q - take) (Qsum (map ih_remain rest)))
          as [[L1 X1]|[L1 X1]];
        destruct (Q.min_spec q
                    (ih_remain lot + Qsum (map ih_remain rest)))
          as [[L2 X2]|[L2 X2]]; lra.
Qed.

Lemma decremented_row_available (p w : Z) (qty : Q)
      (r : inventory_history) :
  0 <= qty ->
  Qsum (map ih_remain
          (filter (in_stock p w)
             [mk_inventory (ih_id r) (ih_type r) (ih_product_id r)
                (ih_warehouse_id r) (ih_quantity r) (ih_remain r - qty)
                (ih_batch_no r) (ih_expired_date r)
                (ih_action_detail_id r) (ih_group_id r)
                (ih_delete_flag r)]))
  <= Qsum (map ih_remain (filter (in_stock p w) [r])).
Proof.
  intro Hq. cbn [filter]. unfold in_stock.
  cbn [ih_product_id ih_warehouse_id ih_remain ih_delete_flag].
  destruct (ih_product_id r =? p)%Z, (ih_warehouse_id r =? w)%Z,
    (ih_delete_flag r); cbn [andb negb]; rewrite ?andb_false_r, ?andb_true_r;
    try (cbn [map Qsum]; lra).
  destruct (Qltb 0 (ih_remain r - qty)) eqn:E1,
           (Qltb 0 (ih_remain r)) eqn:E2;
    cbn [map Qsum ih_remain];
    try apply Qltb_true in E1; try apply Qltb_false in E1;
    try apply Qltb_true in E2; try apply Qltb_false in E2; lra.
Qed.

Lemma decrement_lot_available (p w lot_id : Z) (qty : Q)
      (rows : list inventory_history) :
  0 <= qty ->
  Qsum (map ih_remain (filter (in_stock p w) (decrement_lot lot_id qty rows)))
  <= Qsum (map ih_remain (filter (in_stock p w) rows)).
Proof.
  intro Hq. induction rows as [|r rows IH]; [cbn; lra|].
  cbn [decrement_lot map]. fold (decrement_lot lot_id qty rows).
  change (r :: rows) with ([r] ++ rows).
  match goal with
  | |- context [filter ?f (?x :: ?l)] =>
      change (x :: l) with ([x] ++ l)
  end.
  rewrite !filter_app, !map_app, !Qsum_app.
  destruct (ih_id r =? lot_id)%Z.
  - pose proof (decremented_row_available p w qty r Hq). lra.
  - lra.
Qed.

Lemma consume_frame (m w i o : Z) (g : string) (s : db)
      (c : inventory_history * Q) :
  ledger_frame s (consume m w i o g s c).
Proof. destruct c. repeat split. Qed.

Lemma consume_available (m w i o : Z) (g : string) (s : db)
      (c : inventory_history * Q) (p w' : Z) :
  0 <= snd c ->
  Inventory.total_available (consume m w i o g s c) p w'
  <= Inventory.total_available s p w'.
Proof.
  destruct c as [lot qty]. cbn [snd]. intro Hq.
  rewrite !total_available_in_stock.
  cbn [consume inventory_histories set_issue_details set_inventory].
  rewrite filter_app, map_app, Qsum_app.
  assert (Z0 : filter (in_stock p w')
                 [mk_inventory
                    (fresh_id (map ih_id
                       (decrement_lot (ih_id lot) qty
                                      (inventory_histories s))))
                    stockOutProduction m w qty 0 (ih_batch_no lot)
                    (ih_expired_date lot) i g false] = []).
  { cbn [filter]. unfold in_stock. cbn [ih_remain].
    replace (Qltb 0 0) with false by reflexivity.
    now rewrite andb_false_r. }
  rewrite Z0. cbn [map Qsum].
  pose proof (decrement_lot_available p w' (ih_id lot) qty
                (inventory_histories s) Hq).
  lra.
Qed.

Lemma fold_consume (m w i o : Z) (g : string)
      (plan : list (inventory_history * Q)) :
  Forall (fun c => 0 <= snd c) plan ->
  forall s,
    ledger_frame s (fold_left (consume m w i o g) plan s)
    /\ forall p w',
        Inventory.total_available (fold_left (consume m w i o g) plan s)
                                  p w'
        <= Inventory.total_available s p w'.
Proof.
  induction 1 as [|c plan Hc Hp IH]; intro s; cbn [fold_left].
  - split; [apply ledger_frame_refl | intros; lra].
  - destruct (IH (consume m w i o g s c)) as [F A]. split.
    + eapply ledger_frame_trans; [apply consume_frame | exact F].
    + intros p w'. specialize (A p w').
      pose proof (consume_available m w i o g s c p w' Hc). lra.
Qed.

Lemma sorted_lots_positive (s : db) (m w : Z) :
  Forall (fun r => 0 < ih_remain r)
         (order_by lot_leb (Inventory.stock_rows s m w)).
Proof. apply order_by_Forall, stock_rows_positive. Qed.

Lemma sorted_lots_total (s : db) (m w : Z) :
  Qsum (map ih_remain (order_by lot_leb (Inventory.stock_rows s m w)))
  == Inventory.total_available s m w.
Proof.
  unfold Inventory.total_available.
  apply Qsum_perm, Permutation_map, order_by_perm.
Qed.

(** A successful allocation touches only ledger and issue details and
    never adds stock. *)
Lemma sp_issue_material_fefo_ok (m : Z) (q : Q) (w i o : Z) (g : string)
      (u : Z) (s s' : db) :
  0 <= q ->
  sp_issue_material_fefo m q w i o g u s = Ok s' ->
  ledger_frame s s'
  /\ forall p w',
      Inventory.total_available s' p w' <= Inventory.total_available s p w'.
Proof.
  intros Hq. unfold sp_issue_material_fefo.
  destruct (Qltb 0 _); [discriminate|]. intros [= <-].
  apply fold_consume.
  apply (walk_spec _ (sorted_lots_positive s m w) q Hq).
Qed.

Lemma sp_issue_material_fefo_err (m : Z) (q : Q) (w i o : Z) (g : string)
      (u : Z) (s : db) (e : error) :
  sp_issue_material_fefo m q w i o g u s = Err e ->
  e = InsufficientStockError.
Proof.
  unfold sp_issue_material_fefo.
  destruct (Qltb 0 _); [now intros [= <-] | discriminate].
Qed.

(** Less stock than requested: the routine rejects the call. *)
Lemma sp_issue_material_fefo_short (m : Z) (q : Q) (w i o : Z)
      (g : string) (u : Z) (s : db) :
  0 <= q -> Inventory.total_available s m w < q ->
  sp_issue_material_fefo m q w i o g u s = Err InsufficientStockError.
Proof.
  intros Hq Hs. unfold sp_issue_material_fefo.
  destruct (walk_spec _ (sorted_lots_positive s m w) q Hq) as [S _].
  rewrite sorted_lots_total in S.
  rewrite Q.min_r in S by lra.
  assert (L : 0 < snd (walk (order_by lot_leb
                               (Inventory.stock_rows s m w)) q)) by lra.
  apply Qltb_true in L. now rewrite L.
Qed.

(** Enough stock: the routine serves the call. *)
Lemma sp_issue_material_fefo_served (m : Z) (q : Q) (w i o : Z)
      (g : string) (u : Z) (s : db) :
  0 <= q -> q <= Inventory.total_available s m w ->
  exists s', sp_issue_material_fefo m q w i o g u s = Ok s'.
Proof.
  intros Hq Hs. unfold sp_issue_material_fefo.
  destruct (walk_spec _ (sorted_lots_positive s m w) q Hq) as [S _].
  rewrite sorted_lots_total in S.
  rewrite Q.min_l in S by lra.
  assert (L : snd (walk (order_by lot_leb
                           (Inventory.stock_rows s m w)) q) <= 0) by lra.
  apply Qltb_false in L. rewrite L. eauto.
Qed.

End AllocationFacts.

(** ** Facts about [issue_materials] *)

Section IssueFacts.
Import Production.

Lemma issue_loop_err (materials : list material_row) (w i o : Z)
      (g : string) (u : Z) :
  forall s e,
    issue_loop materials w i o g u s = Err e -> e = InsufficientStockError.
Proof.
  induction materials as [|mat rest IH]; intros s e; cbn [issue_loop];
    [discriminate|].
  destruct (Qltb 0 _); [|apply IH].
  destruct (Allocation.sp_issue_material_fefo _ _ _ _ _ _ _ s) as [s'|e']
    eqn:E; cbn [bind].
  - destruct (issue_loop rest w i o g u s') as [r|e''] eqn:E';
      cbn [bind]; [discriminate|].
    intros [= <-]. eapply IH, E'.
  - intros [= <-]. eapply sp_issue_material_fefo_err, E.
Qed.

Lemma issue_loop_ok (materials : list material_row) (w i o : Z)
      (g : string) (u : Z) :
  forall s r,
    issue_loop materials w i o g u s = Ok r ->
    ledger_frame s (fst r)
    /\ forall p w',
        Inventory.total_available (fst r) p w'
        <= Inventory.total_available s p w'.
Proof.
  induction materials as [|mat rest IH]; intros s r; cbn [issue_loop].
  - intros [= <-]. split; [apply ledger_frame_refl | intros; cbn; lra].
  - destruct (Qltb 0 _) eqn:P; [|apply IH].
    apply Qltb_true in P.
    destruct (Allocation.sp_issue_material_fefo _ _ _ _ _ _ _ s) as [s'|e']
      eqn:E; cbn [bind]; [|discriminate].
    destruct (issue_loop rest w i o g u s') as [r'|e''] eqn:E';
      cbn [bind]; [|discriminate].
    intros [= <-]. cbn [fst].
    apply sp_issue_material_fefo_ok in E; [|lra].
    destruct E as [F A]. destruct (IH _ _ E') as [F' A'].
    split; [eapply ledger_frame_trans; eauto|].
    intros p w'. specialize (A p w'). specialize (A' p w'). lra.
Qed.

(** A pending requirement that the stock cannot cover stops the loop. *)
Lemma issue_loop_short (materials : list material_row) (w i o : Z)
      (g : string) (u : Z) (mat : material_row) :
  In mat materials ->
  0 < mr_required_qty mat - mr_issued_qty mat ->
  forall s,
    Inventory.total_available s (mr_material_id mat) w
    < mr_required_qty mat - mr_issued_qty mat ->
    issue_loop materials w i o g u s = Err InsufficientStockError.
Proof.
  intros Hin Hpos.
  induction materials as [|a rest IH]; [destruct Hin|].
  intros s Hs. cbn [issue_loop].
  destruct (Qltb 0 (mr_required_qty a - mr_issued_qty a)) eqn:P.
  - apply Qltb_true in P.
    destruct (Allocation.sp_issue_material_fefo _ _ _ _ _ _ _ s) as [s'|e']
      eqn:E; cbn [bind].
    + destruct Hin as [->|Hin].
      * rewrite sp_issue_material_fefo_short in E; [discriminate|lra|exact Hs].
      * apply sp_issue_material_fefo_ok in E; [|lra].
        destruct E as [_ A]. specialize (A (mr_material_id mat) w).
        rewrite (IH Hin s'); [reflexivity | lra].
    + f_equal. eapply sp_issue_material_fefo_err, E.
  - destruct Hin as [->|Hin].
    + apply Qltb_false in P. lra.
    + now apply IH.
Qed.

Lemma issue_materials_err (now : datetime) (uuid : string) (o u : Z)
      (s s' : db) (e : error) :
  issue_materials now uuid o u s = (s', Err e) -> s' = s.
Proof.
  unfold issue_materials, transaction.
  destruct (bind _ _) as [[s1 a]|e1]; now intros [= <-].
Qed.

(** What a committed [issue_materials] has changed outside the ledger:
    one issue header more, and the requirement rows of the order. *)
Lemma issue_materials_ok (now : datetime) (uuid : string) (o u : Z)
      (s s' : db) (r : issue_result) :
  issue_materials now uuid o u s = (s', Ok r) ->
  products s' = products s
  /\ warehouses s' = warehouses s
  /\ bom_headers s' = bom_headers s
  /\ bom_details s' = bom_details s
  /\ manufacturing_orders s' = manufacturing_orders s
  /\ manufacturing_order_materials s'
     = mark_issued o (manufacturing_order_materials s)
  /\ production_receipts s' = production_receipts s
  /\ exists order, get_order_details s o = Some order.
Proof.
  unfold issue_materials, transaction.
  destruct (get_order_details s o) as [order|]; cbn [subscript bind];
    [|discriminate].
  destruct (issue_loop _ _ _ _ _ _ _) as [r'|e'] eqn:E; cbn [bind];
    [|discriminate].
  intros [= <- _].
  apply issue_loop_ok in E. destruct E as [F _].
  unfold ledger_frame in F. cbn in F. decompose [and] F.
  cbn [products warehouses bom_headers bom_details manufacturing_orders
       manufacturing_order_materials production_receipts
       set_order_materials].
  repeat split; try assumption; try congruence. eauto.
Qed.

Lemma mark_issued_rows (o : Z) (rows : list order_material)
      (m : order_material) :
  In m (mark_issued o rows) -> m_order_id m = o ->
  m_status m = ISSUED /\ m_issued_qty m = m_required_qty m.
Proof.
  unfold mark_issued. intros H E. apply in_map_iff in H.
  destruct H as (x & <- & _).
  destruct (m_order_id x =? o)%Z eqn:X; [now cbn|].
  apply Z.eqb_neq in X. contradiction.
Qed.


End IssueFacts.

(** C1: when one of the order's pending requirements asks for more than
    the total remain of the lots of its material in the order's warehouse,
    [issue_materials] fails with InsufficientStockError and the state
    after the call is the state before it: no lot's remain has changed. *)
Theorem issue_materials_insufficient_atomic
        (now : datetime) (uuid : string) (order_id user_id : Z) (s : db)
        (order : Production.order_view) (mat : Production.material_row) :
  Production.get_order_details s order_id = Some order ->
  In mat (Production.get_order_materials s order_id) ->
  0 < Production.mr_required_qty mat - Production.mr_issued_qty mat ->
  Inventory.total_available s (Production.mr_material_id mat)
    (o_warehouse_id (Production.ov_order order))
  < Production.mr_required_qty mat - Production.mr_issued_qty mat ->
  Production.issue_materials now uuid order_id user_id s
  = (s, Err InsufficientStockError).
Proof.
  intros Ho Hin Hpos Hshort.
  unfold Production.issue_materials, Production.transaction.
  rewrite Ho. cbn [Production.subscript bind].
  rewrite (issue_loop_short _ _ _ _ _ _ mat Hin Hpos); [reflexivity|].
  exact Hshort.
Qed.

Lemma issue_materials_insufficient_sample :
  Production.get_order_details Samples.short_db 1 = Some Samples.order_row
  /\ In Samples.tea_row (Production.get_order_materials Samples.short_db 1)
  /\ Inventory.total_available Samples.short_db 2 1 < 8 - 0
  /\ Production.issue_materials Samples.noon "G1" 1 7 Samples.short_db
     = (Samples.short_db, Err InsufficientStockError).
Proof.
  assert (H1 : Production.get_order_details Samples.short_db 1
               = Some Samples.order_row) by (vm_compute; reflexivity).
  assert (H2 : In Samples.tea_row
                  (Production.get_order_materials Samples.short_db 1))
    by (vm_compute; left; reflexivity).
  assert (H3 : 0 < Production.mr_required_qty Samples.tea_row
                   - Production.mr_issued_qty Samples.tea_row)
    by (vm_compute; reflexivity).
  assert (H4 : Inventory.total_available Samples.short_db
                 (Production.mr_material_id Samples.tea_row)
                 (o_warehouse_id (Production.ov_order Samples.order_row))
               < Production.mr_required_qty Samples.tea_row
                 - Production.mr_issued_qty Samples.tea_row)
    by (vm_compute; reflexivity).
  split; [exact H1|]. split; [exact H2|]. split; [exact H4|].
  exact (issue_materials_insufficient_atomic Samples.noon "G1" 1 7
           Samples.short_db Samples.order_row Samples.tea_row H1 H2 H3 H4).
Defined.

(** The FEFO example of the specification run through the allocation
    routine: 8 out of A (remain 5) and B (remain 10) leaves A with 0 and
    B with 7, and records A:5 then B:3. *)
Example allocation_lots_AB :
  match Allocation.sp_issue_material_fefo 2 8 1 1 1 "G1" 7
          (Samples.stock_db Samples.lots_AB) with
  | Ok s' =>
      map (fun r => (ih_batch_no r, ih_remain r))
          (filter (fun r => match ih_type r with
                            | stockOutProduction => false
                            | _ => true
                            end) (inventory_histories s'))
      = [("A"%string, 0); ("B"%string, 7)]
      /\ map (fun d => (mid_batch_no d, mid_quantity d))
             (material_issue_details s')
         = [("A"%string, 5); ("B"%string, 3)]
  | Err _ => False
  end.
Proof. vm_compute. split; reflexivity. Qed.

(** ** Facts about the order table and its views *)

Section OrderFacts.
Import Production.

Lemma map_flat_map {A B C} (g : B -> C) (f : A -> list B) (l : list A) :
  map g (flat_map f l) = flat_map (fun a => map g (f a)) l.
Proof.
  induction l as [|a l IH]; cbn [flat_map map]; [reflexivity|].
  now rewrite map_app, IH.
Qed.

Lemma hd_error_map {A B} (g : A -> B) (l : list A) :
  hd_error (map g l) = option_map g (hd_error l).
Proof. destruct l; reflexivity. Qed.

Lemma order_joins_order (s : db) (o : manufacturing_order) (v : order_view) :
  In v (order_joins s o) -> ov_order v = o.
Proof.
  unfold order_joins. intro H.
  apply in_flat_map in H. destruct H as (p & _ & H).
  apply in_flat_map in H. destruct H as (b & _ & H).
  apply in_flat_map in H. destruct H as (w1 & _ & H).
  apply in_map_iff in H. destruct H as (w2 & <- & _). reflexivity.
Qed.

(** Rewriting an order row outside its join columns rewrites its views. *)
Lemma order_joins_with (s s' : db) (f : manufacturing_order -> manufacturing_order)
      (o : manufacturing_order) :
  products s' = products s -> bom_headers s' = bom_headers s ->
  warehouses s' = warehouses s -> keeps_keys f ->
  order_joins s' (f o) = map (view_with f) (order_joins s o).
Proof.
  intros Hp Hb Hw K. destruct (K o) as (_ & K1 & K2 & K3 & K4).
  unfold order_joins. rewrite Hp, Hb, Hw, K1, K2, K3, K4.
  rewrite map_flat_map. apply flat_map_ext. intro p.
  rewrite map_flat_map. apply flat_map_ext. intro b.
  rewrite map_flat_map. apply flat_map_ext. intro w1.
  rewrite map_map. reflexivity.
Qed.

Lemma update_by_id_keys (k : Z) (f : manufacturing_order -> manufacturing_order) :
  keeps_keys f -> keeps_keys (update_by_id k f).
Proof.
  intros K o. unfold update_by_id.
  destruct (o_id o =? k)%Z; [apply K | repeat split].
Qed.

Lemma set_status_keys (st : order_status) : keeps_keys (set_status st).
Proof. intro o. repeat split. Qed.

Lemma complete_order_row_keys (q : Q) (now : datetime) :
  keeps_keys (complete_order_row q now).
Proof. intro o. repeat split. Qed.

Lemma filter_id_map (g : manufacturing_order -> manufacturing_order) (j : Z)
      (l : list manufacturing_order) :
  (forall o, o_id (g o) = o_id o) ->
  filter (fun o => (o_id o =? j)%Z) (map g l)
  = map g (filter (fun o => (o_id o =? j)%Z) l).
Proof.
  intro K. induction l as [|o l IH]; cbn [map filter]; [reflexivity|].
  rewrite K. destruct (o_id o =? j)%Z; cbn [map]; now rewrite IH.
Qed.

(** The details of an order after an UPDATE that keeps the join columns. *)
Lemma get_order_details_with (s s' : db)
      (g : manufacturing_order -> manufacturing_order) (j : Z) :
  products s' = products s -> bom_headers s' = bom_headers s ->
  warehouses s' = warehouses s -> keeps_keys g ->
  manufacturing_orders s' = map g (manufacturing_orders s) ->
  get_order_details s' j = option_map (view_with g) (get_order_details s j).
Proof.
  intros Hp Hb Hw K Ho. unfold get_order_details.
  rewrite Ho, filter_id_map by (intro o; apply K).
  rewrite <- hd_error_map. f_equal.
  induction (filter (fun o => (o_id o =? j)%Z) (manufacturing_orders s))
    as [|o l IH]; cbn [map flat_map]; [reflexivity|].
  rewrite map_app, IH. f_equal.
  now apply order_joins_with.
Qed.

Lemma status_of_map (s s' : db)
      (g : manufacturing_order -> manufacturing_order) (j : Z) :
  (forall o, o_id (g o) = o_id o) ->
  manufacturing_orders s' = map g (manufacturing_orders s) ->
  status_of s' j
  = match filter (fun o => (o_id o =? j)%Z) (manufacturing_orders s) with
    | o :: _ => Some (o_status (g o))
    | [] => None
    end.
Proof.
  intros K Ho. unfold status_of. rewrite Ho, filter_id_map by exact K.
  destruct (filter _ (manufacturing_orders s)); reflexivity.
Qed.

Lemma status_of_same_orders (s s' : db) (j : Z) :
  manufacturing_orders s' = manufacturing_orders s ->
  status_of s' j = status_of s j.
Proof. unfold status_of. now intros ->. Qed.

(** A view row offered by [get_orders] comes from a live order of the
    requested status. *)
Lemma offered_order (s : db) (st : order_status) (sel : Z) :
  Pages.offered sel (get_orders s (Some st)) = true ->
  exists o,
    In o (manufacturing_orders s) /\ o_id o = sel /\ o_status o = st
    /\ o_delete_flag o = false.
Proof.
  unfold Pages.offered, get_orders. intro H.
  apply existsb_exists in H. destruct H as (v & Hv & E).
  apply in_flat_map in Hv. destruct Hv as (o & Ho & Hv).
  apply order_joins_order in Hv. subst o.
  apply filter_In in Ho. destruct Ho as [Ho F].
  apply andb_prop in F. destruct F as [D S].
  exists (ov_order v). repeat split; trivial.
  - now apply Z.eqb_eq.
  - destruct (o_status (ov_order v)), st; cbn in S; congruence.
  - now destruct (o_delete_flag (ov_order v)).
Qed.

Lemma filter_none {A} (f : A -> bool) (l : list A) :
  (forall x, In x l -> f x = false) -> filter f l = [].
Proof.
  induction l as [|x l IH]; intro H; cbn [filter]; [reflexivity|].
  rewrite (H x (or_introl eq_refl)). apply IH.
  intros y Hy. apply H. now right.
Qed.

Lemma keyed_filter (l : list manufacturing_order) (o : manufacturing_order) :
  NoDup (map o_id l) -> In o l ->
  filter (fun x => (o_id x =? o_id o)%Z) l = [o].
Proof.
  induction l as [|x l IH]; cbn [map filter In]; [tauto|].
  intros N H. inversion N as [|? ? Nx Nl]; subst.
  destruct H as [->|H].
  - rewrite Z.eqb_refl. f_equal.
    apply filter_none. intros y Hy.
    apply Z.eqb_neq. intro E.
    apply Nx. rewrite <- E. now apply in_map.
  - destruct (o_id x =? o_id o)%Z eqn:E; [|now apply IH].
    apply Z.eqb_eq in E. exfalso. apply Nx. rewrite E. now apply in_map.
Qed.

Lemma status_of_in (s : db) (j : Z) (st : order_status) :
  status_of s j = Some st ->
  exists o, In o (manufacturing_orders s) /\ o_id o = j /\ o_status o = st.
Proof.
  unfold status_of.
  destruct (filter _ (manufacturing_orders s)) as [|o l] eqn:E;
    [discriminate|].
  intros [= <-].
  assert (H : In o (filter (fun o => (o_id o =? j)%Z)
                      (manufacturing_orders s))) by (rewrite E; now left).
  apply filter_In in H. destruct H as [H I]. apply Z.eqb_eq in I. eauto.
Qed.

Lemma status_of_keyed (s : db) (o : manufacturing_order) :
  orders_keyed s -> In o (manufacturing_orders s) ->
  status_of s (o_id o) = Some (o_status o).
Proof.
  intros N H. unfold status_of. now rewrite (keyed_filter _ o N H).
Qed.

End OrderFacts.

(** ** Facts about [complete_production] and [create_order] *)

Section CompletionFacts.
Import Production.

Lemma complete_production_missing (now : datetime) (uuid : string) (k : Z)
      (q : Q) (batch quality : string) (s : db) :
  get_order_details s k = None ->
  complete_production now uuid k q batch quality s = (s, Err TypeError).
Proof.
  intro H. unfold complete_production, transaction. now rewrite H.
Qed.

(** What a completion writes when the order exists. *)
Lemma complete_production_effect (now : datetime) (uuid : string) (k : Z)
      (q : Q) (batch quality : string) (s : db) (order : order_view) :
  get_order_details s k = Some order ->
  exists s' receipt lot,
    complete_production now uuid k q batch quality s
    = (s', Ok (mk_receipt_result (_generate_receipt_number now) batch q))
    /\ products s' = products s
    /\ warehouses s' = warehouses s
    /\ bom_headers s' = bom_headers s
    /\ bom_details s' = bom_details s
    /\ manufacturing_order_materials s' = manufacturing_order_materials s
    /\ manufacturing_orders s'
       = map (update_by_id k (complete_order_row q now))
             (manufacturing_orders s)
    /\ production_receipts s' = production_receipts s ++ [receipt]
    /\ pr_order_id receipt = k /\ pr_quantity receipt = q
    /\ pr_batch_no receipt = batch
    /\ inventory_histories s' = inventory_histories s ++ [lot]
    /\ ih_type lot = stockInProduction
    /\ ih_quantity lot = q /\ ih_remain lot = q /\ ih_batch_no lot = batch.
Proof.
  intro H. unfold complete_production, transaction.
  rewrite H. cbn [subscript bind].
  do 3 eexists. split; [reflexivity|].
  cbn [products warehouses bom_headers bom_details manufacturing_orders
       manufacturing_order_materials production_receipts inventory_histories
       set_orders set_inventory set_receipts].
  repeat (split; [reflexivity|]). reflexivity.
Qed.

Lemma completed_rows (k : Z) (q : Q) (now : datetime)
      (l : list manufacturing_order) (o : manufacturing_order) :
  In o (map (update_by_id k (complete_order_row q now)) l) ->
  o_id o = k -> o_status o = COMPLETED.
Proof.
  intros H E. apply in_map_iff in H. destruct H as (x & <- & _).
  unfold update_by_id in *.
  destruct (o_id x =? k)%Z eqn:X; [reflexivity|].
  apply Z.eqb_neq in X. contradiction.
Qed.

Lemma create_order_effect (now : datetime) (data : order_data) (s : db) :
  exists s' o new,
    create_order now data s = (s', Ok (_generate_order_number now))
    /\ products s' = products s
    /\ warehouses s' = warehouses s
    /\ bom_headers s' = bom_headers s
    /\ bom_details s' = bom_details s
    /\ manufacturing_orders s' = manufacturing_orders s ++ [o]
    /\ o_id o = fresh_id (map o_id (manufacturing_orders s))
    /\ o_status o = CONFIRMED
    /\ manufacturing_order_materials s'
       = manufacturing_order_materials s ++ new
    /\ map (fun m => (m_material_id m, m_required_qty m, m_uom m)) new
       = map (fun d => (d_material_id d,
                        d_quantity d * od_planned_qty data
                        * (1 + d_scrap_rate d / 100),
                        d_uom d))
             (filter (fun d => (d_bom_header_id d =? od_bom_header_id data)%Z)
                     (bom_details s))
    /\ Forall (fun m => m_issued_qty m = 0) new.
Proof.
  unfold create_order, transaction.
  destruct (insert_materials_rows
              (fresh_id (map o_id (manufacturing_orders s)))
              (od_warehouse_id data) (od_planned_qty data)
              (filter (fun d => (d_bom_header_id d =? od_bom_header_id data)%Z)
                      (bom_details s))
              (manufacturing_order_materials s)) as (new & E & M & F).
  do 2 eexists. exists new. split; [reflexivity|].
  cbn [products warehouses bom_headers bom_details manufacturing_orders
       manufacturing_order_materials set_orders set_order_materials].
  repeat (split; [reflexivity|]).
  split; [exact E|]. split; [exact M|].
  eapply Forall_impl; [|exact F]. cbv beta. tauto.
Qed.

End CompletionFacts.

(** C3: [complete_production] checks neither the order's status nor the
    produced quantity: for every existing order it succeeds, adds exactly
    one production receipt and one ledger lot (quantity = remain =
    produced quantity) and sets the order COMPLETED, and the order can be
    completed again.  The completion page is what restricts it: it acts
    only on an order offered as IN_PROGRESS with a quantity between 0 and
    int(planned quantity), and after a completion it no longer acts on
    that order. *)
Theorem complete_production_unchecked
        (now : datetime) (uuid : string) (order_id : Z) (produced_qty : Q)
        (batch_no quality_status : string) (s : db)
        (order : Production.order_view) :
  Production.get_order_details s order_id = Some order ->
  exists s' receipt lot,
    Production.complete_production now uuid order_id produced_qty batch_no
      quality_status s
    = (s', Ok (Production.mk_receipt_result
                 (Production._generate_receipt_number now) batch_no
                 produced_qty))
    /\ production_receipts s' = production_receipts s ++ [receipt]
    /\ pr_order_id receipt = order_id /\ pr_quantity receipt = produced_qty
    /\ inventory_histories s' = inventory_histories s ++ [lot]
    /\ ih_type lot = stockInProduction
    /\ ih_quantity lot = produced_qty /\ ih_remain lot = produced_qty
    /\ Production.status_of s' order_id = Some COMPLETED
    /\ (exists order', Production.get_order_details s' order_id = Some order')
    /\ (forall now' uuid' qty' batch' quality',
          Pages.complete_view now' uuid' order_id qty' batch' quality' s'
          = s')
    /\ (forall qty : Z,
          Pages.complete_view now uuid order_id qty batch_no quality_status s
          = s
          \/ ((exists o, In o (manufacturing_orders s) /\ o_id o = order_id
                         /\ o_status o = IN_PROGRESS)
              /\ (0 <= qty <= py_int (o_planned_qty
                                        (Production.ov_order order)))%Z
              /\ Pages.complete_view now uuid order_id qty batch_no
                   quality_status s
                 = fst (Production.complete_production now uuid order_id
                          (inject_Z qty) batch_no quality_status s))).
Proof.
  intro H.
  destruct (complete_production_effect now uuid order_id produced_qty
              batch_no quality_status s order H)
    as (s' & receipt & lot & E & Hp & Hw & Hb & _ & _ & Ho & Hr & R1 & R2
        & _ & Hi & L1 & L2 & L3 & _).
  exists s', receipt, lot.
  assert (K : keeps_keys
                (update_by_id order_id
                   (Production.complete_order_row produced_qty now)))
    by apply update_by_id_keys, complete_order_row_keys.
  repeat (split; [assumption|]).
  split; [|split; [|split]].
  - rewrite (status_of_map s s' _ order_id (fun o => proj1 (K o)) Ho).
    unfold Production.get_order_details in H.
    destruct (filter _ (manufacturing_orders s)) as [|o l] eqn:F;
      [discriminate|].
    assert (I : In o (filter (fun o => (o_id o =? order_id)%Z)
                        (manufacturing_orders s))) by (rewrite F; now left).
    apply filter_In in I. destruct I as [_ I].
    unfold update_by_id. now rewrite I.
  - rewrite (get_order_details_with s s' _ order_id Hp Hb Hw K Ho), H.
    cbn. eauto.
  - intros now' uuid' qty' batch' quality'. unfold Pages.complete_view.
    destruct (Pages.offered order_id
                (Production.get_orders s' (Some IN_PROGRESS))) eqn:O;
      [|reflexivity].
    apply offered_order in O. destruct O as (o & Hin & Hid & Hst & _).
    rewrite Ho in Hin.
    rewrite (completed_rows _ _ _ _ _ Hin Hid) in Hst. discriminate.
  - intro qty. unfold Pages.complete_view.
    destruct (Pages.offered order_id
                (Production.get_orders s (Some IN_PROGRESS))) eqn:O;
      [|now left].
    rewrite H.
    destruct ((0 <=? qty)%Z && _) eqn:B; [|now left].
    right. apply andb_prop in B. destruct B as [B1 B2].
    apply Z.leb_le in B1, B2.
    apply offered_order in O. destruct O as (o & Hin & Hid & Hst & _).
    split; [eauto|]. split; [lia | reflexivity].
Qed.

Lemma complete_production_unchecked_sample :
  Production.get_order_details (Samples.issued_kit_db KITTING) 1
  = Some (Production.mk_order_view (Samples.order IN_PROGRESS) "Gift box"
            KITTING "Raw store" "Finished goods")
  /\ exists s',
      Production.complete_production Samples.noon "U1" 1 4 "KIT-1" "PASSED"
        (Samples.issued_kit_db KITTING)
      = (s', Ok (Production.mk_receipt_result "PR-20250110120000" "KIT-1" 4))
      /\ Production.status_of s' 1 = Some COMPLETED.
Proof.
  assert (H : Production.get_order_details (Samples.issued_kit_db KITTING) 1
              = Some (Production.mk_order_view (Samples.order IN_PROGRESS)
                        "Gift box" KITTING "Raw store" "Finished goods"))
    by (vm_compute; reflexivity).
  split; [exact H|].
  destruct (complete_production_unchecked Samples.noon "U1" 1 4 "KIT-1"
              "PASSED" (Samples.issued_kit_db KITTING) _ H)
    as (s' & _ & _ & E & _ & _ & _ & _ & _ & _ & _ & S & _).
  exists s'. split; [exact E | exact S].
Defined.

(** Counterexample to C3 as stated: completing the same order twice
    succeeds twice and leaves two receipts and two output lots; a quantity
    above the planned one and an order that is not IN_PROGRESS are
    accepted as well. *)
Lemma complete_production_twice_succeeds_twice :
  let s0 := Samples.issued_kit_db KITTING in
  let r1 := Production.complete_production Samples.noon "U1" 1 4 "KIT-1"
              "PASSED" s0 in
  let r2 := Production.complete_production Samples.later "U2" 1 4 "KIT-2"
              "PASSED" (fst r1) in
  Production.status_of s0 1 = Some IN_PROGRESS
  /\ is_ok (snd r1) = true
  /\ Production.status_of (fst r1) 1 = Some COMPLETED
  /\ is_ok (snd r2) = true
  /\ List.length (production_receipts (fst r2)) = 2%nat
  /\ List.length (filter (fun r => match ih_type r with
                              | stockInProduction => true
                              | _ => false
                              end) (inventory_histories (fst r2))) = 2%nat
  /\ is_ok (snd (Production.complete_production Samples.noon "U1" 1 999
                   "KIT-1" "PASSED" s0)) = true
  /\ is_ok (snd (Production.complete_production Samples.noon "U1" 1 4
                   "KIT-1" "PASSED" Samples.stocked_db)) = true.
Proof. vm_compute. repeat split. Qed.

Section IssueViewFacts.
Import Production.

Lemma filter_id_head (l : list manufacturing_order) (o : manufacturing_order) :
  In o l ->
  exists x rest,
    filter (fun y => (o_id y =? o_id o)%Z) l = x :: rest /\ o_id x = o_id o.
Proof.
  intro H.
  destruct (filter (fun y => (o_id y =? o_id o)%Z) l) as [|x rest] eqn:E.
  - assert (I : In o (filter (fun y => (o_id y =? o_id o)%Z) l))
      by (apply filter_In; split; [exact H | apply Z.eqb_refl]).
    rewrite E in I. destruct I.
  - exists x, rest. split; [reflexivity|].
    assert (I : In x (filter (fun y => (o_id y =? o_id o)%Z) l))
      by (rewrite E; now left).
    apply filter_In in I. now apply Z.eqb_eq.
Qed.

Lemma status_after_update (k : Z) (st : order_status) (s : db)
      (o : manufacturing_order) :
  In o (manufacturing_orders s) -> o_id o = k ->
  status_of (update_order_status k st s) k = Some st.
Proof.
  intros H E. subst k.
  rewrite (status_of_map s _ (update_by_id (o_id o) (set_status st)));
    [| intro x; apply update_by_id_keys, set_status_keys | reflexivity].
  destruct (filter_id_head _ o H) as (x & rest & -> & I).
  unfold update_by_id. apply Z.eqb_eq in I. now rewrite I.
Qed.

Lemma issue_loop_nothing_pending (materials : list material_row) (w i o : Z)
      (g : string) (u : Z) (s : db) :
  (forall mat, In mat materials ->
     mr_required_qty mat - mr_issued_qty mat <= 0) ->
  issue_loop materials w i o g u s = Ok (s, []).
Proof.
  induction materials as [|a rest IH]; intro H; cbn [issue_loop];
    [reflexivity|].
  assert (P : Qltb 0 (mr_required_qty a - mr_issued_qty a) = false)
    by (apply Qltb_false, H; now left).
  rewrite P. apply IH. intros mat Hm. apply H. now right.
Qed.

End IssueViewFacts.

(** C2: [issue_materials] itself checks no order status and makes no
    status transition: whenever it succeeds, for an order of any status,
    the order table is unchanged and every requirement of the order is
    ISSUED with issued_qty = required_qty; it succeeds even with nothing
    pending.  The issue page is what restricts it: it acts only on an
    order offered as CONFIRMED with a pending requirement and, once the
    issue has succeeded, sets the order IN_PROGRESS by a separate
    [update_order_status] call. *)
Theorem issue_materials_unchecked
        (now : datetime) (uuid : string) (order_id user_id : Z) (s : db) :
  (forall s' r,
     Production.issue_materials now uuid order_id user_id s = (s', Ok r) ->
     manufacturing_orders s' = manufacturing_orders s
     /\ forall m,
         In m (manufacturing_order_materials s') -> m_order_id m = order_id ->
         m_status m = ISSUED /\ m_issued_qty m = m_required_qty m)
  /\ (forall order,
        Production.get_order_details s order_id = Some order ->
        (forall mat,
           In mat (Production.get_order_materials s order_id) ->
           Production.mr_required_qty mat - Production.mr_issued_qty mat <= 0) ->
        exists s',
          Production.issue_materials now uuid order_id user_id s
          = (s', Ok (Production.mk_issue_result
                       (Production._generate_issue_number now) [])))
  /\ (Pages.issue_view now uuid order_id user_id s = s
      \/ ((exists o, In o (manufacturing_orders s) /\ o_id o = order_id
                     /\ o_status o = CONFIRMED)
          /\ (exists mat,
                In mat (Production.get_order_materials s order_id)
                /\ Production.mr_issued_qty mat
                   < Production.mr_required_qty mat)
          /\ exists s' r,
              Production.issue_materials now uuid order_id user_id s
              = (s', Ok r)
              /\ Pages.issue_view now uuid order_id user_id s
                 = Production.update_order_status order_id IN_PROGRESS s'
              /\ Production.status_of
                   (Pages.issue_view now uuid order_id user_id s) order_id
                 = Some IN_PROGRESS)).
Proof.
  split; [|split].
  - intros s' r H. apply issue_materials_ok in H.
    destruct H as (_ & _ & _ & _ & Ho & Hm & _).
    split; [exact Ho|]. intros m Hin E. rewrite Hm in Hin.
    exact (mark_issued_rows order_id _ m Hin E).
  - intros order H N.
    unfold Production.issue_materials, Production.transaction.
    rewrite H. cbn [Production.subscript bind].
    rewrite issue_loop_nothing_pending by exact N.
    cbn [bind fst snd]. eauto.
  - unfold Pages.issue_view.
    destruct (Pages.offered order_id
                (Production.get_orders s (Some CONFIRMED))) eqn:O;
      [|now left].
    destruct (Production.get_order_details s order_id) as [order|];
      [|now left].
    destruct (existsb Pages.pending
                (Production.get_order_materials s order_id)) eqn:P;
      [|now left].
    destruct (Production.issue_materials now uuid order_id user_id s)
      as [s' [r|e]] eqn:I.
    + right.
      apply offered_order in O. destruct O as (o & Hin & Hid & Hst & _).
      split; [eauto|]. split.
      * apply existsb_exists in P. destruct P as (mat & Hm & Hp).
        exists mat. split; [exact Hm|].
        unfold Pages.pending in Hp. apply negb_true_iff in Hp.
        now apply Qle_bool_false.
      * exists s', r. split; [reflexivity|]. split; [reflexivity|].
        apply issue_materials_ok in I.
        destruct I as (_ & _ & _ & _ & Ho & _).
        apply (status_after_update order_id IN_PROGRESS s' o);
          [now rewrite Ho | exact Hid].
    + left. now apply issue_materials_err in I.
Qed.

(** Counterexample to C2 as stated: on a COMPLETED order [issue_materials]
    succeeds instead of failing, and on a CONFIRMED order with stock it
    succeeds while the order is still CONFIRMED when it has committed. *)
Lemma issue_materials_accepts_completed_order :
  let r0 := Production.issue_materials Samples.noon "G1" 1 7
              Samples.completed_db in
  let r1 := Production.issue_materials Samples.noon "G1" 1 7
              Samples.stocked_db in
  Production.status_of Samples.completed_db 1 = Some COMPLETED
  /\ snd r0 = Ok (Production.mk_issue_result "MI-20250110120000" [])
  /\ Production.status_of Samples.stocked_db 1 = Some CONFIRMED
  /\ is_ok (snd r1) = true
  /\ Production.status_of (fst r1) 1 = Some CONFIRMED.
Proof. vm_compute. repeat split. Qed.

(** ** What each page action does to the state *)

Section PageFacts.
Import Production.

Lemma status_of_update_same (s s' : db) (k : Z)
      (f : manufacturing_order -> manufacturing_order)
      (o : manufacturing_order) (st : order_status) :
  keeps_keys f -> (forall x, o_status (f x) = st) ->
  manufacturing_orders s' = map (update_by_id k f) (manufacturing_orders s) ->
  In o (manufacturing_orders s) -> o_id o = k ->
  status_of s' k = Some st.
Proof.
  intros K F Ho H E. subst k.
  rewrite (status_of_map s s' (update_by_id (o_id o) f));
    [| intro x; now apply update_by_id_keys | exact Ho].
  destruct (filter_id_head _ o H) as (x & rest & -> & I).
  unfold update_by_id. apply Z.eqb_eq in I. now rewrite I, F.
Qed.

Lemma status_of_update_other (s s' : db) (k j : Z)
      (f : manufacturing_order -> manufacturing_order) :
  keeps_keys f ->
  manufacturing_orders s' = map (update_by_id k f) (manufacturing_orders s) ->
  j <> k -> status_of s' j = status_of s j.
Proof.
  intros K Ho N.
  rewrite (status_of_map s s' (update_by_id k f));
    [| intro x; now apply update_by_id_keys | exact Ho].
  unfold status_of.
  destruct (filter _ (manufacturing_orders s)) as [|x rest] eqn:E;
    [reflexivity|].
  assert (I : In x (filter (fun o => (o_id o =? j)%Z)
                      (manufacturing_orders s))) by (rewrite E; now left).
  apply filter_In in I. destruct I as [_ I]. apply Z.eqb_eq in I.
  unfold update_by_id.
  destruct (o_id x =? k)%Z eqn:X; [apply Z.eqb_eq in X; congruence|].
  reflexivity.
Qed.

Lemma keyed_update (s s' : db) (k : Z)
      (f : manufacturing_order -> manufacturing_order) :
  keeps_keys f ->
  manufacturing_orders s' = map (update_by_id k f) (manufacturing_orders s) ->
  orders_keyed s -> orders_keyed s'.
Proof.
  unfold orders_keyed. intros K -> N.
  rewrite map_map.
  erewrite map_ext; [exact N|].
  intro x. now apply update_by_id_keys.
Qed.

Lemma bom_create_view_cases (data : BOM.bom_data) (s : db) :
  Pages.bom_create_view data s = s
  \/ (forallb (Pages.material_accepted s) (BOM.bd_materials data) = true
      /\ Pages.bom_create_view data s = fst (BOM.create_bom data s)).
Proof.
  unfold Pages.bom_create_view.
  destruct (_ && forallb _ _) eqn:G; [|now left].
  right. apply andb_prop in G. now destruct G.
Qed.

Lemma new_order_view_cases (now : datetime) (ty : bom_type)
      (bom_id qty src tgt : Z) (prio : string) (s : db) :
  Pages.new_order_view now ty bom_id qty src tgt prio s = s
  \/ exists bom_info,
      (1 <= qty)%Z
      /\ Pages.new_order_view now ty bom_id qty src tgt prio s
         = fst (create_order now
                  (mk_order_data None bom_id (h_product_id bom_info)
                     (inject_Z qty) (h_uom bom_info) src tgt (Some prio)) s).
Proof.
  unfold Pages.new_order_view.
  destruct (_ && existsb _ _) eqn:G; [|now left].
  destruct (BOM.get_bom_info s bom_id) as [bom_info|]; [|now left].
  right. exists bom_info. split; [|reflexivity].
  repeat (apply andb_prop in G; destruct G as [G ?]).
  now apply Z.leb_le.
Qed.

Lemma issue_view_cases (now : datetime) (uuid : string) (sel user : Z)
      (s : db) :
  Pages.issue_view now uuid sel user s = s
  \/ exists o s1 r,
      In o (manufacturing_orders s) /\ o_id o = sel
      /\ o_status o = CONFIRMED
      /\ issue_materials now uuid sel user s = (s1, Ok r)
      /\ Pages.issue_view now uuid sel user s
         = update_order_status sel IN_PROGRESS s1.
Proof.
  unfold Pages.issue_view.
  destruct (Pages.offered sel (get_orders s (Some CONFIRMED))) eqn:O;
    [|now left].
  destruct (get_order_details s sel) as [order|]; [|now left].
  destruct (existsb Pages.pending (get_order_materials s sel)); [|now left].
  destruct (issue_materials now uuid sel user s) as [s1 [r|e]] eqn:I.
  - right. apply offered_order in O. destruct O as (o & Hin & Hid & Hst & _).
    exists o, s1, r. repeat split; assumption.
  - left. now apply issue_materials_err in I.
Qed.

Lemma complete_view_cases (now : datetime) (uuid : string) (sel qty : Z)
      (batch quality : string) (s : db) :
  Pages.complete_view now uuid sel qty batch quality s = s
  \/ exists o order,
      In o (manufacturing_orders s) /\ o_id o = sel
      /\ o_status o = IN_PROGRESS
      /\ get_order_details s sel = Some order
      /\ Pages.complete_view now uuid sel qty batch quality s
         = fst (complete_production now uuid sel (inject_Z qty) batch
                  quality s).
Proof.
  unfold Pages.complete_view.
  destruct (Pages.offered sel (get_orders s (Some IN_PROGRESS))) eqn:O;
    [|now left].
  destruct (get_order_details s sel) as [order|] eqn:D; [|now left].
  destruct (_ && _); [|now left].
  right. apply offered_order in O. destruct O as (o & Hin & Hid & Hst & _).
  exists o, order. repeat split; assumption.
Qed.



End PageFacts.

Section StepFacts.
Import Production.



Lemma keyed_append (s s' : db) (o : manufacturing_order) :
  manufacturing_orders s' = manufacturing_orders s ++ [o] ->
  o_id o = fresh_id (map o_id (manufacturing_orders s)) ->
  orders_keyed s -> orders_keyed s'.
Proof.
  unfold orders_keyed. intros -> E N.
  rewrite map_app. cbn [map].
  apply NoDup_app; [exact N | repeat constructor; intros [] |].
  intros k Hk [<-|[]]. rewrite E in Hk.
  now apply fresh_id_not_in in Hk.
Qed.

Lemma status_of_append (s s' : db) (o : manufacturing_order) (j : Z)
      (st : order_status) :
  manufacturing_orders s' = manufacturing_orders s ++ [o] ->
  status_of s j = Some st -> status_of s' j = Some st.
Proof.
  unfold status_of. intros ->. rewrite filter_app.
  destruct (filter _ (manufacturing_orders s)); [discriminate|].
  now cbn.
Qed.

(** One page action moves every order's status along
    CONFIRMED -> IN_PROGRESS -> COMPLETED by at most one step. *)
Lemma step_transition (s s' : db) :
  orders_keyed s -> Pages.step s s' ->
  orders_keyed s'
  /\ forall j st,
      status_of s j = Some st ->
      exists st', status_of s' j = Some st' /\ page_transition st st'.
Proof.
  intros N St.
  assert (Same : forall t : db,
             manufacturing_orders t = manufacturing_orders s ->
             orders_keyed t
             /\ forall j st,
                 status_of s j = Some st ->
                 exists st',
                   status_of t j = Some st' /\ page_transition st st').
  { intros t E. split; [unfold orders_keyed; now rewrite E|].
    intros j st H. exists st.
    rewrite (status_of_same_orders s t j E). split; [exact H | now left]. }
  destruct St.
  - apply Same.
    destruct (bom_create_view_cases data s) as [->|[_ ->]]; reflexivity.
  - now apply Same.
  - destruct (new_order_view_cases now ty bom_id qty src tgt prio s)
      as [->|(bom_info & _ & ->)]; [now apply Same|].
    destruct (create_order_effect now
                (mk_order_data None bom_id (h_product_id bom_info)
                   (inject_Z qty) (h_uom bom_info) src tgt (Some prio)) s)
      as (s1 & o & new & E & _ & _ & _ & _ & Ho & Hid & _).
    rewrite E. cbn [fst]. split; [now apply (keyed_append s s1 o)|].
    intros j st H. exists st. split; [|now left].
    now apply (status_of_append s s1 o).
  - destruct (issue_view_cases now uuid sel user s)
      as [->|(o & s1 & r & Hin & Hid & Hst & I & ->)]; [now apply Same|].
    apply issue_materials_ok in I.
    destruct I as (_ & _ & _ & _ & Ho & _).
    assert (U : manufacturing_orders (update_order_status sel IN_PROGRESS s1)
                = map (update_by_id sel (set_status IN_PROGRESS))
                      (manufacturing_orders s))
      by (unfold update_order_status; cbn [manufacturing_orders set_orders];
          now rewrite Ho).
    split; [exact (keyed_update s _ sel _ (set_status_keys _) U N)|].
    intros j st H. destruct (Z.eq_dec j sel) as [->|Nj].
    + exists IN_PROGRESS. split.
      * exact (status_of_update_same s _ sel _ o IN_PROGRESS
                 (set_status_keys _) (fun _ => eq_refl) U Hin Hid).
      * rewrite <- Hid, (status_of_keyed s o N Hin), Hst in H.
        injection H as <-. right. left. now split.
    + exists st. split; [|now left].
      now rewrite (status_of_update_other s _ sel j _
                     (set_status_keys _) U Nj).
  - destruct (complete_view_cases now uuid sel qty batch quality s)
      as [->|(o & order & Hin & Hid & Hst & D & ->)]; [now apply Same|].
    destruct (complete_production_effect now uuid sel (inject_Z qty) batch
                quality s order D)
      as (s1 & rc & lot & E & _ & _ & _ & _ & _ & U & _).
    rewrite E. cbn [fst].
    split; [exact (keyed_update s _ sel _ (complete_order_row_keys _ _) U N)|].
    intros j st H. destruct (Z.eq_dec j sel) as [->|Nj].
    + exists COMPLETED. split.
      * exact (status_of_update_same s _ sel _ o COMPLETED
                 (complete_order_row_keys _ _) (fun _ => eq_refl) U Hin Hid).
      * rewrite <- Hid, (status_of_keyed s o N Hin), Hst in H.
        injection H as <-. right. right. now split.
    + exists st. split; [|now left].
      now rewrite (status_of_update_other s _ sel j _
                     (complete_order_row_keys _ _) U Nj).
Qed.

Lemma page_reach_step (a b c : order_status) :
  page_reach a b -> page_transition b c -> page_reach a c.
Proof.
  unfold page_reach, page_transition.
  destruct a, b, c; intros H1 H2;
    repeat match goal with
      | H : _ \/ _ |- _ => destruct H
      | H : _ /\ _ |- _ => destruct H
      end; try discriminate; auto 6.
Qed.

End StepFacts.




(** The sample order through the pages: issued, then completed. *)
Example pages_sample :
  Production.status_of Samples.after_issue 1 = Some IN_PROGRESS
  /\ map (fun m => (m_issued_qty m, m_status m))
         (manufacturing_order_materials Samples.after_issue)
     = [(8, ISSUED)]
  /\ Production.status_of Samples.after_completion 1 = Some COMPLETED
  /\ Pages.complete_view Samples.later "U2" 1 4 "KIT-2" "PASSED"
       Samples.after_completion = Samples.after_completion.
Proof. vm_compute. repeat split. Qed.

(** C7: through the pages, from a state in which order ids are unique,
    an order's status only advances along CONFIRMED -> IN_PROGRESS ->
    COMPLETED: whatever the sequence of page actions, an order that was
    COMPLETED or CANCELLED keeps that status, and no action makes an order
    CANCELLED. *)
Theorem page_status_transitions (s0 s : db) :
  orders_keyed s0 -> Pages.steps s0 s ->
  forall order_id st,
    Production.status_of s0 order_id = Some st ->
    exists st',
      Production.status_of s order_id = Some st'
      /\ page_reach st st'
      /\ (terminal st -> st' = st)
      /\ (st' = CANCELLED -> st = CANCELLED).
Proof.
  intros N St.
  assert (I : orders_keyed s
              /\ forall j st,
                  Production.status_of s0 j = Some st ->
                  exists st',
                    Production.status_of s j = Some st' /\ page_reach st st').
  { induction St as [|s1 s2 s3 St IH Step].
    - split; [exact N|]. intros j st H. exists st. split; [exact H|now left].
    - destruct (IH N) as [N2 T2].
      destruct (step_transition s2 s3 N2 Step) as [N3 T3].
      split; [exact N3|]. intros j st H.
      destruct (T2 j st H) as (st2 & H2 & R2).
      destruct (T3 j st2 H2) as (st3 & H3 & R3).
      exists st3. split; [exact H3|]. now apply (page_reach_step st st2). }
  destruct I as [_ I]. intros j st H.
  destruct (I j st H) as (st' & H' & R). exists st'.
  split; [exact H'|]. split; [exact R|].
  unfold page_reach, terminal in *.
  split; intro T;
    repeat match goal with
      | H : _ \/ _ |- _ => destruct H
      | H : _ /\ _ |- _ => destruct H
      end; congruence.
Qed.

Lemma page_status_transitions_sample :
  orders_keyed Samples.stocked_db
  /\ Pages.steps Samples.stocked_db Samples.after_completion
  /\ Production.status_of Samples.stocked_db 1 = Some CONFIRMED
  /\ exists st',
      Production.status_of Samples.after_completion 1 = Some st'
      /\ page_reach CONFIRMED st'
      /\ (terminal CONFIRMED -> st' = CONFIRMED)
      /\ (st' = CANCELLED -> CONFIRMED = CANCELLED).
Proof.
  assert (N : orders_keyed Samples.stocked_db)
    by (repeat constructor; intros []).
  assert (St : Pages.steps Samples.stocked_db Samples.after_completion).
  { eapply Pages.steps_next; [|apply Pages.step_complete].
    eapply Pages.steps_next; [apply Pages.steps_refl|apply Pages.step_issue]. }
  assert (H : Production.status_of Samples.stocked_db 1 = Some CONFIRMED)
    by reflexivity.
  split; [exact N|]. split; [exact St|]. split; [exact H|].
  exact (page_status_transitions Samples.stocked_db Samples.after_completion
           N St 1%Z CONFIRMED H).
Defined.

(** Counterexample to C7 as stated: [update_order_status] moves a
    COMPLETED order back to IN_PROGRESS, and [complete_production] moves a
    CANCELLED order to COMPLETED. *)
Lemma terminal_status_can_change :
  Production.status_of Samples.completed_db 1 = Some COMPLETED
  /\ Production.status_of
       (Production.update_order_status 1 IN_PROGRESS Samples.completed_db) 1
     = Some IN_PROGRESS
  /\ Production.status_of Samples.cancelled_db 1 = Some CANCELLED
  /\ Production.status_of
       (fst (Production.complete_production Samples.noon "U1" 1 4 "KIT-1"
               "PASSED" Samples.cancelled_db)) 1
     = Some COMPLETED.
Proof. vm_compute. repeat split. Qed.

(** * Further properties of the code *)

(** ** Stock balance and batch breakdown *)

Section BalanceFacts.
Import Inventory.



Lemma get_stock_balance_in_warehouse (s : db) (p w : Z) :
  w <> 0%Z ->
  get_stock_balance s p (Some w) = total_available s p w.
Proof.
  intro N. unfold get_stock_balance, total_available, stock_rows, truthy_id.
  apply Z.eqb_neq in N. rewrite N.
  do 2 f_equal. apply filter_ext. intro r.
  destruct (ih_product_id r =? p)%Z, (Qltb 0 (ih_remain r)),
    (ih_delete_flag r), (ih_warehouse_id r =? w)%Z; reflexivity.
Qed.

Lemma batch_key_match (b : batch_row) (r : inventory_history) :
  String.eqb (b_batch_no b) (ih_batch_no r)
  && option_date_eqb (b_expired_date b) (ih_expired_date r) = true
  <-> batch_key b = (ih_batch_no r, ih_expired_date r).
Proof.
  unfold batch_key. rewrite andb_true_iff, String.eqb_eq.
  split.
  - intros [-> H]. f_equal.
    destruct (b_expired_date b) as [x|], (ih_expired_date r) as [y|];
      cbn in H; try discriminate; [|reflexivity].
    apply Z.eqb_eq in H. now subst.
  - intros [= -> ->]. split; [reflexivity|].
    destruct (ih_expired_date r); cbn; [apply Z.eqb_refl | reflexivity].
Qed.

Lemma add_to_groups_keys (today : date) (g : list batch_row)
      (r : inventory_history) (k : string * option date) :
  In k (map batch_key (add_to_groups today g r)) <->
  In k (map batch_key g) \/ k = (ih_batch_no r, ih_expired_date r).
Proof.
  induction g as [|b g IH]; cbn [add_to_groups map In].
  - unfold batch_key. cbn. intuition.
  - destruct (_ && _) eqn:E; cbn [map In].
    + apply batch_key_match in E.
      change (batch_key (mk_batch (b_batch_no b)
                (b_available_qty b + ih_remain r) (b_expired_date b)
                (b_expiry_status b))) with (batch_key b).
      rewrite <- E. intuition.
    + rewrite IH. intuition.
Qed.

Lemma add_to_groups_NoDup (today : date) (g : list batch_row)
      (r : inventory_history) :
  NoDup (map batch_key g) ->
  NoDup (map batch_key (add_to_groups today g r)).
Proof.
  induction g as [|b g IH]; cbn [add_to_groups map]; intro N.
  - repeat constructor. intros [].
  - inversion N as [|? ? Nb Ng]; subst.
    destruct (_ && _) eqn:E; cbn [map].
    + exact N.
    + constructor; [|now apply IH].
      intro H. apply add_to_groups_keys in H. destruct H as [H|H].
      * contradiction.
      * apply batch_key_match in H. congruence.
Qed.

Lemma add_to_groups_status (today : date) (g : list batch_row)
      (r : inventory_history) :
  Forall (fun b => b_expiry_status b = expiry_status today (b_expired_date b))
         g ->
  Forall (fun b => b_expiry_status b = expiry_status today (b_expired_date b))
         (add_to_groups today g r).
Proof.
  induction 1 as [|b g Hb Hg IH]; cbn [add_to_groups].
  - repeat constructor.
  - destruct (_ && _); constructor; auto.
Qed.

Lemma fold_groups_invariants (today : date) (rows : list inventory_history) :
  forall g,
    NoDup (map batch_key g) ->
    Forall (fun b => b_expiry_status b
                     = expiry_status today (b_expired_date b)) g ->
    let g' := fold_left (add_to_groups today) rows g in
    NoDup (map batch_key g')
    /\ Forall (fun b => b_expiry_status b
                        = expiry_status today (b_expired_date b)) g'
    /\ forall k,
        In k (map batch_key g') <->
        In k (map batch_key g)
        \/ In k (map (fun r => (ih_batch_no r, ih_expired_date r)) rows).
Proof.
  induction rows as [|r rows IH]; intros g N S; cbn [fold_left map In].
  - repeat split; trivial; intuition.
  - destruct (IH (add_to_groups today g r)
                (add_to_groups_NoDup today g r N)
                (add_to_groups_status today g r S)) as (N' & S' & K').
    repeat split; trivial.
    + intro H. apply K' in H. rewrite add_to_groups_keys in H. intuition.
    + intro H. apply K'. rewrite add_to_groups_keys. intuition.
Qed.

End BalanceFacts.


(** X2: [get_stock_by_batch] returns one row per distinct
    (batch_no, expired_date) pair among the live lots of the product in
    the warehouse: no pair occurs twice, every row has a positive
    quantity, every live lot falls into a row and every row comes from a
    live lot. *)
Theorem stock_by_batch_groups
        (today : date) (s : db) (product_id warehouse_id : Z) :
  let batches :=
    Inventory.get_stock_by_batch today s product_id warehouse_id in
  let lots := Inventory.stock_rows s product_id warehouse_id in
  NoDup (map batch_key batches)
  /\ Forall (fun b => 0 < Inventory.b_available_qty b) batches
  /\ forall k,
      In k (map batch_key batches) <->
      In k (map (fun r => (ih_batch_no r, ih_expired_date r)) lots).
Proof.
  intros batches lots.
  destruct (fold_groups_invariants today lots [] (NoDup_nil _)
              (Forall_nil _)) as (N & _ & K).
  assert (P : Permutation (map batch_key batches)
                (map batch_key
                   (fold_left (Inventory.add_to_groups today) lots [])))
    by apply Permutation_map, order_by_perm.
  split; [|split].
  - eapply Permutation_NoDup; [symmetry; exact P | exact N].
  - apply get_stock_by_batch_positive.
  - intro k. split; intro H.
    + apply (Permutation_in _ P), K in H. now destruct H as [[]|H].
    + apply (Permutation_in _ (Permutation_sym P)), K. now right.
Qed.

(** X3: every row of [get_stock_by_batch] is classified from its own
    expiry date: EXPIRED exactly when it lies before today, CRITICAL when
    it is today up to 7 days ahead, WARNING when it is 8 to 30 days ahead,
    and OK when it is later or the batch has no expiry date. *)
Theorem stock_by_batch_classification
        (today : date) (s : db) (product_id warehouse_id : Z)
        (b : Inventory.batch_row) :
  In b (Inventory.get_stock_by_batch today s product_id warehouse_id) ->
  match Inventory.b_expiry_status b with
  | EXPIRED =>
      exists d, Inventory.b_expired_date b = Some d /\ (d < today)%Z
  | CRITICAL =>
      exists d, Inventory.b_expired_date b = Some d
                /\ (today <= d <= today + 7)%Z
  | WARNING =>
      exists d, Inventory.b_expired_date b = Some d
                /\ (today + 7 < d <= today + 30)%Z
  | OK_ =>
      Inventory.b_expired_date b = None
      \/ exists d, Inventory.b_expired_date b = Some d
                   /\ (today + 30 < d)%Z
  end.
Proof.
  intro H.
  destruct (fold_groups_invariants today
              (Inventory.stock_rows s product_id warehouse_id) []
              (NoDup_nil _) (Forall_nil _)) as (_ & S & _).
  assert (E : Inventory.b_expiry_status b
              = Inventory.expiry_status today (Inventory.b_expired_date b)).
  { apply (proj1 (Forall_forall _ _) S).
    eapply Permutation_in; [apply order_by_perm | exact H]. }
  rewrite E. unfold Inventory.expiry_status.
  destruct (Inventory.b_expired_date b) as [d|]; [|now left].
  destruct (d <? today)%Z eqn:E1; [apply Z.ltb_lt in E1; eauto|].
  apply Z.ltb_ge in E1.
  destruct (d <=? today + 7)%Z eqn:E2;
    [apply Z.leb_le in E2; exists d; split; [reflexivity | lia]|].
  apply Z.leb_gt in E2.
  destruct (d <=? today + 30)%Z eqn:E3.
  - apply Z.leb_le in E3. exists d. split; [reflexivity | lia].
  - apply Z.leb_gt in E3. right. exists d. split; [reflexivity | lia].
Qed.

Lemma stock_by_batch_classification_sample :
  In (Inventory.mk_batch "A" 5 (Some (ymd 2025 1 10)) WARNING)
     (Inventory.get_stock_by_batch Samples.today
        (Samples.stock_db Samples.lots_AB) 2 1)
  /\ exists d,
      Some (ymd 2025 1 10) = Some d
      /\ (Samples.today + 7 < d <= Samples.today + 30)%Z.
Proof.
  assert (H : In (Inventory.mk_batch "A" 5 (Some (ymd 2025 1 10)) WARNING)
                 (Inventory.get_stock_by_batch Samples.today
                    (Samples.stock_db Samples.lots_AB) 2 1))
    by (vm_compute; left; reflexivity).
  split; [exact H|].
  exact (stock_by_batch_classification Samples.today
           (Samples.stock_db Samples.lots_AB) 2 1 _ H).
Defined.

(** ** The FEFO preview, batch by batch *)

Section PreviewFacts.
Import Inventory.

Lemma py_min_cases (q a : Q) :
  (Qltb a q = true /\ py_min q a = a) \/ (Qltb a q = false /\ py_min q a = q).
Proof. unfold py_min. destruct (Qltb a q); auto. Qed.

Lemma preview_loop_entries (batches : list batch_row) :
  batches_positive batches ->
  forall q i b x,
    nth_error batches i = Some b ->
    nth_error (preview_loop batches q) i = Some x ->
    sel_batch_no x = b_batch_no b
    /\ sel_expired_date x = b_expired_date b
    /\ 0 < sel_quantity x
    /\ sel_quantity x <= frame_qty b
    /\ (S i < List.length (preview_loop batches q)
        -> sel_quantity x = frame_qty b)%nat.
Proof.
  induction 1 as [|b0 rest Hb Hrest IH]; intros q i b x Hi Hx.
  - destruct i; discriminate.
  - cbn [preview_loop] in *. cbv beta in Hb.
    destruct (Qle_bool q 0) eqn:E; [destruct i; discriminate|].
    apply Qle_bool_false in E.
    destruct i as [|i]; cbn [nth_error] in Hi, Hx.
    + injection Hi as <-. injection Hx as <-.
      cbn [sel_batch_no sel_expired_date sel_quantity List.length].
      pose proof (to_float_positive _ Hb) as Fb. fold (frame_qty b0) in Fb.
      destruct (py_min_cases q (frame_qty b0)) as [[C ->]|[C ->]].
      * apply Qltb_true in C. repeat split; lra.
      * apply Qltb_false in C. repeat split; try lra.
        intro L. exfalso.
        assert (Z0 : float_sub q q = 0)
          by (apply to_float_zero; unfold Qminus; apply Qplus_opp_r).
        rewrite Z0 in L.
        destruct rest as [|b1 rest']; cbn [preview_loop List.length] in L;
          [lia|].
        change (Qle_bool 0 0) with true in L. cbn [List.length] in L. lia.
    + destruct (IH _ _ _ _ Hi Hx) as (A1 & A2 & A3 & A4 & A5).
      repeat split; trivial.
      intro L. apply A5. cbn [List.length] in L. lia.
Qed.

Lemma preview_loop_length (batches : list batch_row) :
  forall q,
    (List.length (preview_loop batches q) <= List.length batches)%nat.
Proof.
  induction batches as [|b rest IH]; intro q; cbn [preview_loop List.length];
    [lia|].
  destruct (Qle_bool q 0); cbn [List.length]; [lia|].
  specialize (IH (float_sub q (py_min q (frame_qty b)))). lia.
Qed.

Lemma preview_loop_nothing (batches : list batch_row) (q : Q) :
  q <= 0 -> preview_loop batches q = [].
Proof.
  intro H. destruct batches; cbn [preview_loop]; [reflexivity|].
  apply Qle_bool_iff in H. now rewrite H.
Qed.

End PreviewFacts.

(** X4: the FEFO preview selects nothing for a quantity that is not
    positive; otherwise it walks the batches of [get_stock_by_batch] in
    their order, the i-th selected entry being the i-th batch with a
    positive quantity no larger than the batch's, and every entry except
    the last takes its batch entirely.  The batch's quantity is the
    float64 the frame holds, and the remaining quantity is kept in
    float64. *)
Theorem preview_fefo_issue_entries
        (today : date) (s : db) (product_id : Z) (quantity : Q)
        (warehouse_id : Z) :
  let batches :=
    Inventory.get_stock_by_batch today s product_id warehouse_id in
  let selection :=
    Inventory.preview_fefo_issue today s product_id quantity warehouse_id in
  (quantity <= 0 -> selection = [])
  /\ (List.length selection <= List.length batches)%nat
  /\ forall i b x,
      nth_error batches i = Some b ->
      nth_error selection i = Some x ->
      Inventory.sel_batch_no x = Inventory.b_batch_no b
      /\ Inventory.sel_expired_date x = Inventory.b_expired_date b
      /\ 0 < Inventory.sel_quantity x
      /\ Inventory.sel_quantity x <= Inventory.frame_qty b
      /\ (S i < List.length selection ->
          Inventory.sel_quantity x = Inventory.frame_qty b)%nat.
Proof.
  intros batches selection. unfold selection.
  rewrite preview_is_loop. fold batches.
  split; [apply preview_loop_nothing|].
  split; [apply preview_loop_length|].
  apply preview_loop_entries, get_stock_by_batch_positive.
Qed.

(** ** Availability check and expiry report *)

Section ReportFacts.
Import Reports.

Lemma sufficient_iff_covered (required available : Q) :
  Qle_bool required available = true <->
  Qmin required available == required.
Proof.
  rewrite Qle_bool_iff. split; intro H.
  - now apply Q.min_l.
  - destruct (Q.min_spec required available) as [[L X]|[L X]]; lra.
Qed.

Lemma expiring_rows_in (today : date) (days_ahead : Z) (s : db)
      (p : product) (w : warehouse) (ih : inventory_history) :
  In (p, w, ih) (expiring_rows today days_ahead s) ->
  0 < ih_remain ih
  /\ exists d, ih_expired_date ih = Some d /\ (d <= today + days_ahead)%Z.
Proof.
  unfold expiring_rows. intro H.
  apply in_flat_map in H. destruct H as (ih' & Hf & H).
  apply in_flat_map in H. destruct H as (p' & _ & H).
  apply in_map_iff in H. destruct H as (w' & [= -> -> ->] & _).
  apply filter_In in Hf. destruct Hf as [_ Hf].
  apply andb_prop in Hf. destruct Hf as [Hf E].
  apply andb_prop in Hf. destruct Hf as [R _].
  apply Qltb_true in R. split; [exact R|].
  destruct (ih_expired_date ih) as [d|]; [|discriminate].
  exists d. split; [reflexivity | now apply Z.leb_le].
Qed.

Lemma add_to_report_ok (today : date) (days_ahead : Z) (g : list expiry_row)
      (p : product) (w : warehouse) (ih : inventory_history) :
  Forall (report_row_ok today days_ahead) g ->
  0 < ih_remain ih ->
  (exists d, ih_expired_date ih = Some d /\ (d <= today + days_ahead)%Z) ->
  Forall (report_row_ok today days_ahead)
         (add_to_report today days_ahead g (p, w, ih)).
Proof.
  intros F R (d & E & L).
  induction F as [|row g Hrow Hg IH]; cbn [add_to_report].
  - repeat constructor. exists d. rewrite E. cbn. repeat split; trivial.
  - destruct (_ && _); constructor; trivial.
    destruct Hrow as (d' & A1 & A2 & A3 & A4 & A5).
    exists d'. cbn. repeat split; trivial. lra.
Qed.

Lemma fold_report_ok (today : date) (days_ahead : Z)
      (rows : list (product * warehouse * inventory_history)) :
  (forall p w ih, In (p, w, ih) rows ->
     0 < ih_remain ih
     /\ exists d, ih_expired_date ih = Some d /\ (d <= today + days_ahead)%Z) ->
  forall g,
    Forall (report_row_ok today days_ahead) g ->
    Forall (report_row_ok today days_ahead)
           (fold_left (add_to_report today days_ahead) rows g).
Proof.
  induction rows as [|[[p w] ih] rows IH]; intros H g F; cbn [fold_left];
    [exact F|].
  apply IH; [intros p' w' ih' Hin; apply (H p' w' ih'); now right|].
  destruct (H p w ih (or_introl eq_refl)) as [R D].
  now apply add_to_report_ok.
Qed.

End ReportFacts.

Lemma Qsum_integral (l : list Q) :
  Forall (fun x => exists n, x == inject_Z n) l ->
  exists n, Qsum l == inject_Z n.
Proof.
  induction 1 as [|x l (n & En) Hl (m & Em)]; cbn [Qsum].
  - now exists 0%Z.
  - exists (n + m)%Z. rewrite inject_Z_plus, En, Em. reflexivity.
Qed.

(** The balance of whole stock is a float. *)
Lemma whole_stock_balance (s : db) (p w : Z) :
  whole_stock s p w -> whole (Inventory.total_available s p w).
Proof.
  intros [W T]. rewrite total_available_in_stock.
  destruct (Qsum_integral
              (map ih_remain
                 (filter (in_stock p w) (inventory_histories s))))
    as (n & En).
  { apply Forall_map. eapply Forall_impl; [|exact W].
    intros r (k & E & _). now exists k. }
  exists n. split; [exact En|].
  assert (P : 0 <= Qsum (map ih_remain
                           (filter (in_stock p w) (inventory_histories s)))).
  { apply Qsum_nonneg, Forall_map, Forall_forall. intros r Hr.
    apply filter_In in Hr. destruct Hr as [_ Hr]. unfold in_stock in Hr.
    apply andb_prop in Hr. destruct Hr as [Hr _].
    apply andb_prop in Hr. destruct Hr as [_ Hr].
    apply Qltb_true in Hr. lra. }
  rewrite En in P, T. change 0 with (inject_Z 0) in P.
  rewrite <- Zle_Qle in P, T. lia.
Qed.

(** X5: [check_stock_availability] returns one row per material, in the
    order given, with the required quantity of the frame; and for a real
    warehouse id, a whole required quantity and whole lots (of at most
    2^53 in total) its [sufficient] flag says exactly whether the FEFO
    preview of the required quantity covers that quantity in full.  On
    other quantities the float64 arithmetic of the two can disagree. *)
Theorem availability_agrees_with_preview
        (today : date) (s : db) (materials : list Production.requirement)
        (warehouse_id : Z) :
  warehouse_id <> 0%Z ->
  Forall2
    (fun material row =>
       Reports.av_material_id row = Production.rq_material_id material
       /\ Reports.av_required row = Production.rq_required_qty material
       /\ (0 < Production.rq_required_qty material ->
           whole (Production.rq_required_qty material) ->
           whole_stock s (Production.rq_material_id material) warehouse_id ->
           (Reports.av_sufficient row = true <->
            Qsum (map Inventory.sel_quantity
                    (Inventory.preview_fefo_issue today s
                       (Production.rq_material_id material)
                       (Production.rq_required_qty material) warehouse_id))
            == Production.rq_required_qty material)))
    materials
    (Reports.check_stock_availability s materials (Some warehouse_id)).
Proof.
  intro N. unfold Reports.check_stock_availability.
  induction materials as [|m rest IH]; cbn [map]; constructor; [|exact IH].
  cbn [Reports.av_material_id Reports.av_required Reports.av_sufficient].
  split; [reflexivity|]. split; [reflexivity|]. intros P Wq WS.
  rewrite get_stock_balance_in_warehouse by exact N.
  pose proof (to_float_whole _ (whole_stock_balance s _ _ WS)) as Eb.
  destruct WS as [W T]. rewrite <- total_available_in_stock in T.
  rewrite Qle_bool_iff, Eb, <- Qle_bool_iff.
  rewrite sufficient_iff_covered.
  rewrite preview_is_loop, preview_loop_sum, get_stock_by_batch_sum;
    [reflexivity | apply get_stock_by_batch_positive
    | now apply get_stock_by_batch_whole | lra | exact Wq].
Qed.

Lemma availability_agrees_sample :
  1%Z <> 0%Z
  /\ Forall2
       (fun material row =>
          Reports.av_material_id row = Production.rq_material_id material
          /\ Reports.av_required row = Production.rq_required_qty material
          /\ (0 < Production.rq_required_qty material ->
              whole (Production.rq_required_qty material) ->
              whole_stock (Samples.stock_db Samples.lots_AB)
                (Production.rq_material_id material) 1 ->
              (Reports.av_sufficient row = true <->
               Qsum (map Inventory.sel_quantity
                       (Inventory.preview_fefo_issue Samples.today
                          (Samples.stock_db Samples.lots_AB)
                          (Production.rq_material_id material)
                          (Production.rq_required_qty material) 1))
               == Production.rq_required_qty material)))
       [Production.mk_requirement 2 "Tea tin" 8 "PCS" RAW_MATERIAL]
       (Reports.check_stock_availability (Samples.stock_db Samples.lots_AB)
          [Production.mk_requirement 2 "Tea tin" 8 "PCS" RAW_MATERIAL]
          (Some 1%Z)).
Proof.
  assert (N : 1%Z <> 0%Z) by discriminate.
  split; [exact N|].
  exact (availability_agrees_with_preview Samples.today
           (Samples.stock_db Samples.lots_AB)
           [Production.mk_requirement 2 "Tea tin" 8 "PCS" RAW_MATERIAL]
           1%Z N).
Defined.

(** The premises of the sample hold: eight tins required, lots of five
    and ten. *)
Example availability_sample_is_whole :
  whole 8 /\ whole_stock (Samples.stock_db Samples.lots_AB) 2 1.
Proof.
  split; [exists 8%Z; split; [reflexivity | discriminate]|].
  split; [|discriminate].
  repeat constructor;
    [exists 5%Z | exists 10%Z]; (split; [reflexivity | discriminate]).
Qed.

(** Outside whole numbers the two disagree: with lots of 0.1 and 0.7 and
    0.8 required the flag is true, while the preview of 0.8 selects less
    than 0.8. *)
Example availability_disagrees_in_float :
  map Reports.av_sufficient
      (Reports.check_stock_availability
         (Samples.stock_db MoreSamples.lots_of_tenths)
         [Production.mk_requirement 2 "Tea tin" (to_float (8 # 10)) "PCS"
            RAW_MATERIAL]
         (Some 1%Z))
  = [true]
  /\ (Qsum (map Inventory.sel_quantity
              (Inventory.preview_fefo_issue Samples.today
                 (Samples.stock_db MoreSamples.lots_of_tenths) 2
                 (to_float (8 # 10)) 1))
      ?= to_float (8 # 10)) = Lt.
Proof. vm_compute. split; reflexivity. Qed.

(** X6: every row of the expiry report [get_expiry_status] is a dated lot
    group with a positive quantity that expires within the horizon; its
    days to expiry are expiry minus today; it is never classified OK, and
    it is EXPIRED exactly when it expired before today; undated lots never
    appear; and the rows come in ascending order of expiry date. *)
Theorem expiry_report_rows (today : date) (s : db) (days_ahead : Z) :
  (forall row,
     In row (Reports.get_expiry_status today s days_ahead) ->
     exists d,
       Reports.er_expired_date row = Some d
       /\ (d <= today + days_ahead)%Z
       /\ 0 < Reports.er_quantity row
       /\ Reports.er_days_to_expiry row = Some (d - today)%Z
       /\ Reports.er_expiry_status row <> OK_
       /\ (Reports.er_expiry_status row = EXPIRED <-> (d < today)%Z))
  /\ Sorted (fun a b => Reports.expiry_leb a b = true)
            (Reports.get_expiry_status today s days_ahead).
Proof.
  split.
  - intros row H. unfold Reports.get_expiry_status in H.
    apply (Permutation_in _ (order_by_perm _ _)) in H.
    assert (F : Forall (report_row_ok today days_ahead)
                  (fold_left (Reports.add_to_report today days_ahead)
                     (Reports.expiring_rows today days_ahead s) [])).
    { apply fold_report_ok; [|constructor].
      intros p w ih. apply expiring_rows_in. }
    destruct (proj1 (Forall_forall _ _) F row H)
      as (d & A1 & A2 & A3 & A4 & A5).
    exists d. repeat (split; [assumption|]).
    rewrite A5. unfold Reports.report_status.
    destruct (d <? today)%Z eqn:E1.
    + apply Z.ltb_lt in E1. split; [discriminate | tauto].
    + apply Z.ltb_ge in E1.
      destruct (d <=? today + 7)%Z eqn:E2;
        [split; [discriminate | split; [discriminate | lia]]|].
      destruct (d <=? today + days_ahead)%Z eqn:E3;
        [split; [discriminate | split; [discriminate | lia]]|].
      apply Z.leb_gt in E3. lia.
  - apply order_by_sorted. intros a b. unfold Reports.expiry_leb.
    destruct (Reports.er_expired_date a) as [x|],
             (Reports.er_expired_date b) as [y|];
      try discriminate; try reflexivity.
    intro H. apply Z.leb_gt in H. apply Z.leb_le. lia.
Qed.

(** The two sample lots in the 30-day report of 2025-01-01: lot A expires
    in 9 days, lot B (2025-02-01) is beyond the horizon. *)
Example expiry_report_sample :
  Reports.get_expiry_status Samples.today (Samples.stock_db Samples.lots_AB)
    30
  = [Reports.mk_expiry_row "Tea tin" "A" 5 (Some (ymd 2025 1 10))
       "Raw store" WARNING (Some 9%Z)].
Proof. vm_compute. reflexivity. Qed.

(** ** Missing orders, repeated issues, completion and stock *)

Section LifecycleFacts.
Import Production.

Lemma get_order_details_missing (s : db) (k : Z) :
  (forall o, In o (manufacturing_orders s) -> o_id o <> k) ->
  get_order_details s k = None.
Proof.
  intro H. unfold get_order_details.
  rewrite filter_none; [reflexivity|].
  intros o Ho. apply Z.eqb_neq. now apply H.
Qed.

Lemma get_order_details_found (s : db) (k : Z) (v : order_view) :
  get_order_details s k = Some v ->
  In (ov_order v) (manufacturing_orders s) /\ o_id (ov_order v) = k.
Proof.
  unfold get_order_details. intro H.
  destruct (flat_map _ _) as [|v' l] eqn:E; [discriminate|].
  injection H as ->.
  assert (I : In v (flat_map (order_joins s)
                      (filter (fun o => (o_id o =? k)%Z)
                              (manufacturing_orders s))))
    by (rewrite E; now left).
  apply in_flat_map in I. destruct I as (o & Ho & Hv).
  apply order_joins_order in Hv. subst o.
  apply filter_In in Ho. destruct Ho as [Ho I]. now apply Z.eqb_eq in I.
Qed.

Lemma get_order_details_same_tables (s s' : db) (k : Z) :
  products s' = products s -> bom_headers s' = bom_headers s ->
  warehouses s' = warehouses s ->
  manufacturing_orders s' = manufacturing_orders s ->
  get_order_details s' k = get_order_details s k.
Proof.
  intros Hp Hb Hw Ho. unfold get_order_details, order_joins.
  now rewrite Hp, Hb, Hw, Ho.
Qed.

Lemma map_update_missing (k : Z)
      (f : manufacturing_order -> manufacturing_order)
      (l : list manufacturing_order) :
  (forall o, In o l -> o_id o <> k) ->
  map (fun o => if (o_id o =? k)%Z then f o else o) l = l.
Proof.
  intro H. induction l as [|o l IH]; cbn [map]; [reflexivity|].
  assert (E : (o_id o =? k)%Z = false)
    by (apply Z.eqb_neq, H; now left).
  rewrite E, IH; [reflexivity|]. intros x Hx. apply H. now right.
Qed.

Lemma mark_issued_idempotent (k : Z) (rows : list order_material) :
  mark_issued k (mark_issued k rows) = mark_issued k rows.
Proof.
  unfold mark_issued. rewrite map_map. apply map_ext. intro m.
  destruct (m_order_id m =? k)%Z eqn:E; cbn [m_order_id]; now rewrite E.
Qed.

Lemma issued_rows_not_pending (s : db) (k : Z) (rows : list order_material)
      (mat : material_row) :
  manufacturing_order_materials s = mark_issued k rows ->
  In mat (get_order_materials s k) ->
  mr_required_qty mat - mr_issued_qty mat <= 0.
Proof.
  intros E H. unfold get_order_materials in H.
  apply (Permutation_in _ (order_by_perm _ _)) in H.
  apply in_flat_map in H. destruct H as (m & Hm & H).
  apply in_map_iff in H. destruct H as (p & <- & _).
  apply filter_In in Hm. destruct Hm as [Hm I]. apply Z.eqb_eq in I.
  rewrite E in Hm.
  destruct (mark_issued_rows k rows m Hm I) as [_ Q].
  cbn [mr_required_qty mr_issued_qty]. rewrite Q. lra.
Qed.

End LifecycleFacts.

(** X7: for an order id that no order row carries, [get_order_details]
    finds nothing, [issue_materials] and [complete_production] fail with
    the TypeError of subscripting that nothing and leave the state as it
    was, and [update_order_status] changes nothing without any error. *)
Theorem missing_order_id
        (now : datetime) (uuid : string) (order_id user_id : Z)
        (produced_qty : Q) (batch_no quality_status : string)
        (new_status : order_status) (s : db) :
  (forall o, In o (manufacturing_orders s) -> o_id o <> order_id) ->
  Production.get_order_details s order_id = None
  /\ Production.issue_materials now uuid order_id user_id s
     = (s, Err TypeError)
  /\ Production.complete_production now uuid order_id produced_qty batch_no
       quality_status s
     = (s, Err TypeError)
  /\ Production.update_order_status order_id new_status s = s.
Proof.
  intro H. pose proof (get_order_details_missing s order_id H) as D.
  split; [exact D|]. split; [|split].
  - unfold Production.issue_materials, Production.transaction.
    now rewrite D.
  - now apply complete_production_missing.
  - unfold Production.update_order_status.
    rewrite map_update_missing by exact H. now destruct s.
Qed.

Lemma missing_order_id_sample :
  (forall o, In o (manufacturing_orders Samples.stocked_db) -> o_id o <> 9%Z)
  /\ Production.issue_materials Samples.noon "G1" 9 7 Samples.stocked_db
     = (Samples.stocked_db, Err TypeError)
  /\ Production.update_order_status 9 COMPLETED Samples.stocked_db
     = Samples.stocked_db.
Proof.
  assert (H : forall o, In o (manufacturing_orders Samples.stocked_db) ->
                        o_id o <> 9%Z)
    by (intros o [<-|[]]; discriminate).
  split; [exact H|].
  destruct (missing_order_id Samples.noon "G1" 9 7 4 "KIT-1" "PASSED"
              COMPLETED Samples.stocked_db H) as (_ & I & _ & U).
  split; [exact I | exact U].
Defined.

(** X8: after [issue_materials] has succeeded for an order, a second
    [issue_materials] on that order succeeds again but issues nothing: it
    returns no issue lines, leaves the ledger, the issue details and the
    requirement rows as they are, and only adds one more issue header. *)
Theorem issue_materials_again_issues_nothing
        (now now' : datetime) (uuid uuid' : string)
        (order_id user_id user_id' : Z) (s s1 : db)
        (r : Production.issue_result) :
  Production.issue_materials now uuid order_id user_id s = (s1, Ok r) ->
  exists s2 header,
    Production.issue_materials now' uuid' order_id user_id' s1
    = (s2, Ok (Production.mk_issue_result
                 (Production._generate_issue_number now') []))
    /\ inventory_histories s2 = inventory_histories s1
    /\ material_issue_details s2 = material_issue_details s1
    /\ manufacturing_order_materials s2 = manufacturing_order_materials s1
    /\ manufacturing_orders s2 = manufacturing_orders s1
    /\ material_issues s2 = material_issues s1 ++ [header]
    /\ mi_order_id header = order_id.
Proof.
  intro H. apply issue_materials_ok in H.
  destruct H as (Hp & Hw & Hb & _ & Ho & Hm & _ & order & D).
  rewrite <- (get_order_details_same_tables s s1 order_id Hp Hb Hw Ho) in D.
  unfold Production.issue_materials, Production.transaction.
  rewrite D. cbn [Production.subscript bind].
  rewrite issue_loop_nothing_pending
    by (intros mat Hin; exact (issued_rows_not_pending s1 order_id _ mat Hm Hin)).
  cbn [bind fst snd]. do 2 eexists. split; [reflexivity|].
  cbn [inventory_histories material_issue_details
       manufacturing_order_materials manufacturing_orders material_issues
       set_order_materials set_issues mi_order_id].
  repeat split. rewrite Hm. apply mark_issued_idempotent.
Qed.

Lemma issue_materials_again_sample :
  exists s1 r,
    Production.issue_materials Samples.noon "G1" 1 7 Samples.stocked_db
    = (s1, Ok r)
    /\ exists s2,
        Production.issue_materials Samples.later "G2" 1 7 s1
        = (s2, Ok (Production.mk_issue_result "MI-20250110123000" []))
        /\ inventory_histories s2 = inventory_histories s1.
Proof.
  destruct (Production.issue_materials Samples.noon "G1" 1 7
              Samples.stocked_db) as [s1 [r|e]] eqn:E;
    [|vm_compute in E; discriminate].
  exists s1, r. split; [reflexivity|].
  destruct (issue_materials_again_issues_nothing Samples.noon Samples.later
              "G1" "G2" 1 7 7 Samples.stocked_db s1 r E)
    as (s2 & header & I & L & _).
  exists s2. split; [exact I | exact L].
Defined.



(** ** Creating orders and BOMs *)

Section CreationFacts.
Import Production.

Lemma hd_error_nonempty {A} (l : list A) (x : A) :
  In x l -> exists v, hd_error l = Some v /\ In v l.
Proof. destruct l as [|v l]; [intros [] | intros _; exists v; cbn; auto]. Qed.

Lemma order_joins_found (s : db) (o : manufacturing_order)
      (p : product) (b : bom_header) (w1 w2 : warehouse) :
  In p (products s) -> p_id p = o_product_id o ->
  In b (bom_headers s) -> h_id b = o_bom_header_id o ->
  In w1 (warehouses s) -> w_id w1 = o_warehouse_id o ->
  In w2 (warehouses s) -> w_id w2 = o_target_warehouse_id o ->
  In (mk_order_view o (p_name p) (h_bom_type b) (w_name w1) (w_name w2))
     (order_joins s o).
Proof.
  intros Hp Ep Hb Eb H1 E1 H2 E2. unfold order_joins.
  apply in_flat_map. exists p. split;
    [apply filter_In; split; [exact Hp | apply Z.eqb_eq; congruence]|].
  apply in_flat_map. exists b. split;
    [apply filter_In; split; [exact Hb | apply Z.eqb_eq; congruence]|].
  apply in_flat_map. exists w1. split;
    [apply filter_In; split; [exact H1 | apply Z.eqb_eq; congruence]|].
  apply in_map_iff. exists w2. split; [reflexivity|].
  apply filter_In; split; [exact H2 | apply Z.eqb_eq; congruence].
Qed.

Lemma order_joins_without_product (s : db) (o : manufacturing_order) :
  (forall p, In p (products s) -> p_id p <> o_product_id o) ->
  order_joins s o = [].
Proof.
  intro H. unfold order_joins.
  rewrite (filter_none (fun p => (o_product_id o =? p_id p)%Z) (products s));
    [reflexivity|].
  intros p Hp. apply Z.eqb_neq. intro E. now apply (H p Hp).
Qed.

Lemma filter_fresh_order (l : list manufacturing_order)
      (o : manufacturing_order) :
  o_id o = fresh_id (map o_id l) ->
  filter (fun x => (o_id x =? o_id o)%Z) (l ++ [o]) = [o].
Proof.
  intro E. rewrite filter_app. cbn [filter]. rewrite Z.eqb_refl.
  rewrite filter_none; [reflexivity|].
  intros x Hx. apply Z.eqb_neq. rewrite E. intro X.
  apply (fresh_id_not_in (map o_id l)). rewrite <- X. now apply in_map.
Qed.

(** The row [create_order] inserts. *)
Lemma create_order_row (now : datetime) (data : order_data) (s : db) :
  exists o,
    manufacturing_orders (fst (create_order now data s))
    = manufacturing_orders s ++ [o]
    /\ o_id o = fresh_id (map o_id (manufacturing_orders s))
    /\ o_order_no o = _generate_order_number now
    /\ o_bom_header_id o = od_bom_header_id data
    /\ o_product_id o = od_product_id data
    /\ o_planned_qty o = od_planned_qty data
    /\ o_produced_qty o = 0
    /\ o_warehouse_id o = od_warehouse_id data
    /\ o_target_warehouse_id o = od_target_warehouse_id data
    /\ o_status o = CONFIRMED
    /\ o_delete_flag o = false.
Proof.
  unfold create_order, transaction. cbn [fst].
  eexists. cbn [manufacturing_orders set_order_materials set_orders].
  split; [reflexivity|]. repeat split.
Qed.

End CreationFacts.

(** X10: an order created for a product, a BOM and two warehouses that
    exist can be read back at once: [get_order_details] returns it under
    the id the insert assigned, CONFIRMED, with the planned quantity and
    the generated number and nothing produced; the issue view lists it
    (CONFIRMED) and the completion view does not (IN_PROGRESS). *)
Theorem created_order_is_listed
        (now : datetime) (data : Production.order_data) (s : db)
        (p : product) (b : bom_header) (w1 w2 : warehouse) :
  In p (products s) -> p_id p = Production.od_product_id data ->
  In b (bom_headers s) -> h_id b = Production.od_bom_header_id data ->
  In w1 (warehouses s) -> w_id w1 = Production.od_warehouse_id data ->
  In w2 (warehouses s) ->
  w_id w2 = Production.od_target_warehouse_id data ->
  let s' := fst (Production.create_order now data s) in
  let k := fresh_id (map o_id (manufacturing_orders s)) in
  exists v,
    Production.get_order_details s' k = Some v
    /\ o_id (Production.ov_order v) = k
    /\ o_status (Production.ov_order v) = CONFIRMED
    /\ o_planned_qty (Production.ov_order v)
       = Production.od_planned_qty data
    /\ o_produced_qty (Production.ov_order v) = 0
    /\ o_order_no (Production.ov_order v)
       = Production._generate_order_number now
    /\ Pages.offered k (Production.get_orders s' (Some CONFIRMED)) = true
    /\ Pages.offered k (Production.get_orders s' (Some IN_PROGRESS)) = false.
Proof.
  intros Hp Ep Hb Eb H1 E1 H2 E2 s' k.
  destruct (create_order_row now data s)
    as (o & Ho & Ik & Ino & Ib & Ipr & Ipl & Ipd & Iw & It & Ist & Idel).
  fold s' in Ho. fold k in Ik.
  assert (Tp : products s' = products s) by reflexivity.
  assert (Tb : bom_headers s' = bom_headers s) by reflexivity.
  assert (Tw : warehouses s' = warehouses s) by reflexivity.
  assert (J : In (Production.mk_order_view o (p_name p) (h_bom_type b)
                    (w_name w1) (w_name w2)) (Production.order_joins s' o)).
  { apply order_joins_found; rewrite ?Tp, ?Tb, ?Tw; congruence. }
  assert (F : filter (fun x => (o_id x =? k)%Z) (manufacturing_orders s')
              = [o]).
  { rewrite Ho, <- Ik. apply filter_fresh_order. exact Ik. }
  destruct (hd_error_nonempty _ _ J) as (v & Hv & Iv).
  pose proof (order_joins_order s' o v Iv) as Ev.
  exists v. split.
  { unfold Production.get_order_details. rewrite F. cbn [flat_map].
    now rewrite app_nil_r. }
  rewrite Ev. repeat (split; [congruence|]). split.
  - unfold Pages.offered, Production.get_orders.
    apply existsb_exists. exists v. split; [|rewrite Ev; now apply Z.eqb_eq].
    apply in_flat_map. exists o. split; [|exact Iv].
    apply filter_In. split; [rewrite Ho; apply in_or_app; right; now left|].
    now rewrite Idel, Ist.
  - destruct (Pages.offered k
                (Production.get_orders s' (Some IN_PROGRESS))) eqn:O;
      [|reflexivity].
    apply offered_order in O. destruct O as (x & Hx & Ix & Sx & _).
    assert (X : In x (filter (fun y => (o_id y =? k)%Z)
                        (manufacturing_orders s')))
      by (apply filter_In; split; [exact Hx | now apply Z.eqb_eq]).
    rewrite F in X. destruct X as [<-|[]]. congruence.
Qed.

Lemma created_order_is_listed_sample :
  exists v,
    Production.get_order_details
      (fst (Production.create_order Samples.later
              (Production.mk_order_data None 1 1 2 "PCS" 1 2 None)
              Samples.stocked_db)) 2
    = Some v
    /\ o_status (Production.ov_order v) = CONFIRMED
    /\ o_planned_qty (Production.ov_order v) = 2.
Proof.
  destruct (created_order_is_listed Samples.later
              (Production.mk_order_data None 1 1 2 "PCS" 1 2 None)
              Samples.stocked_db
              (mk_product 1 "Gift box") Samples.kit_bom
              (mk_warehouse 1 "Raw store" (Some 10%Z) false)
              (mk_warehouse 2 "Finished goods" (Some 10%Z) false))
    as (v & D & _ & S & P & _);
    try reflexivity; try (cbn; tauto).
  exists v. split; [exact D|]. split; [exact S | exact P].
Defined.

(** X11: [create_order] validates nothing: for a product id that no
    product row carries it still inserts the order row, CONFIRMED, and
    succeeds; but no view finds that order, so [get_order_details]
    returns nothing for it and [issue_materials] on it fails with the
    TypeError, leaving the state as it was. *)
Theorem created_order_with_unknown_product_is_hidden
        (now now' : datetime) (uuid : string) (user_id : Z)
        (data : Production.order_data) (s : db) :
  (forall p, In p (products s) -> p_id p <> Production.od_product_id data) ->
  let r := Production.create_order now data s in
  let k := fresh_id (map o_id (manufacturing_orders s)) in
  snd r = Ok (Production._generate_order_number now)
  /\ Production.status_of (fst r) k = Some CONFIRMED
  /\ Production.get_order_details (fst r) k = None
  /\ Production.issue_materials now' uuid k user_id (fst r)
     = (fst r, Err TypeError).
Proof.
  intros H r k.
  destruct (create_order_row now data s)
    as (o & Ho & Ik & _ & _ & Ipr & _ & _ & _ & _ & Ist & _).
  fold r in Ho. fold k in Ik.
  assert (F : filter (fun x => (o_id x =? k)%Z) (manufacturing_orders (fst r))
              = [o]).
  { rewrite Ho, <- Ik. apply filter_fresh_order. exact Ik. }
  assert (D : Production.get_order_details (fst r) k = None).
  { unfold Production.get_order_details. rewrite F. cbn [flat_map].
    rewrite order_joins_without_product; [reflexivity|].
    intros p Hp. rewrite Ipr. now apply H. }
  split; [reflexivity|]. split; [|split; [exact D|]].
  - unfold Production.status_of. now rewrite F, Ist.
  - unfold Production.issue_materials, Production.transaction. now rewrite D.
Qed.

Lemma created_order_hidden_sample :
  (forall p, In p (products Samples.stocked_db) -> p_id p <> 77%Z)
  /\ Production.get_order_details
       (fst (Production.create_order Samples.later
               (Production.mk_order_data None 1 77 2 "PCS" 1 2 None)
               Samples.stocked_db)) 2
     = None.
Proof.
  assert (H : forall p, In p (products Samples.stocked_db) -> p_id p <> 77%Z)
    by (intros p [<-|[<-|[<-|[]]]]; discriminate).
  split; [exact H|].
  destruct (created_order_with_unknown_product_is_hidden Samples.later
              Samples.later "G1" 7
              (Production.mk_order_data None 1 77 2 "PCS" 1 2 None)
              Samples.stocked_db H) as (_ & _ & D & _).
  exact D.
Defined.

(** X12: a BOM just created by [create_bom] is in status DRAFT, so
    [get_active_boms] does not list it and the order page creates nothing
    for it; once [update_bom_status] has made it ACTIVE it is listed under
    its type, provided its output product exists. *)
Theorem new_bom_is_offered_only_when_active
        (data : BOM.bom_data) (s : db) (now : datetime)
        (type : option bom_type) (prod_type : bom_type)
        (qty src tgt : Z) (prio : string) :
  let s' := fst (BOM.create_bom data s) in
  let bom_id := snd (BOM.create_bom data s) in
  existsb (fun h => (h_id h =? bom_id)%Z) (BOM.get_active_boms s' type)
  = false
  /\ Pages.new_order_view now prod_type bom_id qty src tgt prio s' = s'
  /\ ((exists p, In p (products s) /\ p_id p = BOM.bd_product_id data) ->
      existsb (fun h => (h_id h =? bom_id)%Z)
        (BOM.get_active_boms (BOM.update_bom_status bom_id ACTIVE s')
           (Some (BOM.bd_bom_type data)))
      = true).
Proof.
  intros s' bom_id.
  assert (A : forall ty,
             existsb (fun h => (h_id h =? bom_id)%Z)
                     (BOM.get_active_boms s' ty) = false).
  { intro ty.
    destruct (existsb _ (BOM.get_active_boms s' ty)) eqn:E; [|reflexivity].
    exfalso. apply existsb_exists in E. destruct E as (h & Hh & Ih).
    apply Z.eqb_eq in Ih.
    unfold BOM.get_active_boms, BOM.get_boms in Hh.
    apply in_flat_map in Hh. destruct Hh as (h' & Hf & Hm).
    apply in_map_iff in Hm. destruct Hm as (_ & <- & _).
    apply filter_In in Hf. destruct Hf as [Hin C].
    unfold s', BOM.create_bom in Hin.
    cbn [fst bom_headers set_bom_details set_bom_headers] in Hin.
    apply in_app_or in Hin. destruct Hin as [Hin|[<-|[]]].
    - apply (fresh_id_not_in (map h_id (bom_headers s))).
      change (fresh_id (map h_id (bom_headers s))) with bom_id.
      rewrite <- Ih. now apply in_map.
    - cbn in C. rewrite andb_false_r in C. discriminate. }
  split; [apply A|]. split.
  - unfold Pages.new_order_view. now rewrite A.
  - intros (p & Hp & Ep).
    apply existsb_exists.
    exists (mk_bom_header bom_id (BOM.bd_bom_type data)
              (BOM.bd_product_id data) (BOM.bd_uom data) ACTIVE false).
    split; [|apply Z.eqb_refl].
    unfold BOM.get_active_boms, BOM.get_boms.
    apply in_flat_map.
    exists (mk_bom_header bom_id (BOM.bd_bom_type data)
              (BOM.bd_product_id data) (BOM.bd_uom data) ACTIVE false).
    split.
    + apply filter_In. split.
      * unfold BOM.update_bom_status, s', BOM.create_bom.
        cbn [fst bom_headers set_bom_details set_bom_headers].
        rewrite map_app. apply in_or_app. right. cbn [map h_id].
        change (fresh_id (map h_id (bom_headers s))) with bom_id.
        rewrite Z.eqb_refl. now left.
      * cbn. now destruct (BOM.bd_bom_type data).
    + apply in_map_iff. exists p. split; [reflexivity|].
      apply filter_In. split; [exact Hp|].
      cbn [h_product_id]. apply Z.eqb_eq. congruence.
Qed.

(** X13: the pages act on an order only in the status they list: after
    [update_order_status] has set an order to anything but CONFIRMED the
    issue page does nothing for it, and after it has set it to anything
    but IN_PROGRESS the completion page does nothing for it. *)
Theorem pages_skip_orders_in_other_status
        (now : datetime) (uuid : string) (order_id user_id qty : Z)
        (batch quality : string) (st : order_status) (s : db) :
  let s' := Production.update_order_status order_id st s in
  (st <> CONFIRMED -> Pages.issue_view now uuid order_id user_id s' = s')
  /\ (st <> IN_PROGRESS ->
      Pages.complete_view now uuid order_id qty batch quality s' = s').
Proof.
  intro s'.
  assert (A : forall st',
             st <> st' ->
             Pages.offered order_id (Production.get_orders s' (Some st'))
             = false).
  { intros st' N.
    destruct (Pages.offered order_id _) eqn:O; [|reflexivity].
    exfalso. apply offered_order in O. destruct O as (o & Ho & Io & So & _).
    unfold s', Production.update_order_status in Ho.
    cbn [manufacturing_orders set_orders] in Ho.
    apply in_map_iff in Ho. destruct Ho as (x & <- & _).
    destruct (o_id x =? order_id)%Z eqn:E; cbn in So, Io;
      [congruence | apply Z.eqb_neq in E; contradiction]. }
  split; intro N.
  - unfold Pages.issue_view. now rewrite (A CONFIRMED N).
  - unfold Pages.complete_view. now rewrite (A IN_PROGRESS N).
Qed.

(** ** Invariants of the pages *)

Section PageInvariantFacts.
Import Production.

Lemma py_int_below (x : Q) (q : Z) :
  0 <= x -> (0 <= q <= py_int x)%Z -> 0 <= inject_Z q /\ inject_Z q <= x.
Proof.
  unfold py_int, Qle. destruct x as [n d]. cbn [Qnum Qden inject_Z].
  intros Hx [H0 H1]. rewrite Z.mul_1_r in *. cbn in Hx.
  rewrite Z.quot_div_nonneg in H1 by lia.
  split; [lia|].
  pose proof (Z.mul_div_le n (Z.pos d) ltac:(lia)).
  nia.
Qed.

Lemma keyed_unique (s : db) (a b : manufacturing_order) :
  orders_keyed s -> In a (manufacturing_orders s) ->
  In b (manufacturing_orders s) -> o_id b = o_id a -> b = a.
Proof.
  intros N Ha Hb E.
  assert (I : In b (filter (fun x => (o_id x =? o_id a)%Z)
                      (manufacturing_orders s)))
    by (apply filter_In; split; [exact Hb | now apply Z.eqb_eq]).
  rewrite (keyed_filter _ a N Ha) in I. destruct I as [<-|[]]. reflexivity.
Qed.

Lemma complete_view_bounds (now : datetime) (uuid : string) (sel qty : Z)
      (batch quality : string) (s : db) :
  Pages.complete_view now uuid sel qty batch quality s = s
  \/ exists order,
      get_order_details s sel = Some order
      /\ (0 <= qty <= py_int (o_planned_qty (ov_order order)))%Z
      /\ manufacturing_orders
           (Pages.complete_view now uuid sel qty batch quality s)
         = map (update_by_id sel (complete_order_row (inject_Z qty) now))
               (manufacturing_orders s).
Proof.
  unfold Pages.complete_view.
  destruct (Pages.offered sel (get_orders s (Some IN_PROGRESS)));
    [|now left].
  destruct (get_order_details s sel) as [order|] eqn:D; [|now left].
  destruct ((0 <=? qty)%Z && _) eqn:B; [|now left].
  right. exists order. apply andb_prop in B. destruct B as [B1 B2].
  apply Z.leb_le in B1, B2. split; [reflexivity|]. split; [lia|].
  destruct (complete_production_effect now uuid sel (inject_Z qty) batch
              quality s order D)
    as (s1 & rc & lot & E & _ & _ & _ & _ & _ & U & _).
  now rewrite E.
Qed.

Lemma step_keeps_produced_bounds (s s' : db) :
  orders_keyed s -> Forall produced_bounded (manufacturing_orders s) ->
  Pages.step s s' ->
  Forall produced_bounded (manufacturing_orders s').
Proof.
  intros N F St. destruct St.
  - destruct (bom_create_view_cases data s) as [->|[_ ->]]; exact F.
  - exact F.
  - destruct (new_order_view_cases now ty bom_id qty src tgt prio s)
      as [->|(bom_info & Hq & ->)]; [exact F|].
    destruct (create_order_row now
                (mk_order_data None bom_id (h_product_id bom_info)
                   (inject_Z qty) (h_uom bom_info) src tgt (Some prio)) s)
      as (o & -> & _ & _ & _ & _ & Ipl & Ipd & _).
    apply Forall_app. split; [exact F|]. constructor; [|constructor].
    unfold produced_bounded. rewrite Ipl, Ipd. cbn [od_planned_qty].
    split; [lra|]. unfold Qle. cbn. lia.
  - destruct (issue_view_cases now uuid sel user s)
      as [->|(o & s1 & r & _ & _ & _ & I & ->)]; [exact F|].
    apply issue_materials_ok in I. destruct I as (_ & _ & _ & _ & Ho & _).
    unfold update_order_status. cbn [manufacturing_orders set_orders].
    rewrite Ho. apply Forall_map.
    eapply Forall_impl; [|exact F]. intros x Hx.
    now destruct (o_id x =? sel)%Z.
  - destruct (complete_view_bounds now uuid sel qty batch quality s)
      as [->|(order & D & B & ->)]; [exact F|].
    destruct (get_order_details_found s sel order D) as [Hin Hid].
    apply Forall_forall. intros y Hy.
    apply in_map_iff in Hy. destruct Hy as (x & <- & Hx).
    pose proof (proj1 (Forall_forall _ _) F x Hx) as Bx.
    unfold update_by_id. destruct (o_id x =? sel)%Z eqn:E; [|exact Bx].
    apply Z.eqb_eq in E.
    assert (X : ov_order order = x)
      by (apply (keyed_unique s x _ N Hx Hin); congruence).
    unfold produced_bounded in *.
    cbn [complete_order_row o_produced_qty o_planned_qty].
    rewrite X in B. apply py_int_below; [lra | exact B].
Qed.

Lemma issue_view_without_requirements (now : datetime) (uuid : string)
      (k user : Z) (s : db) :
  without_requirements s k -> Pages.issue_view now uuid k user s = s.
Proof.
  intro W. unfold Pages.issue_view.
  assert (E : get_order_materials s k = []).
  { unfold get_order_materials.
    rewrite (filter_none (fun m => (m_order_id m =? k)%Z));
      [reflexivity|].
    intros m Hm. apply Z.eqb_neq. now apply W. }
  rewrite E. cbn [existsb].
  destruct (Pages.offered k _); [|reflexivity].
  now destruct (get_order_details s k).
Qed.

Lemma mark_issued_order_ids (sel : Z) (rows : list order_material)
      (m : order_material) :
  In m (mark_issued sel rows) ->
  exists x, In x rows /\ m_order_id m = m_order_id x.
Proof.
  unfold mark_issued. intro H. apply in_map_iff in H.
  destruct H as (x & <- & Hx). exists x. split; [exact Hx|].
  now destruct (m_order_id x =? sel)%Z.
Qed.

(** One page action leaves a CONFIRMED order without requirement rows as
    it is. *)
Lemma step_keeps_stuck (s s' : db) (k : Z) :
  orders_keyed s -> status_of s k = Some CONFIRMED ->
  without_requirements s k -> Pages.step s s' ->
  orders_keyed s' /\ status_of s' k = Some CONFIRMED
  /\ without_requirements s' k.
Proof.
  intros N S W St.
  pose proof (proj1 (step_transition s s' N St)) as N'.
  split; [exact N'|]. clear N'.
  destruct St.
  - destruct (bom_create_view_cases data s) as [->|[_ ->]]; now split.
  - now split.
  - destruct (new_order_view_cases now ty bom_id qty src tgt prio s)
      as [->|(bom_info & _ & ->)]; [now split|].
    destruct (create_order_row now
                (mk_order_data None bom_id (h_product_id bom_info)
                   (inject_Z qty) (h_uom bom_info) src tgt (Some prio)) s)
      as (o & Ho & _).
    split; [now apply (status_of_append s _ o)|].
    unfold create_order, transaction, without_requirements.
    cbn [fst manufacturing_order_materials set_order_materials set_orders
         bom_details od_bom_header_id od_planned_qty od_warehouse_id].
    destruct (insert_materials_rows
                (fresh_id (map o_id (manufacturing_orders s))) src
                (inject_Z qty)
                (filter (fun d => (d_bom_header_id d =? bom_id)%Z)
                        (bom_details s))
                (manufacturing_order_materials s)) as (new & -> & _ & F).
    intros m Hm. apply in_app_or in Hm. destruct Hm as [Hm|Hm];
      [now apply W|].
    destruct (proj1 (Forall_forall _ _) F m Hm) as [-> _].
    apply status_of_in in S. destruct S as (x & Hx & Ix & _).
    intro E.
    pose proof (fresh_id_above (map o_id (manufacturing_orders s)) k) as A.
    rewrite <- Ix in A at 1. specialize (A (in_map o_id _ x Hx)). lia.
  - destruct (Z.eq_dec sel k) as [->|Nk].
    + rewrite issue_view_without_requirements by exact W. now split.
    + destruct (issue_view_cases now uuid sel user s)
        as [->|(o & s1 & r & _ & _ & _ & I & ->)]; [now split|].
      apply issue_materials_ok in I.
      destruct I as (_ & _ & _ & _ & Ho & Hm & _).
      assert (U : manufacturing_orders
                    (update_order_status sel IN_PROGRESS s1)
                  = map (update_by_id sel (set_status IN_PROGRESS))
                        (manufacturing_orders s))
        by (unfold update_order_status;
            cbn [manufacturing_orders set_orders]; now rewrite Ho).
      split.
      * rewrite (status_of_update_other s _ sel k _ (set_status_keys _) U);
          [exact S | congruence].
      * unfold without_requirements, update_order_status.
        cbn [manufacturing_order_materials set_orders]. rewrite Hm.
        intros m Hin. apply mark_issued_order_ids in Hin.
        destruct Hin as (x & Hx & ->). now apply W.
  - destruct (complete_view_cases now uuid sel qty batch quality s)
      as [->|(o & order & Hin & Hid & Hst & D & ->)]; [now split|].
    destruct (complete_production_effect now uuid sel (inject_Z qty) batch
                quality s order D)
      as (s1 & rc & lot & E & _ & _ & _ & _ & Hm & U & _).
    rewrite E. cbn [fst].
    destruct (Z.eq_dec sel k) as [->|Nk].
    + rewrite <- Hid, (status_of_keyed s o N Hin), Hst in S. discriminate.
    + split.
      * rewrite (status_of_update_other s _ sel k _
                   (complete_order_row_keys _ _) U); [exact S | congruence].
      * unfold without_requirements. now rewrite Hm.
Qed.

End PageInvariantFacts.

(** X14: through the pages, every order keeps 0 <= produced_qty <=
    planned_qty: from a state with unique order ids in which the bound
    holds, it holds after every sequence of page actions (the completion
    page bounds its quantity input by 0 and int(planned_qty)). *)
Theorem produced_within_planned (s0 s : db) :
  orders_keyed s0 ->
  Forall produced_bounded (manufacturing_orders s0) ->
  Pages.steps s0 s ->
  forall o,
    In o (manufacturing_orders s) ->
    0 <= o_produced_qty o /\ o_produced_qty o <= o_planned_qty o.
Proof.
  intros N F St.
  assert (I : orders_keyed s
              /\ Forall produced_bounded (manufacturing_orders s)).
  { induction St as [|s1 s2 s3 St IH Step]; [now split|].
    destruct (IH N F) as [N2 F2]. split.
    - exact (proj1 (step_transition s2 s3 N2 Step)).
    - now apply (step_keeps_produced_bounds s2 s3). }
  destruct I as [_ I]. intros o Ho.
  exact (proj1 (Forall_forall _ _) I o Ho).
Qed.

Lemma produced_within_planned_sample :
  orders_keyed Samples.stocked_db
  /\ Pages.steps Samples.stocked_db Samples.after_completion
  /\ forall o,
      In o (manufacturing_orders Samples.after_completion) ->
      0 <= o_produced_qty o /\ o_produced_qty o <= o_planned_qty o.
Proof.
  assert (N : orders_keyed Samples.stocked_db)
    by (repeat constructor; intros []).
  assert (F : Forall produced_bounded
                (manufacturing_orders Samples.stocked_db))
    by (repeat constructor; cbn; lra).
  assert (St : Pages.steps Samples.stocked_db Samples.after_completion).
  { eapply Pages.steps_next; [|apply Pages.step_complete].
    eapply Pages.steps_next; [apply Pages.steps_refl|apply Pages.step_issue]. }
  split; [exact N|]. split; [exact St|].
  exact (produced_within_planned Samples.stocked_db Samples.after_completion
           N F St).
Defined.

(** X15: an order without requirement rows (as created from a BOM that
    has no lines) is never issued through the pages, because the issue
    page only acts when a requirement is pending; so, with unique order
    ids, whatever page actions follow, such an order stays CONFIRMED and
    keeps having no requirements. *)
Theorem order_without_requirements_stays_confirmed
        (s0 s : db) (order_id : Z) :
  orders_keyed s0 ->
  Production.status_of s0 order_id = Some CONFIRMED ->
  without_requirements s0 order_id ->
  Pages.steps s0 s ->
  Production.status_of s order_id = Some CONFIRMED
  /\ without_requirements s order_id.
Proof.
  intros N S W St.
  assert (I : orders_keyed s
              /\ Production.status_of s order_id = Some CONFIRMED
              /\ without_requirements s order_id).
  { induction St as [|s1 s2 s3 St IH Step]; [now repeat split|].
    destruct (IH N S W) as (N2 & S2 & W2).
    now apply (step_keeps_stuck s2 s3). }
  now destruct I as (_ & I & J).
Qed.

Lemma order_without_requirements_sample :
  orders_keyed MoreSamples.bare_db
  /\ Production.status_of MoreSamples.bare_db 1 = Some CONFIRMED
  /\ without_requirements MoreSamples.bare_db 1
  /\ Pages.steps MoreSamples.bare_db MoreSamples.bare_after_pages
  /\ Production.status_of MoreSamples.bare_after_pages 1 = Some CONFIRMED.
Proof.
  assert (N : orders_keyed MoreSamples.bare_db)
    by (repeat constructor; intros []).
  assert (S : Production.status_of MoreSamples.bare_db 1 = Some CONFIRMED)
    by reflexivity.
  assert (W : without_requirements MoreSamples.bare_db 1)
    by (intros m []).
  assert (St : Pages.steps MoreSamples.bare_db MoreSamples.bare_after_pages).
  { eapply Pages.steps_next; [|apply Pages.step_complete].
    eapply Pages.steps_next; [apply Pages.steps_refl|apply Pages.step_issue]. }
  split; [exact N|]. split; [exact S|]. split; [exact W|].
  split; [exact St|].
  exact (proj1 (order_without_requirements_stays_confirmed
                  MoreSamples.bare_db MoreSamples.bare_after_pages 1
                  N S W St)).
Defined.

(** ** Requirements of a BOM *)

Section ScalingFacts.
Import Production.


End ScalingFacts.


(** X17: a BOM id without detail lines is no error anywhere:
    [calculate_material_requirements] returns no row for it, and
    [create_order] succeeds and inserts the order without any requirement
    row; when every existing requirement row belongs to an existing
    order, the new order has no requirement at all. *)
Theorem order_for_bom_without_lines
        (now : datetime) (data : Production.order_data) (s : db)
        (quantity : Q) :
  (forall d, In d (bom_details s) ->
             d_bom_header_id d <> Production.od_bom_header_id data) ->
  let r := Production.create_order now data s in
  Production.calculate_material_requirements s
    (Production.od_bom_header_id data) quantity = []
  /\ snd r = Ok (Production._generate_order_number now)
  /\ manufacturing_order_materials (fst r) = manufacturing_order_materials s
  /\ ((forall m, In m (manufacturing_order_materials s) ->
                 In (m_order_id m) (map o_id (manufacturing_orders s))) ->
      without_requirements (fst r)
        (fresh_id (map o_id (manufacturing_orders s)))).
Proof.
  intros H r.
  assert (E : filter (fun d => (d_bom_header_id d
                                =? Production.od_bom_header_id data)%Z)
                (bom_details s) = []).
  { apply filter_none. intros d Hd. apply Z.eqb_neq. now apply H. }
  assert (M : manufacturing_order_materials (fst r)
              = manufacturing_order_materials s).
  { unfold r, Production.create_order, Production.transaction.
    cbn [fst manufacturing_order_materials set_order_materials set_orders
         bom_details].
    now rewrite E. }
  split; [|split; [reflexivity | split; [exact M|]]].
  - unfold Production.calculate_material_requirements. now rewrite E.
  - intros FK m Hm. rewrite M in Hm. intro X.
    apply (fresh_id_not_in (map o_id (manufacturing_orders s))).
    rewrite <- X. now apply FK.
Qed.

Lemma order_for_bom_without_lines_sample :
  (forall d, In d (bom_details Samples.stocked_db) ->
             d_bom_header_id d
             <> Production.od_bom_header_id (MoreSamples.order_for_bom 5))
  /\ manufacturing_order_materials
       (fst (Production.create_order Samples.later
               (MoreSamples.order_for_bom 5) Samples.stocked_db))
     = manufacturing_order_materials Samples.stocked_db.
Proof.
  assert (H : forall d, In d (bom_details Samples.stocked_db) ->
                d_bom_header_id d
                <> Production.od_bom_header_id (MoreSamples.order_for_bom 5))
    by (intros d [<-|[<-|[]]]; discriminate).
  split; [exact H|].
  destruct (order_for_bom_without_lines Samples.later
              (MoreSamples.order_for_bom 5) Samples.stocked_db 4 H)
    as (_ & _ & M & _).
  exact M.
Defined.

(** ** A created BOM and its requirements *)

Section BomFacts.
Import Production.

Lemma flat_map_filter_map {A B C} (g : A -> B) (p : B -> bool)
      (k : B -> list C) (l : list A) :
  flat_map k (filter p (map g l))
  = flat_map (fun a => if p (g a) then k (g a) else []) l.
Proof.
  induction l as [|a l IH]; cbn [map filter flat_map]; [reflexivity|].
  destruct (p (g a)); cbn [flat_map]; now rewrite IH.
Qed.






End BomFacts.



(** ** Generated numbers *)

Section NumberFacts.
Import Production.

Ltac split_digits n :=
  pose proof (Nat.div_mod_eq n 10);
  pose proof (Nat.mod_upper_bound n 10 ltac:(discriminate)).

Lemma digit_inj (a b : nat) : digit a = digit b -> (a mod 10 = b mod 10)%nat.
Proof.
  unfold digit. intro H. apply (f_equal nat_of_ascii) in H.
  pose proof (Nat.mod_upper_bound a 10) as Ha.
  pose proof (Nat.mod_upper_bound b 10) as Hb.
  rewrite !nat_ascii_embedding in H by lia. lia.
Qed.

Lemma String_inj (c1 c2 : ascii) (s1 s2 : string) :
  String c1 s1 = String c2 s2 -> c1 = c2 /\ s1 = s2.
Proof. intro H. now injection H. Qed.

Lemma append_inj_l (p a b : string) : (p ++ a = p ++ b)%string -> a = b.
Proof.
  induction p as [|c p IH]; cbn [append]; intro E; [exact E|].
  apply IH. apply String_inj in E. exact (proj2 E).
Qed.

Lemma pad2_append (n : nat) (r : string) :
  (pad2 n ++ r)%string = String (digit (n / 10)) (String (digit n) r).
Proof. reflexivity. Qed.

Lemma pad4_append (n : nat) (r : string) :
  (pad4 n ++ r)%string
  = String (digit (n / 1000))
      (String (digit (n / 100))
         (String (digit (n / 10)) (String (digit n) r))).
Proof. reflexivity. Qed.

Lemma pad2_inj (a b : nat) (r1 r2 : string) :
  (Z.of_nat a <= 99)%Z -> (Z.of_nat b <= 99)%Z ->
  (pad2 a ++ r1 = pad2 b ++ r2)%string -> a = b /\ r1 = r2.
Proof.
  intros Ha Hb H. rewrite !pad2_append in H.
  apply String_inj in H as [H1 H]. apply String_inj in H as [H2 H3].
  apply digit_inj in H1, H2. split; [|exact H3].
  split_digits a. split_digits (a / 10)%nat.
  split_digits b. split_digits (b / 10)%nat. lia.
Qed.

Lemma pad4_inj (a b : nat) (r1 r2 : string) :
  (Z.of_nat a <= 9999)%Z -> (Z.of_nat b <= 9999)%Z ->
  (pad4 a ++ r1 = pad4 b ++ r2)%string -> a = b /\ r1 = r2.
Proof.
  intros Ha Hb H. rewrite !pad4_append in H.
  apply String_inj in H as [H1 H]. apply String_inj in H as [H2 H].
  apply String_inj in H as [H3 H]. apply String_inj in H as [H4 H5].
  apply digit_inj in H1, H2, H3, H4. split; [|exact H5].
  split_digits a. split_digits (a / 10)%nat.
  split_digits (a / 100)%nat. split_digits (a / 1000)%nat.
  split_digits b. split_digits (b / 10)%nat.
  split_digits (b / 100)%nat. split_digits (b / 1000)%nat.
  pose proof (Nat.Div0.div_div a 10 10). pose proof (Nat.Div0.div_div a 100 10).
  pose proof (Nat.Div0.div_div b 10 10). pose proof (Nat.Div0.div_div b 100 10).
  change (10 * 10)%nat with 100%nat in *.
  change (100 * 10)%nat with 1000%nat in *. lia.
Qed.

Lemma strftime_YmdHM_inj (t1 t2 : datetime) :
  clock_in_range t1 -> clock_in_range t2 ->
  Batches.strftime_YmdHM t1 = Batches.strftime_YmdHM t2 -> same_minute t1 t2.
Proof.
  unfold clock_in_range, same_minute, Batches.strftime_YmdHM.
  intros (Y1 & M1 & D1 & H1 & I1 & S1) (Y2 & M2 & D2 & H2 & I2 & S2) E.
  apply pad4_inj in E as [Ey E]; [|lia|lia].
  apply pad2_inj in E as [Em E]; [|lia|lia].
  apply pad2_inj in E as [Ed E]; [|lia|lia].
  apply pad2_inj in E as [Eh E]; [|lia|lia].
  change (pad2 (dt_minute t1) ++ "" = pad2 (dt_minute t2) ++ "")%string in E.
  apply pad2_inj in E as [Ei _]; [|lia|lia].
  tauto.
Qed.

Lemma strftime_YmdHMS_inj (t1 t2 : datetime) :
  clock_in_range t1 -> clock_in_range t2 ->
  strftime_YmdHMS t1 = strftime_YmdHMS t2 -> same_second t1 t2.
Proof.
  unfold clock_in_range, same_second, same_minute, strftime_YmdHMS.
  intros (Y1 & M1 & D1 & H1 & I1 & S1) (Y2 & M2 & D2 & H2 & I2 & S2) E.
  apply pad4_inj in E as [Ey E]; [|lia|lia].
  apply pad2_inj in E as [Em E]; [|lia|lia].
  apply pad2_inj in E as [Ed E]; [|lia|lia].
  apply pad2_inj in E as [Eh E]; [|lia|lia].
  apply pad2_inj in E as [Ei E]; [|lia|lia].
  change (pad2 (dt_second t1) ++ "" = pad2 (dt_second t2) ++ "")%string in E.
  apply pad2_inj in E as [Es _]; [|lia|lia].
  tauto.
Qed.

Lemma same_second_strftime (t1 t2 : datetime) :
  same_second t1 t2 -> strftime_YmdHMS t1 = strftime_YmdHMS t2.
Proof.
  unfold same_second, same_minute, strftime_YmdHMS.
  intros ((-> & -> & -> & -> & ->) & ->). reflexivity.
Qed.

Lemma prefixed_timestamps (p : string) (t1 t2 : datetime) :
  clock_in_range t1 -> clock_in_range t2 ->
  ((p ++ strftime_YmdHMS t1 = p ++ strftime_YmdHMS t2)%string
   <-> same_second t1 t2).
Proof.
  intros R1 R2. split.
  - intro E. apply (strftime_YmdHMS_inj t1 t2 R1 R2).
    exact (append_inj_l p _ _ E).
  - intro S. rewrite (same_second_strftime t1 t2 S). reflexivity.
Qed.

Lemma second_letter_differs (a b : ascii) (x y : string) :
  a <> b -> String "M" (String a x) <> String "M" (String b y).
Proof.
  intros N E. apply String_inj in E as [_ E].
  apply String_inj in E as [E _]. exact (N E).
Qed.

End NumberFacts.

(** X19: order, issue and receipt numbers are unique per second.  For
    clock readings whose fields [strftime] prints at fixed width (years
    1000 to 9999), two order numbers are equal exactly when the readings
    lie in the same second, and so for issue numbers, receipt numbers and
    [generate_order_number] with any prefix; numbers of different kinds
    never coincide; and [generate_order_number('MO')] is
    [_generate_order_number]. *)
Theorem generated_numbers_differ_across_seconds (t1 t2 : datetime) :
  clock_in_range t1 -> clock_in_range t2 ->
  (Production._generate_order_number t1 = Production._generate_order_number t2
   <-> same_second t1 t2)
  /\ (Production._generate_issue_number t1
      = Production._generate_issue_number t2
      <-> same_second t1 t2)
  /\ (Production._generate_receipt_number t1
      = Production._generate_receipt_number t2
      <-> same_second t1 t2)
  /\ (forall prefix,
        Common.generate_order_number prefix t1
        = Common.generate_order_number prefix t2
        <-> same_second t1 t2)
  /\ Production._generate_order_number t1
     <> Production._generate_issue_number t2
  /\ Production._generate_order_number t1
     <> Production._generate_receipt_number t2
  /\ Production._generate_issue_number t1
     <> Production._generate_receipt_number t2
  /\ Common.generate_order_number "MO" t1
     = Production._generate_order_number t1.
Proof.
  intros R1 R2.
  unfold Production._generate_order_number, Production._generate_issue_number,
    Production._generate_receipt_number, Common.generate_order_number.
  split; [exact (prefixed_timestamps "MO-" t1 t2 R1 R2)|].
  split; [exact (prefixed_timestamps "MI-" t1 t2 R1 R2)|].
  split; [exact (prefixed_timestamps "PR-" t1 t2 R1 R2)|].
  split.
  { intro prefix. split.
    - intro E. apply append_inj_l in E.
      exact (proj1 (prefixed_timestamps "-" t1 t2 R1 R2) E).
    - intro S. rewrite (same_second_strftime t1 t2 S). reflexivity. }
  split; [apply second_letter_differs; discriminate|].
  split; [intro E; apply String_inj in E as [E _]; discriminate E|].
  split; [intro E; apply String_inj in E as [E _]; discriminate E|].
  reflexivity.
Qed.

Lemma generated_numbers_differ_sample :
  clock_in_range Samples.noon /\ clock_in_range Samples.later
  /\ Production._generate_order_number Samples.noon
     <> Production._generate_order_number Samples.later.
Proof.
  assert (R1 : clock_in_range Samples.noon) by (cbv; intuition discriminate).
  assert (R2 : clock_in_range Samples.later) by (cbv; intuition discriminate).
  split; [exact R1|]. split; [exact R2|].
  destruct (generated_numbers_differ_across_seconds Samples.noon Samples.later
              R1 R2) as (O & _).
  intro E. apply O in E. destruct E as ((_ & _ & _ & _ & M) & _).
  discriminate M.
Defined.

(** X24: the batch number the completion form proposes is unique per BOM
    type and minute only.  For clock readings in the fixed-width range,
    two proposed batch numbers are equal exactly when the BOM types are
    the same and the readings lie in the same minute. *)
Theorem default_batch_numbers_repeat_within_a_minute
        (ty1 ty2 : bom_type) (t1 t2 : datetime) :
  clock_in_range t1 -> clock_in_range t2 ->
  (Batches.default_batch_no ty1 t1 = Batches.default_batch_no ty2 t2
   <-> ty1 = ty2 /\ same_minute t1 t2).
Proof.
  intros R1 R2. unfold Batches.default_batch_no. split.
  - intro E.
    assert (T : ty1 = ty2).
    { destruct ty1, ty2; try reflexivity;
        cbn [Batches.type_prefix append] in E;
        apply String_inj in E as [E _]; discriminate E. }
    split; [exact T|]. subst ty2.
    apply append_inj_l in E. apply (append_inj_l "-"%string) in E.
    now apply strftime_YmdHM_inj.
  - unfold same_minute, Batches.strftime_YmdHM.
    intros (-> & -> & -> & -> & -> & ->). reflexivity.
Qed.

Lemma default_batch_numbers_sample :
  clock_in_range Samples.noon /\ clock_in_range Samples.later
  /\ Batches.default_batch_no KITTING Samples.noon
     <> Batches.default_batch_no KITTING Samples.later.
Proof.
  assert (R1 : clock_in_range Samples.noon) by (cbv; intuition discriminate).
  assert (R2 : clock_in_range Samples.later) by (cbv; intuition discriminate).
  split; [exact R1|]. split; [exact R2|].
  intro E.
  apply (default_batch_numbers_repeat_within_a_minute KITTING KITTING
           Samples.noon Samples.later R1 R2) in E.
  destruct E as (_ & _ & _ & _ & _ & M). discriminate M.
Defined.

(** ** Date ranges *)

Section CalendarFacts.
Import Common.
Local Open Scope Z_scope.

Lemma month_cases (m : Z) :
  1 <= m <= 12 ->
  m = 1 \/ m = 2 \/ m = 3 \/ m = 4 \/ m = 5 \/ m = 6 \/ m = 7
  \/ m = 8 \/ m = 9 \/ m = 10 \/ m = 11 \/ m = 12.
Proof. lia. Qed.

(** [ymd] is the day number [datetime] computes. *)
Lemma ymd_ordinal (y m d : Z) :
  1 <= m <= 12 ->
  ymd y m d = days_before_year y + days_before_month y m + d.
Proof.
  intros Hm. apply month_cases in Hm as C.
  unfold ymd, days_before_year, days_before_month, is_leap.
  destruct (Z.eqb_spec (y mod 4) 0), (Z.eqb_spec (y mod 100) 0),
           (Z.eqb_spec (y mod 400) 0);
  repeat (destruct C as [C|C]); subst m;
    cbn -[Z.div Z.modulo Z.mul Z.add Z.sub];
    Z.div_mod_to_equations; lia.
Qed.

Lemma days_before_year_succ (y : Z) :
  days_before_year (y + 1)
  = days_before_year y + 365 + (if is_leap y then 1 else 0).
Proof.
  unfold days_before_year, is_leap. cbv zeta.
  replace (y + 1 - 1) with y by lia.
  destruct (Z.eqb_spec (y mod 4) 0), (Z.eqb_spec (y mod 100) 0),
           (Z.eqb_spec (y mod 400) 0);
    cbn -[Z.div Z.modulo Z.mul Z.add Z.sub];
    Z.div_mod_to_equations; lia.
Qed.

Lemma days_before_year_range (y : Z) :
  1 <= y <= MAXYEAR ->
  0 <= days_before_year y
  /\ (y < MAXYEAR -> days_before_year y <= 3651428).
Proof.
  unfold days_before_year, MAXYEAR. cbv zeta. intros H.
  Z.div_mod_to_equations. lia.
Qed.

Lemma is_date_spec (y m d : Z) :
  is_date y m d = true
  <-> 1 <= y <= MAXYEAR /\ 1 <= m <= 12 /\ 1 <= d <= days_in_month y m.
Proof.
  unfold is_date. rewrite !andb_true_iff, !Z.leb_le. tauto.
Qed.

Lemma new_date_ok (y m d : Z) :
  1 <= y <= MAXYEAR -> 1 <= m <= 12 -> 1 <= d <= days_in_month y m ->
  new_date y m d = Some (ymd y m d).
Proof.
  intros Hy Hm Hd. unfold new_date.
  rewrite (proj2 (is_date_spec y m d)); [reflexivity | tauto].
Qed.

Lemma plus_days_ok (d k : Z) :
  1 <= d + k <= MAXORDINAL -> plus_days d k = Some (d + k).
Proof.
  intros H. unfold plus_days.
  rewrite (proj2 (Z.leb_le 1 (d + k))), (proj2 (Z.leb_le (d + k) MAXORDINAL));
    [reflexivity | lia | lia].
Qed.

Lemma validate_date_range_ok (a b : Z) :
  a <= b <= a + 365 -> validate_date_range a b = (true, None).
Proof.
  intros H. unfold validate_date_range.
  rewrite !Z.gtb_ltb.
  rewrite (proj2 (Z.ltb_ge b a)), (proj2 (Z.ltb_ge 365 (b - a)));
    [reflexivity | lia | lia].
Qed.

Lemma week_range (today : civil) :
  is_date (year today) (month today) (day today) = true ->
  year today < MAXYEAR ->
  let start := toordinal today - weekday today in
  calculate_date_range today "week" = Some (start, start + 6)
  /\ (start + 6) mod 7 = 0
  /\ start <= toordinal today <= start + 6.
Proof.
  intros V Hy start. apply is_date_spec in V as (Y & M & D).
  assert (T : 1 <= toordinal today <= 3651428 + 366).
  { unfold toordinal. rewrite ymd_ordinal by exact M.
    destruct (days_before_year_range (year today) Y) as [L U].
    specialize (U Hy).
    apply month_cases in M as C. unfold days_in_month in D.
    unfold days_before_month.
    destruct (is_leap (year today));
      repeat (destruct C as [C|C]); rewrite C in *; cbn in D |- *; lia. }
  assert (W : 0 <= weekday today <= 6 /\ weekday today <= toordinal today - 1
              /\ (toordinal today - weekday today + 6) mod 7 = 0).
  { unfold weekday. Z.div_mod_to_equations. lia. }
  unfold calculate_date_range. cbn [String.eqb Ascii.eqb Bool.eqb].
  cbn -[Z.add Z.opp Z.sub plus_days toordinal weekday].
  rewrite plus_days_ok by (unfold MAXORDINAL; lia).
  cbn [and_then].
  rewrite plus_days_ok by (unfold MAXORDINAL; lia).
  cbn [and_then]. subst start.
  replace (toordinal today + - weekday today)
    with (toordinal today - weekday today) by lia.
  split; [reflexivity|]. lia.
Qed.

Ltac calendar today :=
  match goal with
  | V : is_date _ _ _ = true, Hy : _ < MAXYEAR |- _ =>
      destruct today as [y m d]; cbn [year month day] in *;
      apply is_date_spec in V as (Y & M & D);
      destruct (days_before_year_range y Y) as [L U]; specialize (U Hy);
      pose proof (days_before_year_succ y) as N;
      apply month_cases in M as C; unfold days_in_month in *;
      unfold calculate_date_range, toordinal; cbn [year month day];
      cbn [String.eqb Ascii.eqb Bool.eqb]
  end.

Lemma month_range (today : civil) :
  is_date (year today) (month today) (day today) = true ->
  year today < MAXYEAR ->
  let start := ymd (year today) (month today) 1 in
  let end_ := start + days_in_month (year today) (month today) - 1 in
  calculate_date_range today "month" = Some (start, end_)
  /\ start <= toordinal today <= end_.
Proof.
  intros V Hy. calendar today.
  destruct (is_leap y) eqn:E;
    repeat (destruct C as [C|C]); subst m;
    cbn -[new_date plus_days ymd days_before_year] in *;
    repeat (rewrite new_date_ok
              by (unfold MAXYEAR, days_in_month in *; rewrite ?E; cbn; lia);
            cbn [and_then]);
    rewrite !ymd_ordinal by lia; unfold days_before_month; rewrite ?N, ?E;
    cbn -[plus_days days_before_year];
    (rewrite plus_days_ok by (unfold MAXORDINAL; lia));
    cbn [and_then]; (split; [f_equal; f_equal; lia | lia]).
Qed.

Lemma quarter_range (today : civil) :
  is_date (year today) (month today) (day today) = true ->
  year today < MAXYEAR ->
  exists end_,
    let start := ymd (year today) ((month today - 1) / 3 * 3 + 1) 1 in
    calculate_date_range today "quarter" = Some (start, end_)
    /\ start <= toordinal today <= end_
    /\ 89 <= end_ - start <= 91.
Proof.
  intros V Hy. calendar today.
  destruct (is_leap y) eqn:E;
    repeat (destruct C as [C|C]); subst m;
    cbn -[new_date plus_days ymd days_before_year] in *;
    repeat (rewrite new_date_ok
              by (unfold MAXYEAR, days_in_month in *; rewrite ?E; cbn; lia);
            cbn [and_then]);
    rewrite !ymd_ordinal by lia; unfold days_before_month; rewrite ?N, ?E;
    cbn -[plus_days days_before_year];
    (rewrite plus_days_ok by (unfold MAXORDINAL; lia));
    cbn [and_then]; eexists; (split; [reflexivity | lia]).
Qed.

Lemma year_range (today : civil) :
  is_date (year today) (month today) (day today) = true ->
  year today < MAXYEAR ->
  let start := ymd (year today) 1 1 in
  let end_ := ymd (year today) 12 31 in
  calculate_date_range today "year" = Some (start, end_)
  /\ start <= toordinal today <= end_
  /\ end_ - start = (if is_leap (year today) then 365 else 364).
Proof.
  intros V Hy. calendar today.
  destruct (is_leap y) eqn:E;
    repeat (destruct C as [C|C]); subst m;
    cbn -[new_date plus_days ymd days_before_year] in *;
    repeat (rewrite new_date_ok
              by (unfold MAXYEAR, days_in_month in *; rewrite ?E; cbn; lia);
            cbn [and_then]);
    rewrite !ymd_ordinal by lia; unfold days_before_month; rewrite ?E;
    cbn -[days_before_year]; (split; [reflexivity | lia]).
Qed.

Lemma other_range (today : civil) (period : string) :
  period <> "week"%string -> period <> "month"%string ->
  period <> "quarter"%string -> period <> "year"%string ->
  calculate_date_range today period
  = Some (toordinal today, toordinal today).
Proof.
  intros W M Q Y. unfold calculate_date_range.
  destruct (String.eqb_spec period "today"); [reflexivity|].
  destruct (String.eqb_spec period "week"); [contradiction|].
  destruct (String.eqb_spec period "month"); [contradiction|].
  destruct (String.eqb_spec period "quarter"); [contradiction|].
  destruct (String.eqb_spec period "year"); [contradiction|].
  reflexivity.
Qed.

Lemma days_in_month_range (y m : Z) : 28 <= days_in_month y m <= 31.
Proof.
  unfold days_in_month.
  repeat match goal with
         | |- context [if ?c then _ else _] => destruct c
         end; lia.
Qed.

End CalendarFacts.

(** X20: every range [calculate_date_range] returns contains today and
    passes [validate_date_range].  For a calendar date before the year
    9999 and any period string, the function returns a pair (start, end)
    with start <= today <= end that [validate_date_range] accepts; for
    "week" the start is a Monday and the end six days later; for "month"
    the first and the last day of today's month; for "quarter" a range of
    90 to 92 days from the first day of the quarter; for "year" January 1
    to December 31, 365 days apart in a leap year, which is the longest
    range the validation accepts; any other string gives (today,
    today). *)
Theorem date_range_contains_today (today : Common.civil) (period : string) :
  Common.is_date (Common.year today) (Common.month today) (Common.day today)
  = true ->
  (Common.year today < Common.MAXYEAR)%Z ->
  exists start end_,
    Common.calculate_date_range today period = Some (start, end_)
    /\ (start <= Common.toordinal today <= end_)%Z
    /\ Common.validate_date_range start end_ = (true, None)
    /\ (period = "week"%string ->
        ((start + 6) mod 7 = 0 /\ end_ = start + 6)%Z)
    /\ (period = "month"%string ->
        start = ymd (Common.year today) (Common.month today) 1
        /\ (end_ = start + Common.days_in_month (Common.year today)
                             (Common.month today) - 1)%Z)
    /\ (period = "quarter"%string ->
        start = ymd (Common.year today)
                    ((Common.month today - 1) / 3 * 3 + 1) 1
        /\ (89 <= end_ - start <= 91)%Z)
    /\ (period = "year"%string ->
        start = ymd (Common.year today) 1 1
        /\ end_ = ymd (Common.year today) 12 31
        /\ (end_ - start
            = if Common.is_leap (Common.year today) then 365 else 364)%Z)
    /\ (period <> "week"%string -> period <> "month"%string ->
        period <> "quarter"%string -> period <> "year"%string ->
        start = Common.toordinal today /\ end_ = Common.toordinal today).
Proof.
  intros V Hy.
  destruct (String.eqb_spec period "week") as [->|NW].
  { destruct (week_range today V Hy) as (E & Mo & B).
    eexists; eexists. split; [exact E|]. split; [exact B|].
    split; [apply validate_date_range_ok; lia|].
    repeat split; try discriminate; try congruence; lia. }
  destruct (String.eqb_spec period "month") as [->|NM].
  { destruct (month_range today V Hy) as (E & B).
    pose proof (days_in_month_range (Common.year today) (Common.month today)).
    eexists; eexists. split; [exact E|]. split; [exact B|].
    split; [apply validate_date_range_ok; lia|].
    repeat split; try discriminate; try congruence; lia. }
  destruct (String.eqb_spec period "quarter") as [->|NQ].
  { destruct (quarter_range today V Hy) as (e & E & B & Len).
    eexists; exists e. split; [exact E|]. split; [exact B|].
    split; [apply validate_date_range_ok; lia|].
    repeat split; try discriminate; try congruence; lia. }
  destruct (String.eqb_spec period "year") as [->|NY].
  { destruct (year_range today V Hy) as (E & B & Len).
    eexists; eexists. split; [exact E|]. split; [exact B|].
    split; [apply validate_date_range_ok;
            destruct (Common.is_leap (Common.year today)); lia|].
    repeat split; try discriminate; try congruence; exact Len. }
  exists (Common.toordinal today), (Common.toordinal today).
  split; [now apply other_range|]. split; [lia|].
  split; [apply validate_date_range_ok; lia|].
  repeat split; try contradiction; reflexivity.
Qed.

Lemma date_range_sample :
  exists start end_,
    Common.calculate_date_range MoreSamples.mid_february "month"
    = Some (start, end_)
    /\ (start <= Common.toordinal MoreSamples.mid_february <= end_)%Z
    /\ Common.validate_date_range start end_ = (true, None)
    /\ (end_ = start + 28)%Z.
Proof.
  destruct (date_range_contains_today MoreSamples.mid_february "month")
    as (a & b & E & B & Va & _ & Mo & _).
  - reflexivity.
  - reflexivity.
  - exists a, b. destruct (Mo eq_refl) as [Hs He].
    split; [exact E|]. split; [exact B|]. split; [exact Va|].
    rewrite He. cbn [MoreSamples.mid_february Common.year Common.month].
    change (Common.days_in_month 2024 2) with 29%Z. lia.
Defined.

(** On the last day of the calendar the month, quarter and week ranges
    raise; the year range ends on that day. *)
Example date_range_overflow :
  Common.calculate_date_range (Common.mk_civil 9999 12 31) "month" = None
  /\ Common.calculate_date_range (Common.mk_civil 9999 12 31) "quarter"
     = None
  /\ Common.calculate_date_range (Common.mk_civil 9999 12 31) "week" = None
  /\ Common.calculate_date_range (Common.mk_civil 9999 12 31) "year"
     = Some (ymd 9999 1 1, Common.MAXORDINAL).
Proof. repeat split; vm_compute; reflexivity. Qed.

(** ** Batch genealogy *)

Section BatchFacts.
Import Production Batches.

Lemma source_lots_append (s s' : db) (lot : inventory_history)
      (mid : material_issue_detail) :
  inventory_histories s' = inventory_histories s ++ [lot] ->
  ih_id lot = fresh_id (map ih_id (inventory_histories s)) ->
  In (mid_inventory_history_id mid) (map ih_id (inventory_histories s)) ->
  source_lots s' mid = source_lots s mid.
Proof.
  intros E F Hin. unfold source_lots. rewrite E, filter_app.
  cbn [filter].
  destruct (Z.eqb_spec (ih_id lot) (mid_inventory_history_id mid)) as [X|_].
  - exfalso. rewrite <- X, F in Hin. exact (fresh_id_not_in _ Hin).
  - now rewrite app_nil_r.
Qed.

Lemma order_sources_append (s s' : db) (lot : inventory_history) (k : Z) :
  products s' = products s ->
  material_issue_details s' = material_issue_details s ->
  inventory_histories s' = inventory_histories s ++ [lot] ->
  ih_id lot = fresh_id (map ih_id (inventory_histories s)) ->
  issue_details_reference_ledger s ->
  order_sources s' k = order_sources s k.
Proof.
  intros P D E F R. unfold order_sources. rewrite P, D.
  assert (K : forall mid, In mid (material_issue_details s) ->
                          source_lots s' mid = source_lots s mid).
  { intros mid Hin. apply (source_lots_append s s' lot mid E F).
    now apply R. }
  revert K. generalize (material_issue_details s) as l.
  induction l as [|mid l IH]; intro K; [reflexivity|].
  cbn [filter]. destruct (mid_order_id mid =? k)%Z.
  - cbn [flat_map]. rewrite (K mid (or_introl eq_refl)). f_equal.
    apply IH. intros x Hx. apply K. now right.
  - apply IH. intros x Hx. apply K. now right.
Qed.

(** The receipt and the ledger row a completion appends. *)
Lemma completion_appends (now : datetime) (uuid : string) (k : Z) (q : Q)
      (batch quality : string) (s : db) (order : order_view) :
  get_order_details s k = Some order ->
  let s' := fst (complete_production now uuid k q batch quality s) in
  products s' = products s
  /\ material_issue_details s' = material_issue_details s
  /\ (exists receipt,
        production_receipts s' = production_receipts s ++ [receipt]
        /\ pr_order_id receipt = k /\ pr_batch_no receipt = batch)
  /\ (exists lot,
        inventory_histories s' = inventory_histories s ++ [lot]
        /\ ih_id lot = fresh_id (map ih_id (inventory_histories s))).
Proof.
  intro H. unfold complete_production, transaction.
  rewrite H. cbn [subscript bind fst].
  cbn [products material_issue_details production_receipts
       inventory_histories set_orders set_inventory set_receipts].
  split; [reflexivity|]. split; [reflexivity|].
  split; eexists; repeat split; reflexivity.
Qed.

End BatchFacts.

(** X21: the genealogy of a batch is what was issued to the orders
    completed under its number.  When every issue detail names an existing
    ledger row, completing an existing order under a batch number adds to
    [get_batch_sources] of that number exactly the order's issue details
    (joined with products and ledger), whether or not earlier receipts
    already carry the number, in which case the sources of several orders
    are merged; the sources of every other batch number are unchanged; and
    a batch number no receipt carries has no sources. *)
Theorem batch_sources_after_completion (now : datetime) (uuid : string)
        (order_id : Z) (produced_qty : Q) (batch_no quality : string)
        (s : db) (order : Production.order_view) :
  Production.get_order_details s order_id = Some order ->
  issue_details_reference_ledger s ->
  let s' :=
    fst (Production.complete_production now uuid order_id produced_qty
           batch_no quality s) in
  Permutation (Batches.get_batch_sources s' batch_no)
              (Batches.get_batch_sources s batch_no
               ++ Batches.order_sources s order_id)
  /\ (forall other,
        other <> batch_no ->
        Batches.get_batch_sources s' other
        = Batches.get_batch_sources s other)
  /\ ((forall pr, In pr (production_receipts s) ->
                  pr_batch_no pr <> batch_no) ->
      Batches.get_batch_sources s batch_no = []
      /\ Permutation (Batches.get_batch_sources s' batch_no)
                     (Batches.order_sources s order_id)).
Proof.
  intros H R s'.
  destruct (completion_appends now uuid order_id produced_qty batch_no quality
              s order H)
    as (P & D & (receipt & ER & Ek & Eb) & (lot & EL & F)).
  fold s' in P, D, ER, EL.
  assert (S : forall k, Batches.order_sources s' k = Batches.order_sources s k)
    by (intro k; exact (order_sources_append s s' lot k P D EL F R)).
  assert (U : forall b,
             flat_map (fun pr => Batches.order_sources s' (pr_order_id pr))
               (filter (fun pr => String.eqb (pr_batch_no pr) b)
                       (production_receipts s'))
             = flat_map (fun pr => Batches.order_sources s (pr_order_id pr))
                 (filter (fun pr => String.eqb (pr_batch_no pr) b)
                         (production_receipts s))
               ++ (if String.eqb batch_no b
                   then Batches.order_sources s order_id else [])).
  { intro b. rewrite ER, filter_app, flat_map_app. cbn [filter].
    rewrite Eb. f_equal.
    - apply flat_map_ext. intro pr. apply S.
    - destruct (String.eqb batch_no b); cbn [flat_map];
        [rewrite Ek, S; apply app_nil_r | reflexivity]. }
  assert (A : Permutation (Batches.get_batch_sources s' batch_no)
                (Batches.get_batch_sources s batch_no
                 ++ Batches.order_sources s order_id)).
  { unfold Batches.get_batch_sources. rewrite U, String.eqb_refl.
    rewrite !order_by_perm. reflexivity. }
  split; [exact A|]. split.
  - intros other N. unfold Batches.get_batch_sources. rewrite U.
    destruct (String.eqb_spec batch_no other) as [E|_];
      [now subst | now rewrite app_nil_r].
  - intro Fresh.
    assert (Z0 : Batches.get_batch_sources s batch_no = []).
    { unfold Batches.get_batch_sources. rewrite filter_none; [reflexivity|].
      intros pr Hin. apply String.eqb_neq. now apply Fresh. }
    split; [exact Z0|]. now rewrite A, Z0.
Qed.

Lemma batch_sources_sample :
  Production.get_order_details (Samples.issued_kit_db KITTING) 1
  = Some MoreSamples.in_progress_row
  /\ issue_details_reference_ledger (Samples.issued_kit_db KITTING)
  /\ Permutation
       (Batches.get_batch_sources
          (fst (Production.complete_production Samples.later "U1" 1 4
                  "KIT-1" "PASSED" (Samples.issued_kit_db KITTING)))
          "KIT-1")
       (Batches.get_batch_sources (Samples.issued_kit_db KITTING) "KIT-1"
        ++ Batches.order_sources (Samples.issued_kit_db KITTING) 1).
Proof.
  assert (H : Production.get_order_details (Samples.issued_kit_db KITTING) 1
              = Some MoreSamples.in_progress_row) by reflexivity.
  assert (R : issue_details_reference_ledger (Samples.issued_kit_db KITTING))
    by (intros mid [<-|[<-|[<-|[]]]]; cbn; tauto).
  split; [exact H|]. split; [exact R|].
  exact (proj1 (batch_sources_after_completion Samples.later "U1" 1 4
                  "KIT-1" "PASSED" (Samples.issued_kit_db KITTING)
                  MoreSamples.in_progress_row H R)).
Defined.

(** The three issue lines of the sample kit, by material name. *)
Example batch_sources_listed :
  map (fun r => (Batches.src_material_name r, Batches.src_source_batch r))
      (Batches.get_batch_sources
         (fst (Production.complete_production Samples.later "U1" 1 4
                 "KIT-1" "PASSED" (Samples.issued_kit_db KITTING)))
         "KIT-1")
  = [("Ribbon"%string, "R1"%string); ("Tea tin"%string, "T1"%string);
     ("Tea tin"%string, "T2"%string)].
Proof. vm_compute. reflexivity. Qed.

(** ** Order creation and stock; quantity validation *)

(** X22: "Create Order" neither reads nor writes the ledger.  Whatever
    ledger replaces the stock, the new-order page creates the same order
    and requirement rows and leaves that ledger as it is: nothing is
    checked against stock and nothing is reserved, so the order is created
    the same with no stock at all. *)
Theorem order_creation_ignores_stock (now : datetime) (prod_type : bom_type)
        (bom_id qty src tgt : Z) (priority : string) (s : db)
        (ledger : list inventory_history) :
  let create :=
    Pages.new_order_view now prod_type bom_id qty src tgt priority in
  create (set_inventory ledger s) = set_inventory ledger (create s)
  /\ inventory_histories (create s) = inventory_histories s
  /\ (forall k, Production.status_of (create (set_inventory [] s)) k
                = Production.status_of (create s) k)
  /\ manufacturing_order_materials (create (set_inventory [] s))
     = manufacturing_order_materials (create s).
Proof.
  intro create.
  assert (C : forall l,
             create (set_inventory l s) = set_inventory l (create s)).
  { intro l. subst create. unfold Pages.new_order_view.
    change (BOM.get_active_boms (set_inventory l s) (Some prod_type))
      with (BOM.get_active_boms s (Some prod_type)).
    change (Inventory.get_warehouses (set_inventory l s))
      with (Inventory.get_warehouses s).
    change (BOM.get_bom_info (set_inventory l s) bom_id)
      with (BOM.get_bom_info s bom_id).
    destruct (_ && _); [|reflexivity].
    destruct (BOM.get_bom_info s bom_id) as [info|]; reflexivity. }
  split; [apply C|]. split; [|split].
  - subst create. unfold Pages.new_order_view.
    destruct (_ && _); [|reflexivity].
    destruct (BOM.get_bom_info s bom_id) as [info|]; reflexivity.
  - intro k. now rewrite C.
  - now rewrite C.
Qed.

(** X23: what [validate_quantity] accepts and returns.  It works on
    [float(value)]: when that is the float qty, the value is accepted, and
    qty returned, exactly when qty is not below [min_value] and, for a
    [max_value] that is given and not zero, not above it; a [max_value] of
    0 bounds nothing; a float below the minimum is reported as such
    whatever the maximum.  Nothing else is accepted.  [float(value)] is
    the value itself for a float and for an int of at most 2^53 in
    magnitude, and the nearest float for a larger int (2^53 + 1 is
    returned as 2^53); what [float()] rejects is reported as an invalid
    format, and an int too large for a float raises OverflowError out of
    the function. *)
Theorem validate_quantity_accepts (value : Common.py_value) (min_value : Q)
        (max_value : option Q) :
  (forall qty,
     Common.py_float value = Common.is_float qty ->
     (Common.validate_quantity value min_value max_value
      = Some (true, Common.quantity qty)
      <-> min_value <= qty
          /\ match max_value with
             | Some m => m == 0 \/ qty <= m
             | None => True
             end)
     /\ (qty < min_value ->
         Common.validate_quantity value min_value max_value
         = Some (false, Common.must_be_at_least min_value))
     /\ (min_value <= qty ->
         Common.validate_quantity value min_value (Some 0)
         = Some (true, Common.quantity qty)))
  /\ (forall r,
        Common.validate_quantity value min_value max_value = Some (true, r) ->
        exists qty,
          Common.py_float value = Common.is_float qty
          /\ r = Common.quantity qty)
  /\ (forall n,
        value = Common.an_int n -> (Z.abs n <= 2 ^ 53)%Z ->
        Common.py_float value = Common.is_float (inject_Z n))
  /\ (forall x,
        value = Common.a_float x ->
        Common.py_float value = Common.is_float x)
  /\ (value = Common.no_number ->
      Common.validate_quantity value min_value max_value
      = Some (false, Common.invalid_format))
  /\ (Common.py_float value = Common.overflow_error ->
      Common.validate_quantity value min_value max_value = None)
  /\ Common.validate_quantity (Common.an_int (2 ^ 53 + 1)) 0 None
     = Some (true, Common.quantity (inject_Z (2 ^ 53)))
  /\ Common.validate_quantity (Common.an_int (2 ^ 1024)) 0 None = None.
Proof.
  split; [|split; [|split; [|split; [|split; [|split; [|split]]]]]].
  - intros qty F. unfold Common.validate_quantity. rewrite F.
    split; [split|split].
    + destruct (Qltb qty min_value) eqn:L; [discriminate|].
      apply Qltb_false in L. intro A. split; [exact L|].
      destruct max_value as [m|]; [|exact I].
      destruct (Qeq_bool m 0) eqn:Z0; [left; now apply Qeq_bool_iff|].
      destruct (Qltb m qty) eqn:U; [discriminate|].
      right. now apply Qltb_false.
    + intros (L & U). apply Qltb_false in L. rewrite L.
      destruct max_value as [m|]; [|reflexivity].
      destruct U as [U|U].
      * apply Qeq_bool_iff in U. now rewrite U.
      * apply Qltb_false in U. rewrite U, andb_false_r. reflexivity.
    + intro L. apply Qltb_true in L. now rewrite L.
    + intro L. apply Qltb_false in L. now rewrite L.
  - intros r. unfold Common.validate_quantity.
    destruct (Common.py_float value) as [qty| |]; try discriminate.
    intro A. exists qty. split; [reflexivity|].
    destruct (Qltb qty min_value); [discriminate|].
    destruct max_value as [m|].
    + destruct (negb (Qeq_bool m 0) && Qltb m qty); [discriminate|].
      now injection A as <-.
    + now injection A as <-.
  - intros n -> B. unfold Common.py_float.
    assert (Ba : (Z.abs (Z.abs n) <= 2 ^ 53)%Z) by lia.
    rewrite (to_float_inject_Z _ B), (to_float_inject_Z _ Ba).
    destruct (Qle_bool (inject_Z (2 ^ 1024)) (inject_Z (Z.abs n))) eqn:O;
      [|reflexivity].
    exfalso. apply Qle_bool_iff in O. rewrite <- Zle_Qle in O.
    assert ((2 ^ 53 < 2 ^ 1024)%Z) by reflexivity. lia.
  - now intros x ->.
  - now intros ->.
  - intro O. unfold Common.validate_quantity. now rewrite O.
  - vm_compute. reflexivity.
  - vm_compute. reflexivity.
Qed.

(** ** BOM status, receipts and what the pages keep *)

Section BomStatusFacts.
Import Production.

Lemma flat_map_filter {A B} (p : A -> bool) (k : A -> list B) (l : list A) :
  flat_map k (filter p l) = flat_map (fun a => if p a then k a else []) l.
Proof.
  induction l as [|a l IH]; cbn [filter flat_map]; [reflexivity|].
  destruct (p a); cbn [flat_map]; now rewrite IH.
Qed.

Lemma order_joins_bom_status (bom_id : Z) (st : bom_status) (s : db)
      (o : manufacturing_order) :
  order_joins (BOM.update_bom_status bom_id st s) o = order_joins s o.
Proof.
  unfold order_joins, BOM.update_bom_status.
  cbn [products warehouses bom_headers set_bom_headers].
  apply flat_map_ext. intro p.
  rewrite flat_map_filter_map, flat_map_filter.
  apply flat_map_ext. intro h.
  destruct (h_id h =? bom_id)%Z; reflexivity.
Qed.

Lemma inactive_bom_not_offered (bom_id : Z) (st : bom_status) (s : db)
      (ty : option bom_type) :
  st <> ACTIVE ->
  existsb (fun h => (h_id h =? bom_id)%Z)
          (BOM.get_active_boms (BOM.update_bom_status bom_id st s) ty)
  = false.
Proof.
  intro N.
  destruct (existsb _ _) eqn:E; [|reflexivity].
  exfalso. apply existsb_exists in E. destruct E as (h & Hh & Ih).
  apply Z.eqb_eq in Ih.
  unfold BOM.get_active_boms, BOM.get_boms in Hh.
  apply in_flat_map in Hh. destruct Hh as (h' & Hf & Hm).
  apply in_map_iff in Hm. destruct Hm as (_ & <- & _).
  apply filter_In in Hf. destruct Hf as [Hin C].
  unfold BOM.update_bom_status in Hin.
  cbn [bom_headers set_bom_headers] in Hin.
  apply in_map_iff in Hin. destruct Hin as (x & <- & _).
  destruct (h_id x =? bom_id)%Z eqn:X.
  - cbn [h_status] in C.
    apply andb_prop in C. destruct C as [_ C].
    destruct st; try discriminate C. now apply N.
  - apply Z.eqb_neq in X. contradiction.
Qed.

End BomStatusFacts.

(** X25: a BOM that is not ACTIVE takes no new orders, and changing a
    BOM's status changes nothing for the orders that exist.  After the BOM
    page has set a BOM to DRAFT or INACTIVE the order page creates nothing
    for it; whatever the new status, [get_order_details], [get_orders],
    [get_order_materials] and [calculate_material_requirements] return
    what they returned before, and orders and ledger are untouched. *)
Theorem bom_status_and_orders (bom_id : Z) (st : bom_status) (s : db) :
  let s' := Pages.bom_status_view bom_id st s in
  (st <> ACTIVE ->
   forall now ty qty src tgt prio,
     Pages.new_order_view now ty bom_id qty src tgt prio s' = s')
  /\ (forall k, Production.get_order_details s' k
                = Production.get_order_details s k)
  /\ (forall status, Production.get_orders s' status
                     = Production.get_orders s status)
  /\ (forall k, Production.get_order_materials s' k
                = Production.get_order_materials s k)
  /\ (forall b q, Production.calculate_material_requirements s' b q
                  = Production.calculate_material_requirements s b q)
  /\ manufacturing_orders s' = manufacturing_orders s
  /\ inventory_histories s' = inventory_histories s.
Proof.
  intro s'. subst s'. unfold Pages.bom_status_view.
  split; [|split; [|split; [|repeat split]]].
  - intros N now ty qty src tgt prio. unfold Pages.new_order_view.
    now rewrite inactive_bom_not_offered.
  - intro k. unfold Production.get_order_details.
    change (manufacturing_orders (BOM.update_bom_status bom_id st s))
      with (manufacturing_orders s).
    f_equal. apply flat_map_ext. intro o. apply order_joins_bom_status.
  - intro status. unfold Production.get_orders.
    change (manufacturing_orders (BOM.update_bom_status bom_id st s))
      with (manufacturing_orders s).
    apply flat_map_ext. intro o. apply order_joins_bom_status.
Qed.

Section ReceiptFacts.
Import Production.

Lemma receipts_same (s s' : db) :
  manufacturing_orders s' = manufacturing_orders s ->
  production_receipts s' = production_receipts s ->
  receipts_follow_status s -> receipts_follow_status s'.
Proof.
  unfold receipts_follow_status, receipts_of. intros -> ->. tauto.
Qed.

Lemma create_order_receipts (now : datetime) (data : order_data) (s : db) :
  production_receipts (fst (create_order now data s)) = production_receipts s.
Proof. reflexivity. Qed.

Lemma receipts_after_update (s s' : db) (k : Z) (o : manufacturing_order)
      (f : manufacturing_order -> manufacturing_order) :
  orders_keyed s -> receipts_follow_status s ->
  keeps_keys f ->
  In o (manufacturing_orders s) -> o_id o = k ->
  manufacturing_orders s' = map (update_by_id k f) (manufacturing_orders s) ->
  (forall j, List.length (receipts_of s' j)
             = if (j =? k)%Z
               then match o_status (f o) with COMPLETED => 1%nat | _ => 0%nat end
               else List.length (receipts_of s j)) ->
  (forall pr, In pr (production_receipts s') ->
              In pr (production_receipts s) \/ pr_order_id pr = k) ->
  receipts_follow_status s'.
Proof.
  intros N [R1 R2] K Hin Hk Ho Len Sub. split.
  - intros pr Hpr. rewrite Ho, map_map.
    erewrite map_ext;
      [|intro x; exact (proj1 (update_by_id_keys k f K x))].
    destruct (Sub pr Hpr) as [H|H]; [now apply R1|].
    rewrite H, <- Hk. now apply in_map.
  - intros o' Ho'. rewrite Ho in Ho'. apply in_map_iff in Ho'.
    destruct Ho' as (x & <- & Hx).
    rewrite (proj1 (update_by_id_keys k f K x)), Len.
    unfold update_by_id.
    destruct (Z.eqb_spec (o_id x) k) as [E|E].
    + assert (x = o) by (apply (keyed_unique s o x N Hin Hx); congruence).
      now subst x.
    + now apply R2.
Qed.

Lemma step_keeps_receipts (s s' : db) :
  orders_keyed s -> receipts_follow_status s -> Pages.step s s' ->
  receipts_follow_status s'.
Proof.
  intros N R St. destruct St.
  - destruct (bom_create_view_cases data s) as [->|[_ ->]]; [exact R|].
    now apply (receipts_same s).
  - now apply (receipts_same s).
  - destruct (new_order_view_cases now ty bom_id qty src tgt prio s)
      as [->|(bom_info & _ & ->)]; [exact R|].
    set (data := mk_order_data _ _ _ _ _ _ _ _).
    destruct (create_order_row now data s) as (o & Eo & Eid & _ & _ & _ & _
                                               & _ & _ & _ & Est & _).
    destruct R as [R1 R2]. split.
    + intros pr Hpr. rewrite create_order_receipts in Hpr.
      rewrite Eo, map_app. apply in_or_app. left. now apply R1.
    + intros x Hx. unfold receipts_of. rewrite create_order_receipts.
      rewrite Eo in Hx. apply in_app_or in Hx. destruct Hx as [Hx|[<-|[]]].
      * now apply R2.
      * rewrite Est. rewrite filter_none; [reflexivity|].
        intros pr Hpr. apply Z.eqb_neq. intro E.
        apply (fresh_id_not_in (map o_id (manufacturing_orders s))).
        rewrite <- Eid, <- E. now apply R1.
  - destruct (issue_view_cases now uuid sel user s)
      as [->|(o & s1 & r & Hin & Hid & Hst & I & ->)]; [exact R|].
    apply issue_materials_ok in I.
    destruct I as (_ & _ & _ & _ & Eo & _ & Er & _).
    apply (receipts_after_update s _ sel o (set_status IN_PROGRESS) N R);
      [apply set_status_keys | exact Hin | exact Hid | | |].
    + unfold update_order_status. cbn [manufacturing_orders set_orders].
      now rewrite Eo.
    + intro j. unfold receipts_of, update_order_status.
      cbn [production_receipts set_orders]. rewrite Er.
      destruct (Z.eqb_spec j sel) as [->|_]; [|reflexivity].
      cbn [set_status o_status].
      destruct R as [_ R2]. specialize (R2 o Hin).
      rewrite Hid, Hst in R2. exact R2.
    + intros pr Hpr. left. unfold update_order_status in Hpr.
      cbn [production_receipts set_orders] in Hpr. now rewrite Er in Hpr.
  - destruct (complete_view_cases now uuid sel qty batch quality s)
      as [->|(o & order & Hin & Hid & Hst & D & ->)]; [exact R|].
    destruct (complete_production_effect now uuid sel (inject_Z qty) batch
                quality s order D)
      as (s' & receipt & lot & E & _ & _ & _ & _ & _ & Eo & Er & Ek & _).
    rewrite E. cbn [fst].
    apply (receipts_after_update s s' sel o
             (complete_order_row (inject_Z qty) now) N R);
      [apply complete_order_row_keys | exact Hin | exact Hid | exact Eo | |].
    + intro j. unfold receipts_of. rewrite Er, filter_app, length_app.
      cbn [filter]. rewrite Ek.
      destruct (Z.eqb_spec j sel) as [->|Nj].
      * rewrite Z.eqb_refl. cbn [complete_order_row o_status List.length].
        destruct R as [_ R2]. specialize (R2 o Hin).
        rewrite Hid, Hst in R2. unfold receipts_of in R2. now rewrite R2.
      * destruct (Z.eqb_spec sel j) as [X|_]; [congruence|].
        cbn [List.length]. lia.
    + intros pr Hpr. rewrite Er in Hpr. apply in_app_or in Hpr.
      destruct Hpr as [H|[<-|[]]]; [now left | now right].
Qed.

Lemma sample_page_steps :
  Pages.steps Samples.stocked_db Samples.after_completion.
Proof.
  eapply Pages.steps_next; [|apply Pages.step_complete].
  eapply Pages.steps_next; [apply Pages.steps_refl|apply Pages.step_issue].
Qed.

End ReceiptFacts.

(** X26: through the pages an order is received exactly once.  From a
    state with unique order ids in which receipts belong to existing
    orders and an order has one receipt when COMPLETED and none otherwise,
    every sequence of page actions leads to a state in which every
    COMPLETED order has exactly one production receipt and every other
    order has none: the completion page lists IN_PROGRESS orders only, so
    it cannot complete an order twice. *)
Theorem one_receipt_per_order_through_pages (s0 s : db) :
  orders_keyed s0 -> receipts_follow_status s0 -> Pages.steps s0 s ->
  forall o,
    In o (manufacturing_orders s) ->
    (o_status o = COMPLETED ->
     exists pr, receipts_of s (o_id o) = [pr])
    /\ (o_status o <> COMPLETED -> receipts_of s (o_id o) = []).
Proof.
  intros N R St.
  assert (I : orders_keyed s /\ receipts_follow_status s).
  { induction St as [|s1 s2 s3 St IH Step]; [now split|].
    destruct (IH N R) as [N2 R2]. split.
    - exact (proj1 (step_transition s2 s3 N2 Step)).
    - now apply (step_keeps_receipts s2 s3). }
  destruct I as [_ [_ I]]. intros o Ho. specialize (I o Ho).
  split.
  - intro C. rewrite C in I.
    destruct (receipts_of s (o_id o)) as [|pr [|pr' l]]; try discriminate I.
    now exists pr.
  - intro C.
    destruct (receipts_of s (o_id o)) as [|pr l]; [reflexivity|].
    destruct (o_status o); try discriminate I. now contradiction C.
Qed.

Lemma one_receipt_per_order_sample :
  orders_keyed Samples.stocked_db
  /\ receipts_follow_status Samples.stocked_db
  /\ Pages.steps Samples.stocked_db Samples.after_completion
  /\ forall o,
      In o (manufacturing_orders Samples.after_completion) ->
      (o_status o = COMPLETED ->
       exists pr, receipts_of Samples.after_completion (o_id o) = [pr])
      /\ (o_status o <> COMPLETED ->
          receipts_of Samples.after_completion (o_id o) = []).
Proof.
  assert (N : orders_keyed Samples.stocked_db)
    by (repeat constructor; intros []).
  assert (R : receipts_follow_status Samples.stocked_db)
    by (split; [intros pr [] | intros o [<-|[]]; reflexivity]).
  split; [exact N|]. split; [exact R|]. split; [exact sample_page_steps|].
  exact (one_receipt_per_order_through_pages Samples.stocked_db
           Samples.after_completion N R sample_page_steps).
Defined.

Section FrameFacts.
Import Production.

Lemma Forall2_refl_on {A} (R : A -> A -> Prop) (l : list A) :
  (forall x, R x x) -> Forall2 R l l.
Proof. intro H. induction l; constructor; auto. Qed.

Lemma Forall2_map_r {A} (R : A -> A -> Prop) (f : A -> A) (l : list A) :
  (forall x, R x (f x)) -> Forall2 R l (map f l).
Proof. intro H. induction l; cbn [map]; constructor; auto. Qed.

Lemma Forall2_trans_on {A} (R : A -> A -> Prop) (l1 l2 l3 : list A) :
  (forall x y z, R x y -> R y z -> R x z) ->
  Forall2 R l1 l2 -> Forall2 R l2 l3 -> Forall2 R l1 l3.
Proof.
  intros T H. revert l3.
  induction H as [|x y l1 l2 Hxy H IH]; intros l3 H3; inversion H3; subst;
    constructor; eauto.
Qed.

Lemma extends_refl {A} (R : A -> A -> Prop) (l : list A) :
  (forall x, R x x) -> extends R l l.
Proof.
  intro H. exists l, []. split; [now rewrite app_nil_r|].
  now apply Forall2_refl_on.
Qed.

Lemma extends_same {A} (R : A -> A -> Prop) (l l' : list A) :
  (forall x, R x x) -> l' = l -> extends R l l'.
Proof. intros H ->. now apply extends_refl. Qed.

Lemma extends_map {A} (R : A -> A -> Prop) (f : A -> A) (l : list A) :
  (forall x, R x (f x)) -> extends R l (map f l).
Proof.
  intro H. exists (map f l), []. split; [now rewrite app_nil_r|].
  now apply Forall2_map_r.
Qed.

Lemma extends_app {A} (R : A -> A -> Prop) (l new : list A) :
  (forall x, R x x) -> extends R l (l ++ new).
Proof.
  intro H. exists l, new. split; [reflexivity | now apply Forall2_refl_on].
Qed.

Lemma extends_trans {A} (R : A -> A -> Prop) (l1 l2 l3 : list A) :
  (forall x, R x x) ->
  (forall x y z, R x y -> R y z -> R x z) ->
  extends R l1 l2 -> extends R l2 l3 -> extends R l1 l3.
Proof.
  intros Rf T (o1 & n1 & -> & F1) (o2 & n2 & -> & F2).
  apply Forall2_app_inv_l in F2.
  destruct F2 as (a & b & Fa & Fb & ->).
  exists a, (b ++ n2). split; [now rewrite app_assoc|].
  exact (Forall2_trans_on R l1 o1 a T F1 Fa).
Qed.

Lemma same_order_core_refl (o : manufacturing_order) : same_order_core o o.
Proof. unfold same_order_core. tauto. Qed.

Lemma same_order_core_trans (a b c : manufacturing_order) :
  same_order_core a b -> same_order_core b c -> same_order_core a c.
Proof. unfold same_order_core. intuition congruence. Qed.

Lemma same_requirement_core_refl (m : order_material) :
  same_requirement_core m m.
Proof. unfold same_requirement_core. tauto. Qed.

Lemma same_requirement_core_trans (a b c : order_material) :
  same_requirement_core a b -> same_requirement_core b c ->
  same_requirement_core a c.
Proof. unfold same_requirement_core. intuition congruence. Qed.

Lemma same_header_core_refl (h : bom_header) : same_header_core h h.
Proof. unfold same_header_core. tauto. Qed.

Lemma same_header_core_trans (a b c : bom_header) :
  same_header_core a b -> same_header_core b c -> same_header_core a c.
Proof. unfold same_header_core. intuition congruence. Qed.

Lemma pages_keep_refl (s : db) : pages_keep s s.
Proof.
  unfold pages_keep.
  repeat split; try reflexivity; apply extends_refl;
    auto using same_header_core_refl, same_order_core_refl,
               same_requirement_core_refl.
Qed.

Lemma pages_keep_trans (s1 s2 s3 : db) :
  pages_keep s1 s2 -> pages_keep s2 s3 -> pages_keep s1 s3.
Proof.
  unfold pages_keep.
  intros (P1 & W1 & H1 & D1 & O1 & M1 & R1) (P2 & W2 & H2 & D2 & O2 & M2 & R2).
  split; [congruence|]. split; [congruence|].
  split; [eapply extends_trans; eauto using same_header_core_refl,
                                            same_header_core_trans|].
  split; [eapply extends_trans; eauto; congruence|].
  split; [eapply extends_trans; eauto using same_order_core_refl,
                                            same_order_core_trans|].
  split; [eapply extends_trans; eauto using same_requirement_core_refl,
                                            same_requirement_core_trans|].
  eapply extends_trans; eauto; congruence.
Qed.

Lemma update_by_id_core (k : Z)
      (f : manufacturing_order -> manufacturing_order) :
  (forall o, same_order_core o (f o)) ->
  forall o, same_order_core o (update_by_id k f o).
Proof.
  intros H o. unfold update_by_id.
  destruct (o_id o =? k)%Z; [apply H | apply same_order_core_refl].
Qed.

Lemma mark_issued_core (k : Z) (rows : list order_material) :
  extends same_requirement_core rows (mark_issued k rows).
Proof.
  unfold mark_issued. apply extends_map. intro m.
  destruct (m_order_id m =? k)%Z;
    [unfold same_requirement_core; cbn; tauto
    | apply same_requirement_core_refl].
Qed.

Lemma step_keeps (s s' : db) : Pages.step s s' -> pages_keep s s'.
Proof.
  intro St. destruct St.
  - destruct (bom_create_view_cases data s) as [->|[_ ->]];
      [apply pages_keep_refl|].
    unfold pages_keep, BOM.create_bom.
    cbn [fst products warehouses bom_headers bom_details manufacturing_orders
         manufacturing_order_materials production_receipts set_bom_headers
         set_bom_details].
    split; [reflexivity|]. split; [reflexivity|].
    split; [apply extends_app, same_header_core_refl|].
    split; [now apply extends_app|].
    split; [apply extends_refl, same_order_core_refl|].
    split; [apply extends_refl, same_requirement_core_refl|].
    now apply extends_refl.
  - unfold pages_keep, Pages.bom_status_view, BOM.update_bom_status.
    cbn [products warehouses bom_headers bom_details manufacturing_orders
         manufacturing_order_materials production_receipts set_bom_headers].
    split; [reflexivity|]. split; [reflexivity|].
    split.
    { apply extends_map. intro h.
      destruct (h_id h =? bom_id)%Z;
        [unfold same_header_core; cbn; tauto | apply same_header_core_refl]. }
    split; [now apply extends_refl|].
    split; [apply extends_refl, same_order_core_refl|].
    split; [apply extends_refl, same_requirement_core_refl|].
    now apply extends_refl.
  - destruct (new_order_view_cases now ty bom_id qty src tgt prio s)
      as [->|(bom_info & _ & ->)]; [apply pages_keep_refl|].
    set (data := mk_order_data _ _ _ _ _ _ _ _).
    destruct (create_order_effect now data s)
      as (s' & o & new & E & P & W & H & D & O & _ & _ & M & _).
    rewrite E. cbn [fst]. unfold pages_keep.
    split; [exact P|]. split; [exact W|].
    split; [apply extends_same; [apply same_header_core_refl | exact H]|].
    split; [now apply extends_same|].
    split; [rewrite O; apply extends_app, same_order_core_refl|].
    split; [rewrite M; apply extends_app, same_requirement_core_refl|].
    apply extends_same; [reflexivity|].
    change (production_receipts s')
      with (production_receipts (fst (s', Ok (_generate_order_number now)))).
    now rewrite <- E.
  - destruct (issue_view_cases now uuid sel user s)
      as [->|(o & s1 & r & _ & _ & _ & I & ->)]; [apply pages_keep_refl|].
    apply issue_materials_ok in I.
    destruct I as (P & W & H & D & O & M & R & _).
    unfold pages_keep, update_order_status.
    cbn [products warehouses bom_headers bom_details manufacturing_orders
         manufacturing_order_materials production_receipts set_orders].
    split; [exact P|]. split; [exact W|].
    split; [apply extends_same; [apply same_header_core_refl | exact H]|].
    split; [now apply extends_same|].
    split.
    { rewrite O. apply extends_map.
      apply (update_by_id_core sel (set_status IN_PROGRESS)).
      intro x. unfold same_order_core. cbn. tauto. }
    split; [rewrite M; apply mark_issued_core|].
    now apply extends_same.
  - destruct (complete_view_cases now uuid sel qty batch quality s)
      as [->|(o & order & _ & _ & _ & D & ->)]; [apply pages_keep_refl|].
    destruct (complete_production_effect now uuid sel (inject_Z qty) batch
                quality s order D)
      as (s' & receipt & lot & E & P & W & H & Dd & M & O & R & _).
    rewrite E. cbn [fst]. unfold pages_keep.
    split; [exact P|]. split; [exact W|].
    split; [apply extends_same; [apply same_header_core_refl | exact H]|].
    split; [now apply extends_same|].
    split.
    { rewrite O. apply extends_map.
      apply (update_by_id_core sel (complete_order_row (inject_Z qty) now)).
      intro x. unfold same_order_core. cbn. tauto. }
    split; [apply extends_same; [apply same_requirement_core_refl | exact M]|].
    rewrite R. now apply extends_app.
Qed.

End FrameFacts.

(** X27: the pages only add rows and advance them.  Whatever the sequence
    of page actions, products and warehouses are unchanged; BOM lines and
    receipts are never changed, only added; every BOM header keeps its id,
    type, product, unit and delete flag; every order keeps its id, number,
    entity, BOM, product, planned quantity, unit, warehouses, priority and
    delete flag; every requirement row keeps its id, order, material,
    required quantity, unit and warehouse; rows keep their order in the
    table and new rows come after them. *)
Theorem pages_only_add_and_advance (s0 s : db) :
  Pages.steps s0 s -> pages_keep s0 s.
Proof.
  intro St. induction St as [|s1 s2 s3 St IH Step];
    [apply pages_keep_refl|].
  exact (pages_keep_trans s1 s2 s3 IH (step_keeps s2 s3 Step)).
Qed.

Lemma pages_only_add_sample :
  Pages.steps Samples.stocked_db Samples.after_completion
  /\ pages_keep Samples.stocked_db Samples.after_completion.
Proof.
  split; [exact sample_page_steps|].
  exact (pages_only_add_and_advance Samples.stocked_db
           Samples.after_completion sample_page_steps).
Defined.
